(** * StudyBuddy AI: the inference engine (package [ai])

    A shallow embedding of [internal/ai] (the engine that talks to the
    Ollama backend, parses and validates its replies and falls back to an
    offline problem bank), followed by the properties of the engine that
    the specification states.

    Conventions of the embedding:
    - a Go [string] is a [string] of bytes (the source text is UTF-8, and so
      are the literals below); [strings.Contains], [strings.Index] and the
      slices work on bytes, as in Go;
    - a Go [int] is a [Z] kept in the 64-bit range; arithmetic that can leave
      the range goes through [wrapInt];
    - a [map[string]T] is a [gmap string T]; a missing key reads as the zero
      value, as in Go;
    - the receiver [*Engine] is passed and returned explicitly; the mutex
      protects single field updates and is not modelled;
    - a function that can panic (index out of range) returns an [option],
      [None] being the panic;
    - an [error] is a value of type [error], rendered to the text of the
      source by [errorString]. *)

From Stdlib Require Import ZArith NArith String Ascii List Bool Lia DecimalString.
From stdpp Require Import gmap strings list.
From Stdlib Require DecimalZ DecimalPos.

Local Open Scope Z_scope.

(** ** The Go library functions the engine uses *)

Module GoStrings.

(** The value of a byte. *)
Definition code (c : ascii) : Z := Z.of_N (N_of_ascii c).

Definition byteIs (c : ascii) (n : Z) : bool := code c =? n.

(** [strings.HasPrefix]. *)
Fixpoint HasPrefix (s prefix : string) {struct prefix} : bool :=
  match prefix with
  | EmptyString => true
  | String p prefix' =>
      match s with
      | EmptyString => false
      | String c s' => Ascii.eqb c p && HasPrefix s' prefix'
      end
  end.

(** [strings.Index]: the byte index of the first occurrence, or -1. *)
Fixpoint Index (s substr : string) : Z :=
  if HasPrefix s substr then 0
  else match s with
       | EmptyString => -1
       | String _ s' =>
           let i := Index s' substr in
           if i <? 0 then -1 else i + 1
       end.

(** [strings.Contains] is [Index(s, substr) >= 0]. *)
Definition Contains (s substr : string) : bool := 0 <=? Index s substr.

(** The slices [s[:n]] and [s[n:]] for [0 <= n <= len(s)]. *)
Fixpoint sliceTo (s : string) (n : nat) : string :=
  match n, s with
  | S n', String c s' => String c (sliceTo s' n')
  | _, _ => EmptyString
  end.

Fixpoint sliceFrom (s : string) (n : nat) : string :=
  match n, s with
  | S n', String _ s' => sliceFrom s' n'
  | _, _ => s
  end.

Fixpoint reverse (s acc : string) : string :=
  match s with
  | EmptyString => acc
  | String c s' => reverse s' (String c acc)
  end.

(** White space as [unicode.IsSpace] has it, in UTF-8:
    the six ASCII characters, U+0085 and U+00A0 (two bytes), and
    U+1680, U+2000..U+200A, U+2028, U+2029, U+202F, U+205F, U+3000
    (three bytes). *)
Definition asciiSpace (a : ascii) : bool :=
  byteIs a 9 || byteIs a 10 || byteIs a 11 || byteIs a 12 || byteIs a 13
  || byteIs a 32.

Definition space2 (a b : ascii) : bool :=
  byteIs a 194 && (byteIs b 133 || byteIs b 160).

Definition space3 (a b c : ascii) : bool :=
  (byteIs a 225 && byteIs b 154 && byteIs c 128)
  || (byteIs a 226 && byteIs b 128
      && (((128 <=? code c) && (code c <=? 138))
          || byteIs c 168 || byteIs c 169 || byteIs c 175))
  || (byteIs a 226 && byteIs b 129 && byteIs c 159)
  || (byteIs a 227 && byteIs b 128 && byteIs c 128).

(** [strings.TrimLeftFunc(s, unicode.IsSpace)]. *)
Fixpoint trimLeft (s : string) : string :=
  match s with
  | EmptyString => s
  | String a s1 =>
      if asciiSpace a then trimLeft s1
      else match s1 with
           | EmptyString => s
           | String b s2 =>
               if space2 a b then trimLeft s2
               else match s2 with
                    | EmptyString => s
                    | String c s3 =>
                        if space3 a b c then trimLeft s3 else s
                    end
           end
  end.

(** The same from the end, on the reversed string: the bytes of a
    character come last byte first. *)
Fixpoint trimLeftRev (s : string) : string :=
  match s with
  | EmptyString => s
  | String a s1 =>
      if asciiSpace a then trimLeftRev s1
      else match s1 with
           | EmptyString => s
           | String b s2 =>
               if space2 b a then trimLeftRev s2
               else match s2 with
                    | EmptyString => s
                    | String c s3 =>
                        if space3 c b a then trimLeftRev s3 else s
                    end
           end
  end.

Definition trimRight (s : string) : string :=
  reverse (trimLeftRev (reverse s EmptyString)) EmptyString.

(** [strings.TrimSpace]. *)
Definition TrimSpace (s : string) : string := trimRight (trimLeft s).

(** [strings.Split(s, "\n")]: the pieces between the line feeds; there is
    always at least one piece. *)
Fixpoint splitLines (s : string) (cur : string) : list string :=
  match s with
  | EmptyString => [reverse cur EmptyString]
  | String c s' =>
      if byteIs c 10 then reverse cur EmptyString :: splitLines s' EmptyString
      else splitLines s' (String c cur)
  end.

Definition SplitNewline (s : string) : list string := splitLines s EmptyString.

(** [strings.ReplaceAll(s, "```", "")]: the occurrences are taken from the
    left and do not overlap. *)
Fixpoint RemoveFences (s : string) : string :=
  match s with
  | EmptyString => EmptyString
  | String a s1 =>
      match s1 with
      | String b (String c s3) =>
          if byteIs a 96 && byteIs b 96 && byteIs c 96 then RemoveFences s3
          else String a (RemoveFences s1)
      | _ => String a (RemoveFences s1)
      end
  end.

(** The 64-bit [int]. *)
Definition minInt : Z := - 2 ^ 63.
Definition maxInt : Z := 2 ^ 63 - 1.
Definition wrapInt (z : Z) : Z := (z + 2 ^ 63) mod 2 ^ 64 - 2 ^ 63.

(** [strconv.Atoi]: an optional sign and at least one decimal digit; a
    value outside [int] is an error. *)
Definition digitVal (c : ascii) : option Z :=
  if (48 <=? code c) && (code c <=? 57) then Some (code c - 48) else None.

Fixpoint parseDigits (s : string) (acc : Z) : option Z :=
  match s with
  | EmptyString => Some acc
  | String c s' =>
      match digitVal c with
      | Some d => parseDigits s' (10 * acc + d)
      | None => None
      end
  end.

Definition Atoi (s : string) : option Z :=
  match s with
  | EmptyString => None
  | String c s' =>
      let '(neg, digits) :=
        if byteIs c 45 then (true, s')
        else if byteIs c 43 then (false, s')
        else (false, s) in
      match digits with
      | EmptyString => None
      | _ =>
          match parseDigits digits 0 with
          | None => None
          | Some n =>
              let v := if neg then - n else n in
              if (minInt <=? v) && (v <=? maxInt) then Some v else None
          end
      end
  end.

(** The verb [%d] of [fmt.Sprintf]. *)
Definition formatInt (z : Z) : string := NilZero.string_of_int (Z.to_int z).

(** [strings.Join(l, sep)]. *)
Fixpoint Join (l : list string) (sep : string) : string :=
  match l with
  | [] => EmptyString
  | [x] => x
  | x :: l' => (x ++ sep ++ Join l' sep)%string
  end.

End GoStrings.

(** ** The engine *)

Module Ai.
Import GoStrings.

(** *** Types *)

(** [config.AIConfig]; the two float fields ([Temperature], [TopP]) are
    never read by the engine and are left out. *)
Record AIConfig := {
  Model : string;
  MaxTokens : Z;
  OllamaURL : string
}.

(** [time.Time], as a count of ticks; [zeroTime] is [time.Time{}]. *)
Definition Time := Z.
Definition zeroTime : Time := 0.

Record Engine := mkEngine {
  config : AIConfig;
  isOnline : bool;
  lastCheck : Time;
  failureCount : Z;
  problemIndex : gmap string Z
}.

Record Problem := mkProblem {
  Title : string;
  Description : string;
  Options : list string;
  CorrectAnswer : Z;
  Explanation : string;
  Difficulty : Z;
  EstimatedTime : Z;
  Encouragement : string;
  ProblemType : string
}.

(** [StudyContext]; the engine reads [Subject], [Grade] and
    [Difficulty] only, the progress and history fields are left out. *)
Record StudyContext := {
  UserID : string;
  Subject : string;
  Grade : Z;
  CtxDifficulty : Z;
  CtxEmotion : string
}.

Record FeedbackRequest := {
  ReqProblem : Problem;
  UserAnswer : string;
  IsCorrect : bool;
  TimeTaken : Z;
  ReqEmotion : string;
  ReqStudyContext : StudyContext
}.

Record FeedbackResponse := {
  Message : string;
  FbExplanation : string;
  FbEncouragement : string;
  NextSteps : string;
  TipOfDay : string
}.

Record OllamaRequest := {
  ReqModel : string;
  Prompt : string;
  Stream : bool;
  ReqOptions : list (string * string)
}.

Record OllamaResponse := {
  Response : string;
  Done : bool;
  Error : string
}.

(** The errors of the package, one constructor per [fmt.Errorf] of the
    source; [errorString] gives the message. *)
Inductive error :=
| RequestBuildError (cause : string)
| HTTPRequestError (cause : string)
| APIStatusError (status : Z) (body : string)
| OllamaStreamError (msg : string)
| StreamReadError (cause : string)
| ResponseParseError (response : string)
| ProblemValidationError (cause : error)
| MissingTitle
| MissingDescription
| InsufficientOptions
| IndexOutOfRange
| DifficultyOutOfRange
| ForbiddenReference (phrase : string)
| GeometricInconsistency (cause : error)
| AngleBNot90 (correctAnswer : string).

Fixpoint errorString (e : error) : string :=
  match e with
  | RequestBuildError c => "HTTPリクエスト作成エラー: " +:+ c
  | HTTPRequestError c => "HTTPリクエストエラー: " +:+ c
  | APIStatusError st body =>
      "ollama APIエラー: " +:+ formatInt st +:+ " - " +:+ body
  | OllamaStreamError m => "ollama処理エラー: " +:+ m
  | StreamReadError c => "ストリーミング読み取りエラー: " +:+ c
  | ResponseParseError r => "レスポンス解析エラー: " +:+ r
  | ProblemValidationError c => "問題検証エラー: " +:+ errorString c
  | MissingTitle => "タイトルが空です"
  | MissingDescription => "問題文が空です"
  | InsufficientOptions => "選択肢が不足しています（最低2つ必要）"
  | IndexOutOfRange => "正解インデックスが無効です"
  | DifficultyOutOfRange => "難易度が範囲外です（1-5）"
  | ForbiddenReference p =>
      "数学問題で架空資料への参照が検出されました: " +:+ p
  | GeometricInconsistency c =>
      "二等辺三角形問題の数学的エラー: " +:+ errorString c
  | AngleBNot90 a =>
      "二等辺三角形で角A=角C=45度の場合、角B=90度が正解ですが、設定された正解は "
      +:+ a +:+ " です"
  end.

(** A Go result [(T, error)]. *)
Inductive result (A : Type) :=
| Ok (a : A)
| Err (e : error).
Arguments Ok {A} a.
Arguments Err {A} e.

(** What the HTTP round trip of one [generate] call gives: an error of
    [http.NewRequestWithContext] or of [Client.Do], or a response, whose
    body is read whole ([io.ReadAll]) on a status other than 200 and
    line by line otherwise.  [Scanner] is what the [bufio.Scanner] over
    the body delivers: the tokens of successive [Scan] calls, and the
    value of [Err] once the loop is left. *)
Record Scanner := {
  tokens : list string;
  scanErr : option string
}.

Inductive RoundTrip :=
| NewRequestFails (cause : string)
| DoFails (cause : string)
| Responds (StatusCode : Z) (body : string) (lines : Scanner).

(** The backend: the answer to a POST of a request to a URL. *)
Definition Backend := string -> OllamaRequest -> RoundTrip.

(** [s[i]] on a slice: [None] is the index-out-of-range panic. *)
Definition index {A} (l : list A) (i : Z) : option A :=
  if i <? 0 then None else l !! Z.to_nat i.

Definition len {A} (l : list A) : Z := Z.of_nat (length l).

Definition nonEmpty (s : string) : bool := negb (String.eqb s "").

(** *** Connection state *)

Definition setOnline (e : Engine) (now : Time) : Engine :=
  {| config := config e; isOnline := true; lastCheck := now;
     failureCount := 0; problemIndex := problemIndex e |}.

Definition NewEngine (cfg : AIConfig) (now : Time) : Engine :=
  setOnline
    {| config := cfg; isOnline := true; lastCheck := zeroTime;
       failureCount := 0; problemIndex := ∅ |} now.

Definition shouldTryAI (e : Engine) : bool := true.

Definition recordFailure (e : Engine) (now : Time) : Engine :=
  {| config := config e; isOnline := false; lastCheck := now;
     failureCount := wrapInt (failureCount e + 1);
     problemIndex := problemIndex e |}.

Definition recordSuccess (e : Engine) (now : Time) : Engine :=
  {| config := config e; isOnline := true; lastCheck := now;
     failureCount := 0; problemIndex := problemIndex e |}.

Definition setProblemIndex (e : Engine) (key : string) (v : Z) : Engine :=
  {| config := config e; isOnline := isOnline e; lastCheck := lastCheck e;
     failureCount := failureCount e;
     problemIndex := <[key := v]> (problemIndex e) |}.

(** *** Prompts *)

Definition dq : string := String "034"%char EmptyString.

Definition gradeContent : gmap Z (gmap string string) :=
  <[1 := <["数学" := "正の数・負の数、文字と式、一次方程式、比例と反比例、平面図形、空間図形、データの活用"]>
        (<["英語" := "アルファベット、基本単語、be動詞、一般動詞、疑問文、否定文、現在進行形"]>
        (<["国語" := "漢字の読み書き、詩歌の鑑賞、説明文の読解、古典の基礎、文法（品詞）"]>
        (<["理科" := "植物の生活と種類、身のまわりの物質、光・音・力、大地の変化"]>
        (<["社会" := "世界の地理、日本の地理、歴史（古代文明から平安時代）"]> ∅))))]>
  (<[2 := <["数学" := "式の計算、連立方程式、一次関数、図形の性質と合同、確率、データの活用"]>
        (<["英語" := "過去形、未来形、助動詞、比較級・最上級、不定詞、動名詞"]>
        (<["国語" := "短歌・俳句、説明文・論説文、小説、古典（古文・漢文の基礎）、敬語"]>
        (<["理科" := "動物の生活と生物の変遷、電流とその利用、化学変化と原子・分子、天気とその変化"]>
        (<["社会" := "日本の歴史（鎌倉時代から江戸時代）、世界と日本の地理"]> ∅))))]>
  (<[3 := <["数学" := "二次方程式、二次関数、相似、三平方の定理、円の性質、標本調査"]>
        (<["英語" := "現在完了、受動態、関係代名詞、間接疑問文、分詞"]>
        (<["国語" := "近現代文学、古典文学、文法の総復習、論説文・評論文の読解"]>
        (<["理科" := "生命の連続性、運動とエネルギー、化学変化とイオン、地球と宇宙"]>
        (<["社会" := "日本の歴史（明治維新から現代）、公民（政治・経済・国際社会）"]> ∅))))]>
   ∅)).

Definition gradeText : list string := [""; "中1"; "中2"; "中3"].

Definition mathConstraintsText : string := "

【数学的正確性の絶対要求】
- 必ず問題作成前に全ての計算を実行し検証すること
- 角度問題：三角形の内角の和=180度、二等辺三角形で等しい角の計算を正確に行う
- 方程式問題：必ず代入して検算し正解を確認する
- 計算問題：全ての演算を段階的に実行し検証する
- 正解以外の選択肢も数学的に意味のある値にする
- 学習指導要領に完全準拠した内容のみ出題する".

Definition quoted (s : string) : string := dq +:+ s +:+ dq.

(** [buildPersonalizedPrompt]; [None] is the panic of
    [gradeText[context.Grade]]. *)
Definition buildPersonalizedPrompt (context : StudyContext) : option string :=
  let content :=
    default "" (default ∅ (gradeContent !! Grade context) !! Subject context) in
  let mathConstraints :=
    if String.eqb (Subject context) "数学" || String.eqb (Subject context) "算数"
    then mathConstraintsText else "" in
  g ← index gradeText (Grade context);
  Some (g +:+ Subject context +:+ "の問題を1問作成。

【重要な制約】
- 学習範囲: " +:+ content +:+ "
- 上記範囲のみから出題すること
- 架空の資料、文章、教科書は一切参照しないこと
- " +:+ quoted "次の文中から" +:+ quoted "下の図" +:+ quoted "以下の文"
    +:+ quoted "次の文字" +:+ quoted "次の単語" +:+ quoted "次の数式"
    +:+ quoted "次の図" +:+ quoted "次の表は" +:+ quoted "次の資料"
    +:+ "といった、問題文には存在しない資料への言及は絶対禁止
- 問題文には必要なすべての情報（例文、数式、数値など）を直接含めること
- 問題文は必ず完全に自己完結させること" +:+ mathConstraints +:+ "

形式:
TITLE: タイトル
DESCRIPTION: 問題文
OPTION1: 選択肢1
OPTION2: 選択肢2
OPTION3: 選択肢3
OPTION4: 選択肢4
CORRECT: 1
EXPLANATION: 解説
DIFFICULTY: " +:+ formatInt (CtxDifficulty context) +:+ "
TIME: 180
ENCOURAGEMENT: 応援メッセージ
TYPE: カテゴリ

上記形式のみで回答。").

(** The test [isMathProblem] of [buildFeedbackPrompt]. *)
Definition feedbackIsMathProblem (description : string) : bool :=
  Contains description "角"
  || Contains description "三角形"
  || Contains description "度"
  || Contains description "計算"
  || Contains description "方程式"
  || Contains description "面積"
  || Contains description "体積"
  || Contains description "√"
  || Contains description "²"
  || Contains description "平方"
  || Contains description "=".

Definition mathFeedbackFormat : string := "

【重要】数学問題のため、必ず計算過程を含めること。

フィードバックを以下形式で:

MESSAGE: メッセージ
CALCULATION: 段階的計算過程（必須）
EXPLANATION: 数学的根拠と解説
ENCOURAGEMENT: 励まし
NEXT_STEPS: 次のステップ
TIP: 数学のコツ

例）二等辺三角形で角A=角C=60度の場合:
CALCULATION: 角A + 角B + 角C = 180度, 60度 + 角B + 60度 = 180度, 角B = 180度 - 120度 = 60度

上記形式のみで回答。".

Definition plainFeedbackFormat : string := "

フィードバックを以下形式で:

MESSAGE: メッセージ
EXPLANATION: 解説
ENCOURAGEMENT: 励まし
NEXT_STEPS: 次のステップ
TIP: コツ

上記形式のみで回答。".

(** [buildFeedbackPrompt]; [None] is the panic of
    [Options[CorrectAnswer]]. *)
Definition buildFeedbackPrompt (req : FeedbackRequest) : option string :=
  let resultText := if IsCorrect req then "正解" else "不正解" in
  let isMathProblem := feedbackIsMathProblem (Description (ReqProblem req)) in
  correct ← index (Options (ReqProblem req)) (CorrectAnswer (ReqProblem req));
  let basePrompt :=
    "結果: " +:+ resultText +:+ "
問題: " +:+ Description (ReqProblem req) +:+ "
回答: " +:+ UserAnswer req +:+ "
正解: " +:+ correct in
  if isMathProblem then Some (basePrompt +:+ mathFeedbackFormat)
  else Some (basePrompt +:+ plainFeedbackFormat).

(** *** Response parsing *)

(** The state of the loop of [parseKeyValueResponse]. *)
Record parseState := {
  fields : gmap string string;
  currentKey : string;
  currentValue : string
}.

(** What the loop does at its exit, and before it opens a new key. *)
Definition flushKey (st : parseState) : gmap string string :=
  if nonEmpty (currentKey st)
  then <[currentKey st := TrimSpace (currentValue st)]> (fields st)
  else fields st.

(** One iteration of the loop. *)
Definition parseLine (st : parseState) (rawLine : string) : parseState :=
  let line := TrimSpace rawLine in
  if String.eqb line "" then st
  else
    let colonIndex := Index line ":" in
    if negb (colonIndex =? -1) then
      {| fields := flushKey st;
         currentKey := TrimSpace (sliceTo line (Z.to_nat colonIndex));
         currentValue := TrimSpace (sliceFrom line (Z.to_nat (colonIndex + 1))) |}
    else if nonEmpty (currentKey st) then
      {| fields := fields st;
         currentKey := currentKey st;
         currentValue :=
           (if 0 <? Z.of_nat (String.length (currentValue st))
            then currentValue st +:+ "
" else currentValue st) +:+ line |}
    else st.

Definition parseKeyValueResponse (response : string) : gmap string string :=
  let response := RemoveFences response in
  let response := TrimSpace response in
  let lines := SplitNewline response in
  flushKey
    (fold_left parseLine lines
       {| fields := ∅; currentKey := ""; currentValue := "" |}).

Definition getField (fields : gmap string string) (key defaultValue : string)
  : string :=
  match fields !! key with
  | Some value => if nonEmpty value then value else defaultValue
  | None => defaultValue
  end.

Definition parseInt (value : string) : Z :=
  match Atoi value with
  | Some result => result
  | None => 0
  end.

(** *** Validation *)

Definition setEstimatedTime (p : Problem) (t : Z) : Problem :=
  {| Title := Title p; Description := Description p; Options := Options p;
     CorrectAnswer := CorrectAnswer p; Explanation := Explanation p;
     Difficulty := Difficulty p; EstimatedTime := t;
     Encouragement := Encouragement p; ProblemType := ProblemType p |}.

(** The test [isMathProblem] of [validateProblem]. *)
Definition validateIsMathProblem (description : string) : bool :=
  Contains description "角"
  || Contains description "三角形"
  || Contains description "度"
  || Contains description "計算"
  || Contains description "方程式"
  || Contains description "√"
  || Contains description "²"
  || Contains description "=".

Definition forbiddenPhrases : list string :=
  ["次の文中から"; "下の図"; "以下の文"; "次の文字は"; "次の単語は";
   "次の数式は"; "次の図"; "次の表は"; "次の資料"].

(** The loop over [forbiddenPhrases]: the first phrase that the
    description contains. *)
Fixpoint firstForbidden (description : string) (phrases : list string)
  : option string :=
  match phrases with
  | [] => None
  | phrase :: rest =>
      if Contains description phrase then Some phrase
      else firstForbidden description rest
  end.

(** [validateIsoscelesTriangleProblem]: the outer [None] is the panic of
    [Options[CorrectAnswer]], the inner one the nil error. *)
Definition validateIsoscelesTriangleProblem (problem : Problem)
  : option (option error) :=
  if Contains (Description problem) "45度" && Contains (Description problem) "角B"
  then
    correctAnswer ← index (Options problem) (CorrectAnswer problem);
    if negb (Contains correctAnswer "90")
    then Some (Some (AngleBNot90 correctAnswer))
    else Some None
  else Some None.

(** [validateProblem] works on a pointer: it returns the problem as it
    leaves it (the estimated time may be replaced) and the error. *)
Definition validateProblem (problem : Problem)
  : option (Problem * option error) :=
  if String.eqb (Title problem) "" then Some (problem, Some MissingTitle)
  else if String.eqb (Description problem) "" then
    Some (problem, Some MissingDescription)
  else if len (Options problem) <? 2 then
    Some (problem, Some InsufficientOptions)
  else if (CorrectAnswer problem <? 0)
          || (len (Options problem) <=? CorrectAnswer problem) then
    Some (problem, Some IndexOutOfRange)
  else if (Difficulty problem <? 1) || (5 <? Difficulty problem) then
    Some (problem, Some DifficultyOutOfRange)
  else
    let problem :=
      if EstimatedTime problem <=? 0 then setEstimatedTime problem 300
      else problem in
    if validateIsMathProblem (Description problem) then
      match firstForbidden (Description problem) forbiddenPhrases with
      | Some phrase => Some (problem, Some (ForbiddenReference phrase))
      | None =>
          if Contains (Description problem) "二等辺三角形"
             && Contains (Description problem) "角"
          then
            r ← validateIsoscelesTriangleProblem problem;
            match r with
            | Some err => Some (problem, Some (GeometricInconsistency err))
            | None => Some (problem, None)
            end
          else Some (problem, None)
      end
    else Some (problem, None).

(** [parseProblemResponse]; [None] is a panic. *)
Definition parseProblemResponse (response : string)
  : option (result Problem) :=
  let fields := parseKeyValueResponse response in
  if Nat.eqb (size fields) 0 then Some (Err (ResponseParseError response))
  else
    let problem :=
      {| Title := getField fields "TITLE" "";
         Description := getField fields "DESCRIPTION" "";
         Options := [getField fields "OPTION1" "";
                     getField fields "OPTION2" "";
                     getField fields "OPTION3" "";
                     getField fields "OPTION4" ""];
         CorrectAnswer := wrapInt (parseInt (getField fields "CORRECT" "1") - 1);
         Explanation := getField fields "EXPLANATION" "";
         Difficulty := parseInt (getField fields "DIFFICULTY" "3");
         EstimatedTime := parseInt (getField fields "TIME" "300");
         Encouragement := getField fields "ENCOURAGEMENT" "";
         ProblemType := getField fields "TYPE" "" |} in
    '(problem, verr) ← validateProblem problem;
    match verr with
    | Some err => Some (Err (ProblemValidationError err))
    | None => Some (Ok problem)
    end.

Definition parseFeedbackResponse (response : string) : result FeedbackResponse :=
  let fields := parseKeyValueResponse response in
  if Nat.eqb (size fields) 0 then Err (ResponseParseError response)
  else
    Ok {| Message := getField fields "MESSAGE" "";
          FbExplanation := getField fields "EXPLANATION" "";
          FbEncouragement := getField fields "ENCOURAGEMENT" "";
          NextSteps := getField fields "NEXT_STEPS" "";
          TipOfDay := getField fields "TIP" "" |}.

(** *** The offline bank *)

Definition mathGrade1 : list Problem :=
  [ {| Title := "正負の数の計算";
       Description := "次の計算をしてください。
(-3) + (+5) = ?";
       Options := ["+2"; "-2"; "+8"; "-8"];
       CorrectAnswer := 0;
       Explanation := "(-3) + (+5) = 5 - 3 = +2 です。正の数から負の数を引くときは、符号に注意しましょう。";
       Difficulty := 2;
       EstimatedTime := 180;
       Encouragement := "正負の数の計算は慣れれば簡単です！";
       ProblemType := "計算" |};
    {| Title := "文字と式";
       Description := "x = 3 のとき、2x + 1 の値を求めてください。";
       Options := ["5"; "6"; "7"; "8"];
       CorrectAnswer := 2;
       Explanation := "x = 3 を代入すると、2×3 + 1 = 6 + 1 = 7 です。";
       Difficulty := 3;
       EstimatedTime := 200;
       Encouragement := "代入の計算は順序を守れば確実に解けます！";
       ProblemType := "文字式" |};
    {| Title := "平方根の計算";
       Description := "✓ 9 の値はいくつでしょうか？";
       Options := ["3"; "4"; "6"; "9"];
       CorrectAnswer := 0;
       Explanation := "✓ 9 = 3 です。なぜなら3 × 3 = 9 だからです。";
       Difficulty := 2;
       EstimatedTime := 160;
       Encouragement := "平方根は九九を覚えるとよいでしょう！";
       ProblemType := "平方根" |} ].

Definition mathGrade2 : list Problem :=
  [ {| Title := "連立方程式";
       Description := "次の連立方程式を解いてください。
x + y = 5
x - y = 1
xの値は？";
       Options := ["1"; "2"; "3"; "4"];
       CorrectAnswer := 2;
       Explanation := "2つの式を足すと 2x = 6 なので x = 3 です。";
       Difficulty := 3;
       EstimatedTime := 300;
       Encouragement := "連立方程式は代入法や加減法をマスターすれば簡単です！";
       ProblemType := "方程式" |};
    {| Title := "一次関数";
       Description := "y = 2x + 1 において、x = 2 のときの y の値は？";
       Options := ["3"; "4"; "5"; "6"];
       CorrectAnswer := 2;
       Explanation := "y = 2 × 2 + 1 = 4 + 1 = 5 です。";
       Difficulty := 3;
       EstimatedTime := 200;
       Encouragement := "一次関数の代入は基本です！";
       ProblemType := "関数" |} ].

Definition mathGrade3 : list Problem :=
  [ {| Title := "二次方程式";
       Description := "二次方程式 x² - 5x + 6 = 0 を解いてください。
解のうち小さい方は？";
       Options := ["1"; "2"; "3"; "6"];
       CorrectAnswer := 1;
       Explanation := "因数分解すると (x-2)(x-3) = 0 なので、x = 2, 3 です。小さい方は 2 です。";
       Difficulty := 4;
       EstimatedTime := 400;
       Encouragement := "二次方程式は因数分解の基本をマスターすれば解けます！";
       ProblemType := "二次方程式" |};
    {| Title := "平方根の应用";
       Description := "√50 を簡単な形に表すと？";
       Options := ["5√2"; "2√5"; "25"; "50"];
       CorrectAnswer := 0;
       Explanation := "√50 = √(25 × 2) = 5√2 です。";
       Difficulty := 4;
       EstimatedTime := 350;
       Encouragement := "平方根の簡単化は因数分解が鍵です！";
       ProblemType := "平方根" |};
    {| Title := "二等辺三角形の角度";
       Description := "二等辺三角形ABCで、角A = 角C = 45度のとき、角Bの大きさは何度ですか？";
       Options := ["45度"; "60度"; "90度"; "120度"];
       CorrectAnswer := 2;
       Explanation := "三角形の内角の和は180度です。角A + 角B + 角C = 180度なので、45度 + 角B + 45度 = 180度、よって角B = 180度 - 90度 = 90度です。";
       Difficulty := 3;
       EstimatedTime := 250;
       Encouragement := "二等辺三角形の性質と三角形の内角の和を理解すれば解けます！";
       ProblemType := "図形" |} ].

Definition mathProblems : gmap Z (list Problem) :=
  <[1 := mathGrade1]> (<[2 := mathGrade2]> (<[3 := mathGrade3]> ∅)).

Definition defaultMathProblem : Problem :=
  {| Title := "基本計算";
     Description := "7 + 8 = ?";
     Options := ["14"; "15"; "16"; "17"];
     CorrectAnswer := 1;
     Explanation := "7 + 8 = 15 です。";
     Difficulty := 1;
     EstimatedTime := 120;
     Encouragement := "計算の基本から始めましょう！";
     ProblemType := "基本計算" |}.

Definition englishProblems : list Problem :=
  [ {| Title := "基本英単語";
       Description := "次の英単語の意味として正しいものを選んでください。
「book」の意味は？";
       Options := ["本"; "ペン"; "机"; "椅子"];
       CorrectAnswer := 0;
       Explanation := "「book」は「本」という意味です。基本的な英単語ですね。";
       Difficulty := 2;
       EstimatedTime := 150;
       Encouragement := "英単語を覚えることで英語の理解が深まります！";
       ProblemType := "語彙" |};
    {| Title := "動詞の意味";
       Description := "「play」の意味として正しいものは？";
       Options := ["遊ぶ"; "食べる"; "歩く"; "寝る"];
       CorrectAnswer := 0;
       Explanation := "「play」は「遊ぶ」という意味です。";
       Difficulty := 2;
       EstimatedTime := 140;
       Encouragement := "動詞を理解することが英語上達の鍵です！";
       ProblemType := "動詞" |};
    {| Title := "形容詞の利用";
       Description := "「big」の反対の意味の単語は？";
       Options := ["small"; "fast"; "good"; "new"];
       CorrectAnswer := 0;
       Explanation := "「big」の反対は「small」です。";
       Difficulty := 2;
       EstimatedTime := 130;
       Encouragement := "反対語を覚えると語彙が増えます！";
       ProblemType := "形容詞" |} ].

Definition japaneseProblem : Problem :=
  {| Title := "漢字の読み";
     Description := "次の漢字の読み方として正しいものを選んでください。
「学習」の読み方は？";
     Options := ["がくしゅう"; "がくしゅ"; "がくしゆう"; "がくし"];
     CorrectAnswer := 0;
     Explanation := "「学習」は「がくしゅう」と読みます。日々の学習で身につけましょう。";
     Difficulty := 2;
     EstimatedTime := 150;
     Encouragement := "漢字の読み方は練習すれば必ず覚えられます！";
     ProblemType := "漢字" |}.

Definition scienceProblem : Problem :=
  {| Title := "植物の基本";
     Description := "植物が光合成を行うために必要なものとして正しくないものはどれですか？";
     Options := ["二酸化炭素"; "水"; "光"; "酸素"];
     CorrectAnswer := 3;
     Explanation := "光合成には二酸化炭素、水、光が必要です。酸素は光合成の産物です。";
     Difficulty := 3;
     EstimatedTime := 200;
     Encouragement := "生物の仕組みを理解することで自然への理解が深まります！";
     ProblemType := "生物" |}.

Definition socialStudiesProblem : Problem :=
  {| Title := "日本の地理";
     Description := "日本の首都はどこですか？";
     Options := ["大阪"; "京都"; "東京"; "名古屋"];
     CorrectAnswer := 2;
     Explanation := "日本の首都は東京です。政治や経済の中心地です。";
     Difficulty := 1;
     EstimatedTime := 120;
     Encouragement := "地理の知識は世界を理解する第一歩です！";
     ProblemType := "地理" |}.

Definition generalProblem : Problem :=
  {| Title := "一般常識";
     Description := "1年は何日でしょうか？（平年の場合）";
     Options := ["364日"; "365日"; "366日"; "367日"];
     CorrectAnswer := 1;
     Explanation := "平年は365日です。うるう年は366日になります。";
     Difficulty := 1;
     EstimatedTime := 120;
     Encouragement := "基本的な知識から学習を始めましょう！";
     ProblemType := "一般常識" |}.

(** The body shared by [getMathProblem] and [getEnglishProblem]: take the
    entry at the key's counter modulo the length ([%] truncates, as
    [Z.rem]), store the index plus one, return the entry. *)
Definition nextProblem (e : Engine) (subjectKey : string)
    (problems : list Problem) : option (Problem * Engine) :=
  let idx := Z.rem (default 0 (problemIndex e !! subjectKey)) (len problems) in
  let e := setProblemIndex e subjectKey (wrapInt (idx + 1)) in
  p ← index problems idx;
  Some (p, e).

Definition getMathProblem (e : Engine) (grade : Z) : option (Problem * Engine) :=
  let subjectKey := "数学_G" +:+ formatInt grade in
  match mathProblems !! grade with
  | Some problems =>
      if 0 <? len problems then nextProblem e subjectKey problems
      else Some (defaultMathProblem, e)
  | None => Some (defaultMathProblem, e)
  end.

(** [len(englishProblems)] is 3, so the [%] cannot divide by zero. *)
Definition getEnglishProblem (e : Engine) (grade : Z) : option (Problem * Engine) :=
  let subjectKey := "英語_G" +:+ formatInt grade in
  nextProblem e subjectKey englishProblems.

Definition getJapaneseProblem : Problem := japaneseProblem.
Definition getScienceProblem : Problem := scienceProblem.
Definition getSocialStudiesProblem : Problem := socialStudiesProblem.
Definition getGeneralProblem : Problem := generalProblem.

Definition generateOfflineProblem (e : Engine) (context : StudyContext)
  : option (Problem * Engine) :=
  let subject := Subject context in
  if String.eqb subject "数学" || String.eqb subject "算数" then
    getMathProblem e (Grade context)
  else if String.eqb subject "英語" then getEnglishProblem e (Grade context)
  else if String.eqb subject "国語" then Some (getJapaneseProblem, e)
  else if String.eqb subject "理科" then Some (getScienceProblem, e)
  else if String.eqb subject "社会" then Some (getSocialStudiesProblem, e)
  else Some (getGeneralProblem, e).

Definition generateOfflineFeedback (req : FeedbackRequest) : FeedbackResponse :=
  if IsCorrect req then
    {| Message := "🎉 正解です！よく頑張りました！";
       FbExplanation := "素晴らしい理解力です。この調子で学習を続けていきましょう。";
       FbEncouragement := "あなたの努力が実っています。この調子で頑張りましょう！";
       NextSteps := "次はもう少し難しい問題にチャレンジしてみましょう。";
       TipOfDay := "理解したことを自分の言葉で説明してみると、さらに記憶に定着しやすくなります。" |}
  else
    {| Message := "📚 おしい！間違いも学習の大切な一歩です。";
       FbExplanation := "今回は間違えましたが、これも貴重な学習経験です。正解を確認して理解を深めましょう。";
       FbEncouragement := "失敗は成功の母です。諦めずに続けていけば必ず理解できます！";
       NextSteps := "同じ問題を時間を置いてもう一度挑戦してみましょう。";
       TipOfDay := "間違えた問題は記録しておき、後で復習すると理解が深まります。" |}.

(** *** The streaming client and the coordinator

    [json.Unmarshal] into an [OllamaResponse] is a parameter: [None] is
    a decoding error. *)

Section Coordinator.

Variable unmarshal : string -> option OllamaResponse.

Definition generateOptions : list (string * string) :=
  [("temperature", "0.7"); ("top_p", "0.9"); ("top_k", "40");
   ("num_predict", "512"); ("num_ctx", "8192")].

(** The loop over [scanner.Scan()]: the text accumulated when the
    loop is left, or the error it returns with. *)
Fixpoint scanLoop (toks : list string) (fullResponse : string)
  : result string :=
  match toks with
  | [] => Ok fullResponse
  | line :: rest =>
      if String.eqb line "" then scanLoop rest fullResponse
      else
        match unmarshal line with
        | None => scanLoop rest fullResponse
        | Some ollamaResp =>
            if nonEmpty (Error ollamaResp) then
              Err (OllamaStreamError (Error ollamaResp))
            else
              let fullResponse := fullResponse +:+ Response ollamaResp in
              if Done ollamaResp then Ok fullResponse
              else scanLoop rest fullResponse
        end
  end.

(** [generate].  [json.Marshal] of the request cannot fail (strings, a
    boolean and finite numbers), so that error return has no
    counterpart; the context and its deadline act through the
    backend's answer. *)
Definition generate (e : Engine) (backend : Backend) (prompt : string)
  : result string :=
  let reqBody :=
    {| ReqModel := Model (config e); Prompt := prompt; Stream := true;
       ReqOptions := generateOptions |} in
  match backend (OllamaURL (config e) +:+ "/api/generate") reqBody with
  | NewRequestFails cause => Err (RequestBuildError cause)
  | DoFails cause => Err (HTTPRequestError cause)
  | Responds status body lines =>
      if negb (status =? 200) then Err (APIStatusError status body)
      else
        match scanLoop (tokens lines) "" with
        | Err err => Err err
        | Ok fullResponse =>
            match scanErr lines with
            | Some cause => Err (StreamReadError cause)
            | None => Ok (TrimSpace fullResponse)
            end
        end
  end.

(** [GeneratePersonalizedProblem]: the result and the engine after the
    call; [None] is a panic. *)
Definition GeneratePersonalizedProblem (e : Engine) (backend : Backend)
    (now : Time) (studyContext : StudyContext)
  : option (result Problem * Engine) :=
  if negb (shouldTryAI e) then
    '(p, e) ← generateOfflineProblem e studyContext; Some (Ok p, e)
  else
    prompt ← buildPersonalizedPrompt studyContext;
    match generate e backend prompt with
    | Err _ =>
        let e := recordFailure e now in
        '(p, e) ← generateOfflineProblem e studyContext;
        Some (Ok p, e)
    | Ok response =>
        let e := recordSuccess e now in
        r ← parseProblemResponse response;
        Some (r, e)
    end.

Definition GenerateFeedback (e : Engine) (backend : Backend)
    (now : Time) (req : FeedbackRequest)
  : option (result FeedbackResponse * Engine) :=
  if negb (shouldTryAI e) then Some (Ok (generateOfflineFeedback req), e)
  else
    prompt ← buildFeedbackPrompt req;
    match generate e backend prompt with
    | Err _ =>
        let e := recordFailure e now in
        Some (Ok (generateOfflineFeedback req), e)
    | Ok response =>
        let e := recordSuccess e now in
        Some (parseFeedbackResponse response, e)
    end.

End Coordinator.

End Ai.

(** ** A decoder for the fragments of the stream

    The engine is parametric in [json.Unmarshal].  [Json.Unmarshal] is the
    instance used in the examples: it decodes the objects the backend
    sends, whose members are strings, booleans, numbers or null, the way
    [encoding/json] decodes them into an [OllamaResponse] (member names
    compared up to ASCII case, unknown members ignored, null leaving the
    field as it is, a member of the wrong type an error).

    It is not [encoding/json] outside such lines, and differs from it in
    four ways: a member whose value is an array or an object is reported
    as an error, where the library skips an unknown member of any shape;
    a backslash-u escape is reported as an error, where the library
    decodes it; a byte that is not valid UTF-8 is kept as it is, where
    the library writes U+FFFD; and member names are compared up to the
    case of ASCII letters only, where the library folds Unicode case.
    The theorems hold for every decoder; the examples feed [Unmarshal]
    flat lines of ASCII member names, valid UTF-8 and no backslash-u
    escape, on which the two agree. *)

Module Json.
Import GoStrings Ai.

Inductive value :=
| VString (s : string)
| VBool (b : bool)
| VNumber
| VNull.

Inductive state :=
| Start
| FirstKey
| NextKey
| InKey (acc : string) (escaped : bool)
| BeforeColon (key : string)
| BeforeValue (key : string)
| InString (key : string) (acc : string) (escaped : bool)
| InLiteral (key : string) (acc : string)
| AfterValue
| Finished.

Definition isSpace (c : ascii) : bool :=
  byteIs c 32 || byteIs c 9 || byteIs c 10 || byteIs c 13.

Definition isDigit (c : ascii) : bool := (48 <=? code c) && (code c <=? 57).

(** The character an escape stands for. *)
Definition unescape (c : ascii) : option ascii :=
  if byteIs c 34 || byteIs c 92 || byteIs c 47 then Some c
  else if byteIs c 98 then Some "008"%char
  else if byteIs c 102 then Some "012"%char
  else if byteIs c 110 then Some "010"%char
  else if byteIs c 114 then Some "013"%char
  else if byteIs c 116 then Some "009"%char
  else None.

(** The grammar of a JSON number: an optional minus sign; a zero, or a
    non-zero digit and further digits; optionally a point and at least
    one digit; optionally an exponent mark, a sign and at least one
    digit. *)
Fixpoint digits (s : string) : string :=
  match s with
  | String c s' => if isDigit c then digits s' else s
  | EmptyString => s
  end.

Definition digits1 (s : string) : option string :=
  match s with
  | String c s' => if isDigit c then Some (digits s') else None
  | EmptyString => None
  end.

Definition isNumber (s : string) : bool :=
  let s := match s with
           | String c s' => if byteIs c 45 then s' else s
           | EmptyString => s
           end in
  let afterInt :=
    match s with
    | String c s' =>
        if byteIs c 48 then Some s'
        else if isDigit c then Some (digits s') else None
    | EmptyString => None
    end in
  let afterFrac :=
    s ← afterInt;
    match s with
    | String c s' => if byteIs c 46 then digits1 s' else Some s
    | EmptyString => Some s
    end in
  let afterExp :=
    s ← afterFrac;
    match s with
    | String c s' =>
        if byteIs c 101 || byteIs c 69 then
          match s' with
          | String d s'' =>
              if byteIs d 43 || byteIs d 45 then digits1 s'' else digits1 s'
          | EmptyString => None
          end
        else Some s
    | EmptyString => Some s
    end in
  match afterExp with
  | Some EmptyString => true
  | _ => false
  end.

Definition literal (s : string) : option value :=
  if String.eqb s "true" then Some (VBool true)
  else if String.eqb s "false" then Some (VBool false)
  else if String.eqb s "null" then Some VNull
  else if isNumber s then Some VNumber
  else None.

Definition members := list (string * value).

(** One character of the text; [acc] arguments hold what was read of
    the current token, last character first. *)
Definition step (st : state) (ms : members) (c : ascii)
  : option (state * members) :=
  match st with
  | Start =>
      if isSpace c then Some (Start, ms)
      else if byteIs c 123 then Some (FirstKey, ms) else None
  | FirstKey =>
      if isSpace c then Some (FirstKey, ms)
      else if byteIs c 125 then Some (Finished, ms)
      else if byteIs c 34 then Some (InKey "" false, ms) else None
  | NextKey =>
      if isSpace c then Some (NextKey, ms)
      else if byteIs c 34 then Some (InKey "" false, ms) else None
  | InKey acc true =>
      u ← unescape c; Some (InKey (String u acc) false, ms)
  | InKey acc false =>
      if byteIs c 92 then Some (InKey acc true, ms)
      else if byteIs c 34 then Some (BeforeColon (reverse acc ""), ms)
      else if code c <? 32 then None
      else Some (InKey (String c acc) false, ms)
  | BeforeColon key =>
      if isSpace c then Some (BeforeColon key, ms)
      else if byteIs c 58 then Some (BeforeValue key, ms) else None
  | BeforeValue key =>
      if isSpace c then Some (BeforeValue key, ms)
      else if byteIs c 34 then Some (InString key "" false, ms)
      else if byteIs c 44 || byteIs c 125 || byteIs c 123 || byteIs c 91
      then None
      else Some (InLiteral key (String c ""), ms)
  | InString key acc true =>
      u ← unescape c; Some (InString key (String u acc) false, ms)
  | InString key acc false =>
      if byteIs c 92 then Some (InString key acc true, ms)
      else if byteIs c 34 then
        Some (AfterValue, (key, VString (reverse acc "")) :: ms)
      else if code c <? 32 then None
      else Some (InString key (String c acc) false, ms)
  | InLiteral key acc =>
      if isSpace c || byteIs c 44 || byteIs c 125 then
        v ← literal (reverse acc "");
        let ms := (key, v) :: ms in
        if byteIs c 44 then Some (NextKey, ms)
        else if byteIs c 125 then Some (Finished, ms)
        else Some (AfterValue, ms)
      else Some (InLiteral key (String c acc), ms)
  | AfterValue =>
      if isSpace c then Some (AfterValue, ms)
      else if byteIs c 44 then Some (NextKey, ms)
      else if byteIs c 125 then Some (Finished, ms) else None
  | Finished => if isSpace c then Some (Finished, ms) else None
  end.

Fixpoint run (s : string) (st : state) (ms : members) : option members :=
  match s with
  | EmptyString =>
      match st with
      | Finished => Some (rev ms)
      | _ => None
      end
  | String c s' => '(st, ms) ← step st ms c; run s' st ms
  end.

Definition lower (c : ascii) : ascii :=
  if (65 <=? code c) && (code c <=? 90)
  then ascii_of_N (Z.to_N (code c + 32)) else c.

Fixpoint lowerString (s : string) : string :=
  match s with
  | EmptyString => EmptyString
  | String c s' => String (lower c) (lowerString s')
  end.

(** Store one member into the struct. *)
Definition assign (r : OllamaResponse) (m : string * value)
  : option OllamaResponse :=
  let '(key, v) := m in
  let key := lowerString key in
  if String.eqb key "response" then
    match v with
    | VString s => Some {| Response := s; Done := Done r; Error := Error r |}
    | VNull => Some r
    | _ => None
    end
  else if String.eqb key "done" then
    match v with
    | VBool b => Some {| Response := Response r; Done := b; Error := Error r |}
    | VNull => Some r
    | _ => None
    end
  else if String.eqb key "error" then
    match v with
    | VString s => Some {| Response := Response r; Done := Done r; Error := s |}
    | VNull => Some r
    | _ => None
    end
  else Some r.

Fixpoint assignAll (r : OllamaResponse) (ms : members) : option OllamaResponse :=
  match ms with
  | [] => Some r
  | m :: ms' =>
      match assign r m with
      | Some r' => assignAll r' ms'
      | None => None
      end
  end.

Definition zero : OllamaResponse := {| Response := ""; Done := false; Error := "" |}.

Fixpoint dropSpace (s : string) : string :=
  match s with
  | String c s' => if isSpace c then dropSpace s' else s
  | EmptyString => s
  end.

Definition Unmarshal (text : string) : option OllamaResponse :=
  if String.eqb (reverse (dropSpace (reverse (dropSpace text) "")) "") "null"
  then Some zero
  else ms ← run text Start []; assignAll zero ms.

End Json.

(** ** Notions the properties are stated with *)

Module Props.
Import GoStrings Ai.

(** The line feed, as a text. *)
Abbreviation LF := (String "010"%char EmptyString).

(** *** Connection state: the operations and their runs *)

Inductive stateOp :=
| OpSetOnline
| OpRecordFailure
| OpRecordSuccess.

Definition applyOp (e : Engine) (o : stateOp * Time) : Engine :=
  match o with
  | (OpSetOnline, now) => setOnline e now
  | (OpRecordFailure, now) => recordFailure e now
  | (OpRecordSuccess, now) => recordSuccess e now
  end.

(** The engine after a sequence of operations, first operation first. *)
Definition runOps (ops : list (stateOp * Time)) (e : Engine) : Engine :=
  fold_left applyOp ops e.

(** The number of [recordFailure] at the end of a sequence, that is,
    since the last operation that sets the engine online. *)
Fixpoint failuresAtEnd (ops : list (stateOp * Time)) (n : nat) : nat :=
  match ops with
  | [] => n
  | (OpRecordFailure, _) :: ops' => failuresAtEnd ops' (S n)
  | _ :: ops' => failuresAtEnd ops' 0
  end.

(** What a run keeps true: with [n] failures recorded since the engine
    was last set online, the counter holds [n] (modulo the width of an
    [int]) and the engine is online exactly when [n] is zero. *)
Definition tracks (e : Engine) (n : nat) : Prop :=
  failureCount e = wrapInt (Z.of_nat n) /\ isOnline e = Nat.eqb n 0.

Definition exampleConfig : AIConfig :=
  {| Model := "7shi/ezo-gemma-2-jpn:2b-instruct-q8_0"; MaxTokens := 2048;
     OllamaURL := "http://localhost:11434" |}.

Definition freshEngine : Engine := NewEngine exampleConfig 0.

(** A failure, a success and a failure; and 2^64 failures in a row. *)
Definition exampleOps : list (stateOp * Time) :=
  [(OpRecordFailure, 5); (OpRecordSuccess, 6); (OpRecordFailure, 7)].

Definition overflowOps : list (stateOp * Time) :=
  repeat (OpRecordFailure, 0) (Z.to_nat (2 ^ 64)).

(** *** Problems *)

Definition validProblem (p : Problem) : Prop :=
  0 <= CorrectAnswer p < len (Options p)
  /\ 2 <= len (Options p)
  /\ 1 <= Difficulty p <= 5
  /\ 0 < EstimatedTime p.

Definition validProblemb (p : Problem) : bool :=
  (0 <=? CorrectAnswer p) && (CorrectAnswer p <? len (Options p))
  && (2 <=? len (Options p))
  && (1 <=? Difficulty p) && (Difficulty p <=? 5)
  && (0 <? EstimatedTime p).

(** The checks of [validateProblem] that do not depend on the subject. *)
Definition structurallyValid (p : Problem) : Prop :=
  Title p <> "" /\ Description p <> ""
  /\ 2 <= len (Options p)
  /\ 0 <= CorrectAnswer p < len (Options p)
  /\ 1 <= Difficulty p <= 5.

(** The problem as [validateProblem] leaves it when it runs past the
    structural checks. *)
Definition withDefaultTime (p : Problem) : Problem :=
  if EstimatedTime p <=? 0 then setEstimatedTime p 300 else p.

Definition setCorrectAnswer (p : Problem) (i : Z) : Problem :=
  {| Title := Title p; Description := Description p; Options := Options p;
     CorrectAnswer := i; Explanation := Explanation p;
     Difficulty := Difficulty p; EstimatedTime := EstimatedTime p;
     Encouragement := Encouragement p; ProblemType := ProblemType p |}.

Definition setDescription (p : Problem) (d : string) : Problem :=
  {| Title := Title p; Description := d; Options := Options p;
     CorrectAnswer := CorrectAnswer p; Explanation := Explanation p;
     Difficulty := Difficulty p; EstimatedTime := EstimatedTime p;
     Encouragement := Encouragement p; ProblemType := ProblemType p |}.

(** The isosceles problem of the bank (two angles of 45 degrees, angle B
    asked), with 90 degrees and with 60 degrees as the stated answer. *)
Definition isosceles90 : Problem :=
  {| Title := "二等辺三角形の角度";
     Description := "二等辺三角形ABCで、角A = 角C = 45度のとき、角Bの大きさは何度ですか？";
     Options := ["45度"; "60度"; "90度"; "120度"];
     CorrectAnswer := 2;
     Explanation := "三角形の内角の和は180度です。";
     Difficulty := 3; EstimatedTime := 250;
     Encouragement := ""; ProblemType := "図形" |}.

Definition isosceles60 : Problem := setCorrectAnswer isosceles90 1.

(** A quantitative and a non-quantitative description, both with the
    phrase for the diagram below. *)
Definition diagramAngleProblem : Problem :=
  setDescription isosceles90 "下の図の三角形で、角Bの大きさは何度ですか？".

Definition diagramReadingProblem : Problem :=
  setDescription isosceles90 "下の図を見て、あてはまる言葉を選んでください。".

(** The isosceles problem with 90 degrees as the stated answer, its
    description opening with the phrase for the diagram below. *)
Definition diagramIsosceles90 : Problem :=
  setDescription isosceles90
    "下の図の二等辺三角形ABCで、角A = 角C = 45度のとき、角Bの大きさは何度ですか？".

(** A description that only the feedback prompt takes as quantitative. *)
Definition areaDescription : string := "長方形の面積を求めなさい。".

(** *** The offline bank *)

(** Every rotation counter read by the bank is a valid index base. *)
Definition countersOk (e : Engine) : Prop :=
  forall key v, problemIndex e !! key = Some v -> 0 <= v.

(** The rotation counter of a key, as the bank reads it. *)
Definition counter (e : Engine) (key : string) : Z :=
  default 0 (problemIndex e !! key).

(** The keys of the bank that have a list, with the lookup that reads
    them: a mathematics grade with a list of its own, and English for
    any grade. *)
Inductive bankKey :
  (Engine -> option (Problem * Engine)) -> string -> list Problem -> Prop :=
| mathKey grade problems :
    mathProblems !! grade = Some problems ->
    bankKey (fun e => getMathProblem e grade)
            ("数学_G" +:+ formatInt grade) problems
| englishKey grade :
    bankKey (fun e => getEnglishProblem e grade)
            ("英語_G" +:+ formatInt grade) englishProblems.

(** The backend cannot be reached: every request fails in [Client.Do]. *)
Definition unreachable (backend : Backend) : Prop :=
  forall url req, exists cause, backend url req = DoFails cause.

Definition refusing : Backend := fun _ _ => DoFails "connection refused".

(** The URL and the body of the request that [generate] sends. *)
Definition requestURL (e : Engine) : string :=
  OllamaURL (config e) +:+ "/api/generate".

Definition requestBody (e : Engine) (prompt : string) : OllamaRequest :=
  {| ReqModel := Model (config e); Prompt := prompt; Stream := true;
     ReqOptions := generateOptions |}.

(** A backend that answers with status 200 and the given lines, read
    without error. *)
Definition readWithoutError (lines : list string) : Scanner :=
  {| tokens := lines; scanErr := None |}.

Definition answering (lines : list string) : Backend :=
  fun _ _ => Responds 200 "" (readWithoutError lines).

(** The JSON text of a fragment with the members [response] and
    [done], for a text that needs no escape. *)
Definition fragmentLine (response : string) (done : bool) : string :=
  "{" +:+ quoted "response" +:+ ":" +:+ quoted response +:+ ","
  +:+ quoted "done" +:+ ":" +:+ (if done then "true" else "false") +:+ "}".

(** The JSON text of a fragment with the member [error]. *)
Definition errorLine (msg : string) : string :=
  "{" +:+ quoted "error" +:+ ":" +:+ quoted msg +:+ "}".

Definition mathContext (grade : Z) : StudyContext :=
  {| UserID := "user"; Subject := "数学"; Grade := grade;
     CtxDifficulty := 3; CtxEmotion := "" |}.

Definition exampleFeedbackRequest : FeedbackRequest :=
  {| ReqProblem := isosceles90; UserAnswer := "60度"; IsCorrect := false;
     TimeTaken := 40; ReqEmotion := ""; ReqStudyContext := mathContext 3 |}.

(** [n] lookups in a row. *)
Fixpoint repeatLookup (lookup : Engine -> option (Problem * Engine))
    (n : nat) (e : Engine) : option (list Problem * Engine) :=
  match n with
  | O => Some ([], e)
  | S n' =>
      '(p, e) ← lookup e;
      '(ps, e) ← repeatLookup lookup n' e;
      Some (p :: ps, e)
  end.

(** The entry a bank list gives for a counter value. *)
Definition entryAt (problems : list Problem) (counter : Z) : option Problem :=
  problems !! Z.to_nat (counter mod len problems).

(** *** The stream *)

Section Stream.
Variable unmarshal : string -> option OllamaResponse.

(** The fragments of a stream: the decoded lines, empty lines and
    lines that do not decode left out. *)
Fixpoint fragments (toks : list string) : list OllamaResponse :=
  match toks with
  | [] => []
  | line :: rest =>
      if String.eqb line "" then fragments rest
      else match unmarshal line with
           | Some r => r :: fragments rest
           | None => fragments rest
           end
  end.
End Stream.

(** The fragments up to and including the first one that is done. *)
Fixpoint untilDone (fs : list OllamaResponse) : list OllamaResponse :=
  match fs with
  | [] => []
  | r :: rest => if Done r then [r] else r :: untilDone rest
  end.

Fixpoint concatResponses (fs : list OllamaResponse) : string :=
  match fs with
  | [] => ""
  | r :: rest => Response r +:+ concatResponses rest
  end.

Definition noError (r : OllamaResponse) : Prop := Error r = "".

(** A fragment that lets the loop go on. *)
Definition goesOn (r : OllamaResponse) : Prop :=
  Error r = "" /\ Done r = false.

(** *** The textual layout of a record

    The layout of the specification (section 4.4): one [KEY: value] line
    per field, the further lines of a value following as they are. *)

Definition renderField (kv : string * string) : string :=
  kv.1 +:+ ": " +:+ kv.2.

Definition renderRecord (fs : list (string * string)) : string :=
  Join (map renderField fs) "
".

Fixpoint noByte (n : Z) (s : string) : bool :=
  match s with
  | EmptyString => true
  | String c s' => negb (byteIs c n) && noByte n s'
  end.

(** No three backquotes in a row (a code fence). *)
Fixpoint noFence (s : string) : bool :=
  match s with
  | EmptyString => true
  | String a s1 =>
      match s1 with
      | String b (String c _) =>
          negb (byteIs a 96 && byteIs b 96 && byteIs c 96) && noFence s1
      | _ => true
      end
  end.

(** A line that the parser reads back as it is: not empty, no white
    space at either end, no line feed and no code fence. *)
Definition cleanLine (l : string) : bool :=
  nonEmpty l && String.eqb (TrimSpace l) l && noByte 10 l && noFence l.

Definition cleanKey (k : string) : bool := cleanLine k && noByte 58 k.

(** A value: clean lines, of which only the first may hold a colon. *)
Definition cleanValue (v : string) : bool :=
  match SplitNewline v with
  | [] => false
  | l :: ls => cleanLine l && forallb (fun l' => cleanLine l' && noByte 58 l') ls
  end.

Definition cleanField (kv : string * string) : bool :=
  cleanKey kv.1 && cleanValue kv.2.

Definition cleanRecord (fs : list (string * string)) : bool :=
  forallb cleanField fs.

(** The lines of the layout: for each field the line with the key and
    the first line of the value, then the further lines of the value. *)
Definition fieldLines (kv : string * string) : list string :=
  match SplitNewline kv.2 with
  | [] => [kv.1 +:+ ": "]
  | l :: ls => (kv.1 +:+ ": " +:+ l) :: ls
  end.

Definition recordLines (fs : list (string * string)) : list string :=
  flat_map fieldLines fs.

(** Further lines, each after a line feed. *)
Fixpoint contLines (ls : list string) : string :=
  match ls with
  | [] => ""
  | l :: ls' => "
" +:+ l +:+ contLines ls'
  end.

(** The text is empty or begins with an ASCII byte. *)
Definition asciiHead (t : string) : Prop :=
  match t with
  | EmptyString => True
  | String c _ => code c < 128
  end.

(** Close a goal from an equation [H] that makes a trimmed text longer
    than the text, [bound] being the length bound of the trimming. *)
Ltac length_absurd H bound :=
  let Hb := fresh "Hb" in
  pose proof bound as Hb; rewrite H in Hb; cbn in Hb; lia.

(** A text that is not empty and that neither half of [TrimSpace]
    changes. *)
Definition trimmed (l : string) : Prop :=
  l <> "" /\ trimLeft l = l /\ trimRight l = l.

(** The map that holds the fields of a record, a later field replacing
    an earlier one with the same key. *)
Definition insertField (m : gmap string string) (kv : string * string)
  : gmap string string :=
  <[kv.1 := kv.2]> m.

(** A record with a value of three lines, and a value whose second line
    holds a colon. *)
Definition threeLineRecord : list (string * string) :=
  [("TITLE", "二等辺三角形の角度 `ABC`");
   ("EXPLANATION", "三角形の内角の和は180度です。
45度 + 角B + 45度 = 180度
よって角B = 90度です。");
   ("DIFFICULTY", "3")].

Definition colonRecord : list (string * string) :=
  [("EXPLANATION", "two steps
step 2: add")].

End Props.

(** ** The remaining operations of the engine

    [containsJapanese], [testConnection], [UpdateConfig],
    [GetCurrentModel] and [GenerateStudyTip]. *)

Module AiOps.
Import GoStrings Ai.

(** *** Runes

    A [range] loop over a string decodes UTF-8: a byte below 128 is a
    rune of width 1; otherwise the runtime's [decoderune] reads a
    sequence of two, three or four bytes, and gives the replacement
    rune with width 1 for anything that is no shortest-form encoding
    of a rune. *)

Definition runeError : Z := 65533.

(** [locb <= b && b <= hicb]: a continuation byte. *)
Definition contByte (b : ascii) : bool := (128 <=? code b) && (code b <=? 191).

(** The payload of a continuation byte, [rune(b & maskx)]. *)
Definition payload (b : ascii) : Z := Z.land (code b) 63.

(** [decoderune(s, 0)]: the rune and the number of bytes it takes. *)
Definition decoderune (s : string) : Z * nat :=
  match s with
  | EmptyString => (runeError, 1%nat)
  | String b0 rest =>
      let s0 := code b0 in
      if (192 <=? s0) && (s0 <? 224) then
        match rest with
        | String b1 _ =>
            if contByte b1 then
              let r := Z.lor (Z.shiftl (Z.land s0 31) 6) (payload b1) in
              if 127 <? r then (r, 2%nat) else (runeError, 1%nat)
            else (runeError, 1%nat)
        | _ => (runeError, 1%nat)
        end
      else if (224 <=? s0) && (s0 <? 240) then
        match rest with
        | String b1 (String b2 _) =>
            if contByte b1 && contByte b2 then
              let r := Z.lor (Z.lor (Z.shiftl (Z.land s0 15) 12)
                                    (Z.shiftl (payload b1) 6))
                             (payload b2) in
              if (2047 <? r) && negb ((55296 <=? r) && (r <=? 57343))
              then (r, 3%nat) else (runeError, 1%nat)
            else (runeError, 1%nat)
        | _ => (runeError, 1%nat)
        end
      else if (240 <=? s0) && (s0 <? 248) then
        match rest with
        | String b1 (String b2 (String b3 _)) =>
            if contByte b1 && contByte b2 && contByte b3 then
              let r := Z.lor (Z.lor (Z.lor (Z.shiftl (Z.land s0 7) 18)
                                           (Z.shiftl (payload b1) 12))
                                    (Z.shiftl (payload b2) 6))
                             (payload b3) in
              if (65535 <? r) && (r <=? 1114111)
              then (r, 4%nat) else (runeError, 1%nat)
            else (runeError, 1%nat)
        | _ => (runeError, 1%nat)
        end
      else (runeError, 1%nat)
  end.

(** The rune at the beginning of a text that is not empty, as the loop
    reads it. *)
Definition firstRune (b0 : ascii) (rest : string) : Z * nat :=
  if code b0 <? 128 then (code b0, 1%nat) else decoderune (String b0 rest).

(** The test of the loop body: hiragana, katakana, or a unified
    ideograph up to U+9FAF. *)
Definition isJapaneseRune (r : Z) : bool :=
  ((12352 <=? r) && (r <=? 12447))
  || ((12448 <=? r) && (r <=? 12543))
  || ((19968 <=? r) && (r <=? 40879)).

(** [containsJapanese]: the loop goes on after the bytes of the rune it
    has read. *)
Fixpoint containsJapanese (text : string) : bool :=
  match text with
  | EmptyString => false
  | String b0 s1 =>
      let rw := firstRune b0 s1 in
      if isJapaneseRune rw.1 then true
      else
        match rw.2, s1 with
        | 2%nat, String _ s2 => containsJapanese s2
        | 3%nat, String _ (String _ s3) => containsJapanese s3
        | 4%nat, String _ (String _ (String _ s4)) => containsJapanese s4
        | _, _ => containsJapanese s1
        end
  end.

(** *** The connection test and the configuration *)

(** The two errors of [testConnection]; the first wraps the error of
    [generate]. *)
Inductive testError :=
| ConnectionTestError (cause : error)
| NoJapaneseResponse.

Definition testErrorString (err : testError) : string :=
  match err with
  | ConnectionTestError cause => "接続テストエラー: " +:+ errorString cause
  | NoJapaneseResponse =>
      "日本語応答が確認できません。モデル設定を確認してください"
  end.

Definition testPrompt : string := "こんにちは".

Definition setConfig (e : Engine) (newConfig : AIConfig) : Engine :=
  {| config := newConfig; isOnline := isOnline e; lastCheck := lastCheck e;
     failureCount := failureCount e; problemIndex := problemIndex e |}.

(** [GetCurrentModel]. *)
Definition GetCurrentModel (e : Engine) : string := Model (config e).

(** The prompt of [GenerateStudyTip]. *)
Definition studyTipPrompt (subject weakness : string) : string :=
  "
中学生向けの学習アドバイザーとして、以下の情報に基づいて具体的で実践的な学習のコツを1つ提供してください。

【対象】
- 教科: " +:+ subject +:+ "
- 苦手分野: " +:+ weakness +:+ "

【指示】
- 中学生でも簡単に実践できる具体的なコツを提供
- なぜそのコツが効果的なのか簡潔に説明
- 前向きで励みになる表現を使用
- 100文字以内で簡潔に

一つの学習のコツのみを返してください。
".

Section Client.

Variable unmarshal : string -> option OllamaResponse.

(** [testConnection]: [None] is the nil error. *)
Definition testConnection (e : Engine) (backend : Backend)
  : option testError :=
  match generate unmarshal e backend testPrompt with
  | Err err => Some (ConnectionTestError err)
  | Ok response =>
      if negb (containsJapanese response) then Some NoJapaneseResponse
      else None
  end.

(** [UpdateConfig]: the engine after the call and the error. *)
Definition UpdateConfig (e : Engine) (newConfig : AIConfig)
    (backend : Backend) : Engine * option testError :=
  let e := setConfig e newConfig in
  (e, testConnection e backend).

(** [GenerateStudyTip]. *)
Definition GenerateStudyTip (e : Engine) (backend : Backend)
    (subject weakness : string) : result string :=
  generate unmarshal e backend (studyTipPrompt subject weakness).

End Client.

End AiOps.

(** ** Further notions *)

Module MoreProps.
Import GoStrings Ai Props AiOps.

(** *** Texts the parser reads *)

(** A line that holds no colon and that the parser reads back as it
    is. *)
Definition plainLine (l : string) : bool := cleanLine l && noByte 58 l.

(** Lines before a text. *)
Definition withPreamble (pre : list string) (text : string) : string :=
  Join (pre ++ [text]) "
".

(** A text between code fences; the opening fence may carry a tag. *)
Definition fenced (tag text : string) : string :=
  "```" +:+ tag +:+ "
" +:+ text +:+ "
" +:+ "```".


(** A record with the same key twice, an answer without any field, and
    a feedback with the derivation that the prompt for a quantitative
    problem asks for. *)
Definition repeatedKeyRecord : list (string * string) :=
  [("TITLE", "first title"); ("DIFFICULTY", "2"); ("TITLE", "second title")].

Definition refusal : string := "すみません、問題を作成できません。".



(** What the parser keeps true of the fields it has stored and of the
    key it is reading the value of. *)
Definition goodKey (k : string) : Prop :=
  k <> "" /\ TrimSpace k = k /\ noByte 58 k = true /\ noByte 10 k = true.

Definition goodFields (m : gmap string string) : Prop :=
  forall k v, m !! k = Some v -> goodKey k /\ TrimSpace v = v.

Definition goodState (st : parseState) : Prop :=
  goodFields (fields st)
  /\ (currentKey st <> "" ->
      TrimSpace (currentKey st) = currentKey st
      /\ noByte 58 (currentKey st) = true
      /\ noByte 10 (currentKey st) = true).

(** *** Problems *)

(** A problem that [validateProblem] accepts and leaves as it is. *)
Definition accepted (p : Problem) : Prop := validateProblem p = Some (p, None).

(** A response with a title and a description and nothing else, and
    the problem with the default of every other field. *)
Definition bareRecord (title description : string) : list (string * string) :=
  [("TITLE", title); ("DESCRIPTION", description)].

Definition bareProblem (title description : string) : Problem :=
  {| Title := title; Description := description;
     Options := [""; ""; ""; ""];
     CorrectAnswer := 0; Explanation := "";
     Difficulty := 3; EstimatedTime := 300;
     Encouragement := ""; ProblemType := "" |}.

Definition setOptions (p : Problem) (options : list string) : Problem :=
  {| Title := Title p; Description := Description p; Options := options;
     CorrectAnswer := CorrectAnswer p; Explanation := Explanation p;
     Difficulty := Difficulty p; EstimatedTime := EstimatedTime p;
     Encouragement := Encouragement p; ProblemType := ProblemType p |}.

(** The isosceles problem with 190 degrees as the stated answer. *)
Definition isosceles190 : Problem :=
  setOptions isosceles90 ["45度"; "60度"; "190度"; "120度"].

(** What the isosceles check answers for a description and the text of
    the stated answer. *)
Definition oracleVerdict (description answer : string) : option error :=
  if Contains description "45度" && Contains description "角B"
     && negb (Contains answer "90")
  then Some (GeometricInconsistency (AngleBNot90 answer))
  else None.

(** *** The engine *)

(** Every rotation counter is at most the length of the longest list
    of the bank. *)
Definition countersBounded (e : Engine) : Prop :=
  forall key v, problemIndex e !! key = Some v -> 0 <= v <= 3.

(** The request for feedback on a problem, with a wrong answer. *)
Definition feedbackRequestFor (p : Problem) : FeedbackRequest :=
  {| ReqProblem := p; UserAnswer := "?"; IsCorrect := false;
     TimeTaken := 30; ReqEmotion := ""; ReqStudyContext := mathContext 3 |}.

(** *** Texts and runes *)

Fixpoint allAscii (s : string) : bool :=
  match s with
  | EmptyString => true
  | String c s' => (code c <? 128) && allAscii s'
  end.

Definition byte (n : Z) : ascii := ascii_of_N (Z.to_N n).

(** The UTF-8 encoding of a rune from U+0800 to U+FFFF, as
    [utf8.EncodeRune] writes it: three bytes. *)
Definition encode3 (r : Z) : string :=
  String (byte (Z.lor 224 (Z.shiftr r 12)))
    (String (byte (Z.lor 128 (Z.land (Z.shiftr r 6) 63)))
       (String (byte (Z.lor 128 (Z.land r 63))) EmptyString)).

(** [n] runes from [lo] on. *)
Fixpoint runesFrom (lo : Z) (n : nat) : list Z :=
  match n with
  | O => []
  | S n' => lo :: runesFrom (lo + 1) n'
  end.

(** The encoding of the rune begins with a byte from 224 to 239, and
    the loop reads the rune back from it, with width 3. *)
Definition decodesBack (r : Z) : bool :=
  match encode3 r with
  | String c0 rest =>
      (224 <=? code c0) && (code c0 <? 240)
      && ((firstRune c0 rest).1 =? r) && Nat.eqb (firstRune c0 rest).2 3
  | EmptyString => false
  end.

(** The runes that [containsJapanese] looks for: U+3040..U+30FF and
    U+4E00..U+9FAF. *)
Definition japaneseRunes : list Z :=
  runesFrom 12352 (Z.to_nat 192) ++ runesFrom 19968 (Z.to_nat 20912).

(** A reply in English and a reply with one kanji between bytes that
    are no UTF-8. *)
Definition englishReply : string := "Hello! How can I help you today?".

Definition kanjiReply : string :=
  String (byte 255) (String (byte 227) (encode3 23383 +:+ String (byte 128) "!")).

Definition newConfig : AIConfig :=
  {| Model := "llama3"; MaxTokens := 1024; OllamaURL := "http://ollama:11434" |}.

(** *** Responses *)

(** A line that the loop of [generate] passes over. *)
Definition skipped (unmarshal : string -> option OllamaResponse)
    (line : string) : Prop :=
  line = "" \/ unmarshal line = None.

(** A response whose answer index is no number and whose difficulty
    is out of range. *)
Definition letterAnswerRecord : list (string * string) :=
  [("TITLE", "日本の地理"); ("DESCRIPTION", "日本の首都はどこですか？");
   ("CORRECT", "C"); ("DIFFICULTY", "9")].

(** An engine that has recorded a failure and has another token
    limit, with the model, the URL and the counters of [freshEngine]. *)
Definition offlineEngine : Engine :=
  recordFailure
    (setConfig freshEngine
       {| Model := Model exampleConfig; MaxTokens := 16;
          OllamaURL := OllamaURL exampleConfig |}) 5.

(** A text of printable ASCII bytes other than the space, the colon
    and the backquote. *)
Definition plainByte (c : ascii) : bool :=
  (33 <=? code c) && (code c <=? 126) && negb (byteIs c 58) && negb (byteIs c 96).

Fixpoint plainText (s : string) : bool :=
  match s with
  | EmptyString => true
  | String c s' => plainByte c && plainText s'
  end.

(** *** Blanks around lines *)

(** White space of one byte that ends no line: the tab, the vertical
    tab, the form feed, the carriage return and the space. *)
Definition blankByte (c : ascii) : bool :=
  byteIs c 9 || byteIs c 11 || byteIs c 12 || byteIs c 13 || byteIs c 32.

Fixpoint blank (s : string) : bool :=
  match s with
  | EmptyString => true
  | String c s' => blankByte c && blank s'
  end.

(** The line [l] with blanks before and after it. *)
Definition padded (l' l : string) : Prop :=
  exists ws1 ws2, blank ws1 = true /\ blank ws2 = true /\ l' = ws1 +:+ l +:+ ws2.

Definition CR : string := String "013"%char EmptyString.

(** The lines of [threeLineRecord], indented and with carriage
    returns. *)
Definition indentedLines : list string :=
  ["TITLE: 二等辺三角形の角度 `ABC`" +:+ CR;
   "  EXPLANATION: 三角形の内角の和は180度です。" +:+ CR;
   "    45度 + 角B + 45度 = 180度 " +:+ CR;
   "    よって角B = 90度です。" +:+ CR;
   "  DIFFICULTY: 3" +:+ CR].

(** *** The problem read from the fields *)

(** The problem that [parseProblemResponse] builds from the fields of a
    response, before it validates it. *)
Definition fieldsProblem (fields : gmap string string) : Problem :=
  {| Title := getField fields "TITLE" "";
     Description := getField fields "DESCRIPTION" "";
     Options := [getField fields "OPTION1" "";
                 getField fields "OPTION2" "";
                 getField fields "OPTION3" "";
                 getField fields "OPTION4" ""];
     CorrectAnswer := wrapInt (parseInt (getField fields "CORRECT" "1") - 1);
     Explanation := getField fields "EXPLANATION" "";
     Difficulty := parseInt (getField fields "DIFFICULTY" "3");
     EstimatedTime := parseInt (getField fields "TIME" "300");
     Encouragement := getField fields "ENCOURAGEMENT" "";
     ProblemType := getField fields "TYPE" "" |}.

(** The number that [parseProblemResponse] reads for the time. *)
Definition parsedTime (response : string) : Z :=
  parseInt (getField (parseKeyValueResponse response) "TIME" "300").

(** A description that passes the subject checks of [validateProblem]
    whatever the options: it is not taken as quantitative, or it holds
    no blocklisted phrase and does not ask for an angle of an isosceles
    triangle. *)
Definition plainSubject (d : string) : Prop :=
  validateIsMathProblem d = false
  \/ (firstForbidden d forbiddenPhrases = None
      /\ Contains d "二等辺三角形" && Contains d "角" = false).

(** A response whose time is 0, the lines of the stream that carries
    it (the line feeds escaped as JSON has them), and the problem it
    gives. *)
Definition timeZeroText : string :=
  "TITLE: 日本の地理
DESCRIPTION: 日本の首都はどこですか？
OPTION1: 大阪
OPTION2: 京都
OPTION3: 東京
OPTION4: 名古屋
CORRECT: 3
EXPLANATION: 日本の首都は東京です。
DIFFICULTY: 1
TIME: 0".

Definition timeZeroStream : list string :=
  [fragmentLine "TITLE: 日本の地理\nDESCRIPTION: 日本の首都はどこですか？\n" false;
   fragmentLine "OPTION1: 大阪\nOPTION2: 京都\nOPTION3: 東京\nOPTION4: 名古屋\n" false;
   fragmentLine "CORRECT: 3\nEXPLANATION: 日本の首都は東京です。\n" false;
   fragmentLine "DIFFICULTY: 1\nTIME: 0" true].

Definition timeZeroProblem : Problem :=
  {| Title := "日本の地理";
     Description := "日本の首都はどこですか？";
     Options := ["大阪"; "京都"; "東京"; "名古屋"];
     CorrectAnswer := 2;
     Explanation := "日本の首都は東京です。";
     Difficulty := 1; EstimatedTime := 300;
     Encouragement := ""; ProblemType := "" |}.

Definition socialContext : StudyContext :=
  {| UserID := "user"; Subject := "社会"; Grade := 1;
     CtxDifficulty := 1; CtxEmotion := "" |}.

(** The same response with the time of the isosceles problem, which
    is kept. *)
Definition timeKeptText : string :=
  "TITLE: 二等辺三角形の角度
DESCRIPTION: 二等辺三角形ABCで、角A = 角C = 45度のとき、角Bの大きさは何度ですか？
OPTION1: 45度
OPTION2: 60度
OPTION3: 90度
OPTION4: 120度
CORRECT: 3
EXPLANATION: 三角形の内角の和は180度です。
DIFFICULTY: 3
TIME: 250
TYPE: 図形".

(** *** Records with empty values *)

(** A value that the rendered text gives back: the empty value, or a
    clean one. *)
Definition roundTripValue (v : string) : bool :=
  String.eqb v "" || cleanValue v.

Definition roundTripField (kv : string * string) : bool :=
  cleanKey kv.1 && roundTripValue kv.2.

Definition roundTripRecord (fs : list (string * string)) : bool :=
  forallb roundTripField fs.

(** The lines of a field as [parseKeyValueResponse] has them after
    [TrimSpace]: the line of an empty value ends at the colon. *)
Definition trimmedFieldLines (kv : string * string) : list string :=
  if String.eqb kv.2 "" then [kv.1 +:+ ":"] else fieldLines kv.

Definition trimmedRecordLines (fs : list (string * string)) : list string :=
  flat_map trimmedFieldLines fs.

(** A record with an empty value alone on its line, before another
    field and last, and with a value of three lines. *)
Definition emptyValueRecord : list (string * string) :=
  [("TITLE", "二等辺三角形の角度 `ABC`");
   ("ENCOURAGEMENT", "");
   ("EXPLANATION", "三角形の内角の和は180度です。
45度 + 角B + 45度 = 180度
よって角B = 90度です。");
   ("TYPE", "")].

Definition loneEmptyRecord : list (string * string) := [("A", "")].

End MoreProps.

(** * Properties *)

(** ** Machine integers *)

Section IntFacts.
Import GoStrings.

Lemma wrapInt_small z : minInt <= z <= maxInt -> wrapInt z = z.
Proof.
  unfold wrapInt, minInt, maxInt. intros H.
  rewrite Z.mod_small; lia.
Qed.

Lemma wrapInt_range z : minInt <= wrapInt z <= maxInt.
Proof.
  unfold wrapInt, minInt, maxInt.
  pose proof (Z.mod_pos_bound (z + 2 ^ 63) (2 ^ 64)). lia.
Qed.

Lemma wrapInt_succ z : wrapInt (wrapInt z + 1) = wrapInt (z + 1).
Proof.
  unfold wrapInt.
  replace ((z + 2 ^ 63) mod 2 ^ 64 - 2 ^ 63 + 1 + 2 ^ 63)
    with ((z + 2 ^ 63) mod 2 ^ 64 + 1) by lia.
  rewrite Zplus_mod_idemp_l. do 2 f_equal. lia.
Qed.

Lemma wrapInt_zero_iff z : 0 <= z < 2 ^ 64 -> wrapInt z = 0 <-> z = 0.
Proof.
  unfold wrapInt. intros H. split; [|intros ->; reflexivity].
  destruct (Z_lt_le_dec z (2 ^ 63)) as [Hlt|Hge].
  - rewrite Z.mod_small by lia. lia.
  - replace (z + 2 ^ 63) with (z - 2 ^ 63 + 1 * 2 ^ 64) by lia.
    rewrite Z_mod_plus_full, Z.mod_small by lia. lia.
Qed.
End IntFacts.

(** ** Connection state *)

Section ConnectionState.
Import GoStrings Ai Props.

Lemma tracks_NewEngine cfg now : tracks (NewEngine cfg now) 0.
Proof. split; reflexivity. Qed.

Lemma tracks_runOps ops : forall e n,
  tracks e n -> tracks (runOps ops e) (failuresAtEnd ops n).
Proof.
  induction ops as [|[o now] ops IH]; intros e n [Hc Ho]; [split; assumption|].
  destruct o; cbn [runOps fold_left applyOp failuresAtEnd];
    apply IH; split; cbn; try reflexivity.
  rewrite Hc, wrapInt_succ. f_equal. lia.
Qed.

Lemma tracks_run cfg t0 ops :
  tracks (runOps ops (NewEngine cfg t0)) (failuresAtEnd ops 0).
Proof. apply tracks_runOps, tracks_NewEngine. Qed.

Lemma failuresAtEnd_repeat t n m :
  failuresAtEnd (repeat (OpRecordFailure, t) n) m = (n + m)%nat.
Proof.
  revert m. induction n as [|n IH]; intros m; [reflexivity|].
  cbn [repeat failuresAtEnd]. rewrite IH. lia.
Qed.

(** Without any bound: an engine that is online has no failure
    recorded. *)
Lemma online_implies_no_failure cfg t0 ops :
  isOnline (runOps ops (NewEngine cfg t0)) = true ->
  failureCount (runOps ops (NewEngine cfg t0)) = 0.
Proof.
  destruct (tracks_run cfg t0 ops) as [Hc Ho]. rewrite Ho, Hc.
  intros Hn. apply Nat.eqb_eq in Hn. rewrite Hn. reflexivity.
Qed.

(** C10, as amended: in every state reached from [NewEngine] by
    [setOnline], [recordFailure] and [recordSuccess], provided fewer than
    2^64 failures were recorded since the engine was last set online,
    [isOnline] holds exactly when [failureCount] is 0; [recordFailure]
    sets the engine offline and adds one to [failureCount] with 64-bit
    wrap-around, a strict increment below the largest [int];
    [recordSuccess] sets the engine online and resets the counter. *)
Theorem health_state_invariant cfg t0 ops :
  let e := runOps ops (NewEngine cfg t0) in
  Z.of_nat (failuresAtEnd ops 0) < 2 ^ 64 ->
  (isOnline e = true <-> failureCount e = 0)
  /\ (forall now,
        isOnline (recordFailure e now) = false
        /\ failureCount (recordFailure e now) = wrapInt (failureCount e + 1)
        /\ (failureCount e < maxInt ->
            failureCount (recordFailure e now) = failureCount e + 1))
  /\ (forall now,
        isOnline (recordSuccess e now) = true
        /\ failureCount (recordSuccess e now) = 0).
Proof.
  intros e Hn. destruct (tracks_run cfg t0 ops) as [Hc Ho]. fold e in Hc, Ho.
  split; [|split].
  - rewrite Ho, Hc, wrapInt_zero_iff by lia.
    rewrite Nat.eqb_eq. lia.
  - intros now. cbn. repeat split; [].
    intros Hlt. apply wrapInt_small.
    pose proof (wrapInt_range (Z.of_nat (failuresAtEnd ops 0))) as Hr.
    rewrite <- Hc in Hr. unfold maxInt, minInt in *. lia.
  - intros now. split; reflexivity.
Qed.

Lemma health_state_invariant_witness :
  (isOnline (runOps exampleOps freshEngine) = true
   <-> failureCount (runOps exampleOps freshEngine) = 0)
  /\ (forall now,
        isOnline (recordFailure (runOps exampleOps freshEngine) now) = false
        /\ failureCount (recordFailure (runOps exampleOps freshEngine) now)
           = wrapInt (failureCount (runOps exampleOps freshEngine) + 1)
        /\ (failureCount (runOps exampleOps freshEngine) < maxInt ->
            failureCount (recordFailure (runOps exampleOps freshEngine) now)
            = failureCount (runOps exampleOps freshEngine) + 1))
  /\ (forall now,
        isOnline (recordSuccess (runOps exampleOps freshEngine) now) = true
        /\ failureCount (recordSuccess (runOps exampleOps freshEngine) now) = 0).
Proof.
  apply (health_state_invariant exampleConfig 0 exampleOps).
  vm_compute. reflexivity.
Defined.

(** C10, as stated, fails: after 2^64 [recordFailure] in a row the
    64-bit counter is back at 0 while the engine is offline. *)
Lemma health_state_overflow :
  isOnline (runOps overflowOps freshEngine) = false
  /\ failureCount (runOps overflowOps freshEngine) = 0.
Proof.
  destruct (tracks_run exampleConfig 0 overflowOps) as [Hc Ho].
  fold freshEngine in Hc, Ho.
  assert (Hn : failuresAtEnd overflowOps 0 = Z.to_nat (2 ^ 64)).
  { unfold overflowOps. rewrite failuresAtEnd_repeat, Nat.add_0_r. reflexivity. }
  rewrite Hn in Hc, Ho. rewrite Z2Nat.id in Hc by lia. split.
  - rewrite Ho. apply Nat.eqb_neq. intros H0.
    apply (f_equal Z.of_nat) in H0. rewrite Z2Nat.id in H0 by lia. lia.
  - rewrite Hc. reflexivity.
Qed.
End ConnectionState.

(** ** Substrings *)

Section Substrings.
Import GoStrings.

Lemma Index_unfold s t :
  Index s t =
    if HasPrefix s t then 0
    else match s with
         | EmptyString => -1
         | String _ s' => let i := Index s' t in if i <? 0 then -1 else i + 1
         end.
Proof. destruct s; reflexivity. Qed.

Lemma app_cons c (s t : string) : String c s +:+ t = String c (s +:+ t).
Proof. reflexivity. Qed.

Lemma app_empty_l (t : string) : "" +:+ t = t.
Proof. reflexivity. Qed.

Lemma HasPrefix_app_l s a b :
  HasPrefix s (a +:+ b) = true -> HasPrefix s a = true.
Proof.
  revert s. induction a as [|c a IH]; intros s; [reflexivity|].
  rewrite app_cons. cbn. destruct s as [|d s]; [discriminate|].
  rewrite !andb_true_iff. intros [-> H]. split; [reflexivity|]. now apply IH.
Qed.

Lemma Contains_app_l s a b :
  Contains s (a +:+ b) = true -> Contains s a = true.
Proof.
  unfold Contains. rewrite !Z.leb_le.
  induction s as [|c s IH]; rewrite (Index_unfold _ (a +:+ b)), (Index_unfold _ a).
  - destruct (HasPrefix "" (a +:+ b)) eqn:Hp; [|lia].
    now rewrite (HasPrefix_app_l _ _ _ Hp).
  - destruct (HasPrefix (String c s) (a +:+ b)) eqn:Hp.
    + now rewrite (HasPrefix_app_l _ _ _ Hp).
    + cbv zeta. destruct (Index s (a +:+ b) <? 0) eqn:Hi; [lia|].
      intros _. apply Z.ltb_ge in Hi. specialize (IH Hi).
      destruct (HasPrefix (String c s) a); [lia|].
      destruct (Index s a <? 0) eqn:Hj; [apply Z.ltb_lt in Hj|]; lia.
Qed.
End Substrings.

(** ** The validator *)

Section Validator.
Import GoStrings Ai Props.

Lemma String_eqb_empty_false s : s <> "" -> String.eqb s "" = false.
Proof. intros H. now apply String.eqb_neq. Qed.

Lemma withDefaultTime_Description p :
  Description (withDefaultTime p) = Description p.
Proof. unfold withDefaultTime. now destruct (EstimatedTime p <=? 0). Qed.

Lemma withDefaultTime_Options p : Options (withDefaultTime p) = Options p.
Proof. unfold withDefaultTime. now destruct (EstimatedTime p <=? 0). Qed.

Lemma withDefaultTime_CorrectAnswer p :
  CorrectAnswer (withDefaultTime p) = CorrectAnswer p.
Proof. unfold withDefaultTime. now destruct (EstimatedTime p <=? 0). Qed.

Lemma withDefaultTime_Difficulty p :
  Difficulty (withDefaultTime p) = Difficulty p.
Proof. unfold withDefaultTime. now destruct (EstimatedTime p <=? 0). Qed.

Lemma withDefaultTime_positive p : 0 < EstimatedTime (withDefaultTime p).
Proof.
  unfold withDefaultTime. destruct (EstimatedTime p <=? 0) eqn:H; cbn; [lia|].
  apply Z.leb_gt in H. lia.
Qed.

(** Past the structural checks, [validateProblem] is the subject check. *)
Lemma validateProblem_structural p :
  structurallyValid p ->
  validateProblem p =
    let p' := withDefaultTime p in
    if validateIsMathProblem (Description p) then
      match firstForbidden (Description p) forbiddenPhrases with
      | Some phrase => Some (p', Some (ForbiddenReference phrase))
      | None =>
          if Contains (Description p) "二等辺三角形" && Contains (Description p) "角"
          then
            r ← validateIsoscelesTriangleProblem p';
            match r with
            | Some err => Some (p', Some (GeometricInconsistency err))
            | None => Some (p', None)
            end
          else Some (p', None)
      end
    else Some (p', None).
Proof.
  intros (Ht & Hd & Hn & Hc & Hdiff). unfold validateProblem.
  rewrite (String_eqb_empty_false _ Ht), (String_eqb_empty_false _ Hd).
  replace (len (Options p) <? 2) with false by (symmetry; apply Z.ltb_ge; lia).
  replace (CorrectAnswer p <? 0) with false by (symmetry; apply Z.ltb_ge; lia).
  replace (len (Options p) <=? CorrectAnswer p) with false
    by (symmetry; apply Z.leb_gt; lia).
  replace (Difficulty p <? 1) with false by (symmetry; apply Z.ltb_ge; lia).
  replace (5 <? Difficulty p) with false by (symmetry; apply Z.ltb_ge; lia).
  cbn [orb]. fold (withDefaultTime p). cbv zeta.
  now rewrite withDefaultTime_Description.
Qed.

(** A structural check that fails is an error, and every error leaves the
    structural checks or the subject check behind. *)
Lemma validateProblem_accepts p p' :
  validateProblem p = Some (p', None) ->
  structurallyValid p /\ p' = withDefaultTime p.
Proof.
  unfold validateProblem.
  destruct (String.eqb (Title p) "") eqn:Ht; [discriminate|].
  destruct (String.eqb (Description p) "") eqn:Hd; [discriminate|].
  destruct (len (Options p) <? 2) eqn:Hn; [discriminate|].
  destruct (CorrectAnswer p <? 0) eqn:Hc1; [discriminate|].
  destruct (len (Options p) <=? CorrectAnswer p) eqn:Hc2; [discriminate|].
  destruct (Difficulty p <? 1) eqn:Hd1; [discriminate|].
  destruct (5 <? Difficulty p) eqn:Hd2; [discriminate|].
  cbn [orb]. fold (withDefaultTime p). intros H.
  apply String.eqb_neq in Ht, Hd.
  apply Z.ltb_ge in Hn, Hc1, Hd1, Hd2. apply Z.leb_gt in Hc2.
  split; [repeat split; assumption || lia|].
  destruct (validateIsMathProblem _); [|congruence].
  destruct (firstForbidden _ _); [discriminate|].
  destruct (_ && _); [|congruence].
  destruct (validateIsoscelesTriangleProblem _) as [[?|]|]; cbn in H; congruence.
Qed.

Lemma firstForbidden_Some d phrases phrase :
  firstForbidden d phrases = Some phrase ->
  In phrase phrases /\ Contains d phrase = true.
Proof.
  induction phrases as [|q phrases IH]; [discriminate|]. cbn.
  destruct (Contains d q) eqn:Hq.
  - intros [= <-]. auto.
  - intros H. destruct (IH H). auto.
Qed.

Lemma firstForbidden_None d phrases :
  firstForbidden d phrases = None ->
  forall phrase, In phrase phrases -> Contains d phrase = false.
Proof.
  induction phrases as [|q phrases IH]; [intros _ ? []|]. cbn.
  destruct (Contains d q) eqn:Hq; [discriminate|].
  intros H phrase [<-|Hin]; auto.
Qed.

Lemma firstForbidden_found d phrases phrase :
  In phrase phrases -> Contains d phrase = true ->
  exists first, firstForbidden d phrases = Some first.
Proof.
  intros Hin Hc. destruct (firstForbidden d phrases) eqn:H; [eauto|].
  rewrite (firstForbidden_None _ _ H _ Hin) in Hc. discriminate.
Qed.

Lemma index_Some {A} (l : list A) i x :
  index l i = Some x -> 0 <= i < len l /\ l !! Z.to_nat i = Some x.
Proof.
  unfold index, len. destruct (i <? 0) eqn:Hi; [discriminate|].
  apply Z.ltb_ge in Hi. intros H. split; [|assumption].
  apply lookup_lt_Some in H. lia.
Qed.

Lemma index_in_range {A} (l : list A) i :
  0 <= i < len l -> exists x, index l i = Some x.
Proof.
  unfold index, len. intros H.
  replace (i <? 0) with false by (symmetry; apply Z.ltb_ge; lia).
  apply lookup_lt_is_Some_2. lia.
Qed.

Lemma validateIsoscelesTriangleProblem_total p :
  0 <= CorrectAnswer p < len (Options p) ->
  exists r, validateIsoscelesTriangleProblem p = Some r.
Proof.
  intros H. unfold validateIsoscelesTriangleProblem.
  destruct (_ && _); [|eauto].
  destruct (index_in_range _ _ H) as [a ->]. cbn.
  destruct (negb _); eauto.
Qed.

(** [validateProblem] itself never panics: the index it reads was
    checked. *)
Lemma validateProblem_total p : exists r, validateProblem p = Some r.
Proof.
  unfold validateProblem.
  destruct (String.eqb (Title p) ""); [eauto|].
  destruct (String.eqb (Description p) ""); [eauto|].
  destruct (len (Options p) <? 2) eqn:Hn; [eauto|].
  destruct (CorrectAnswer p <? 0) eqn:Hc1; [eauto|].
  destruct (len (Options p) <=? CorrectAnswer p) eqn:Hc2; [eauto|].
  destruct (Difficulty p <? 1); [eauto|].
  destruct (5 <? Difficulty p); [eauto|].
  cbn [orb]. fold (withDefaultTime p).
  destruct (validateIsMathProblem _); [|eauto].
  destruct (firstForbidden _ _); [eauto|].
  destruct (_ && _); [|eauto].
  apply Z.ltb_ge in Hc1. apply Z.leb_gt in Hc2.
  destruct (validateIsoscelesTriangleProblem_total (withDefaultTime p)) as [r ->].
  { now rewrite withDefaultTime_CorrectAnswer, withDefaultTime_Options. }
  cbn. destruct r; eauto.
Qed.

Lemma validateIsMathProblem_angle d :
  Contains d "角" = true -> validateIsMathProblem d = true.
Proof. unfold validateIsMathProblem. now intros ->. Qed.

(** C8, as amended: for a problem that passes the structural checks
    and whose description holds no blocklisted phrase and mentions the
    isosceles triangle, 45 degrees and angle B, [validateProblem]
    rejects the stated answer 60 degrees with the
    geometric-inconsistency error and accepts the stated answer 90
    degrees. *)
Theorem isosceles_oracle p :
  structurallyValid p ->
  Contains (Description p) "二等辺三角形" = true ->
  Contains (Description p) "45度" = true ->
  Contains (Description p) "角B" = true ->
  firstForbidden (Description p) forbiddenPhrases = None ->
  (index (Options p) (CorrectAnswer p) = Some "60度" ->
   validateProblem p =
     Some (withDefaultTime p, Some (GeometricInconsistency (AngleBNot90 "60度"))))
  /\ (index (Options p) (CorrectAnswer p) = Some "90度" ->
      validateProblem p = Some (withDefaultTime p, None)).
Proof.
  intros Hs Hiso H45 HB Hnone.
  assert (Hangle : Contains (Description p) "角" = true)
    by (apply (Contains_app_l _ "角" "B"); exact HB).
  rewrite (validateProblem_structural _ Hs). cbv zeta.
  rewrite (validateIsMathProblem_angle _ Hangle), Hnone, Hiso, Hangle.
  unfold validateIsoscelesTriangleProblem.
  rewrite withDefaultTime_Description, withDefaultTime_Options,
    withDefaultTime_CorrectAnswer, H45, HB.
  split; intros ->; reflexivity.
Qed.

Lemma isosceles_oracle_witness :
  validateProblem isosceles60 =
    Some (isosceles60, Some (GeometricInconsistency (AngleBNot90 "60度")))
  /\ validateProblem isosceles90 = Some (isosceles90, None).
Proof.
  split.
  - apply (isosceles_oracle isosceles60); try reflexivity.
    vm_compute. intuition congruence.
  - apply (isosceles_oracle isosceles90); try reflexivity.
    vm_compute. intuition congruence.
Defined.

(** C8, as stated, fails: the blocklist is checked before the angle.
    The isosceles problem with two angles of 45 degrees, angle B asked
    and 90 degrees as the stated answer is refused with a
    forbidden-reference error when its description opens with the
    phrase for the diagram below. *)
Lemma diagram_phrase_precedes_oracle :
  structurallyValid diagramIsosceles90
  /\ Contains (Description diagramIsosceles90) "二等辺三角形" = true
  /\ Contains (Description diagramIsosceles90) "45度" = true
  /\ Contains (Description diagramIsosceles90) "角B" = true
  /\ index (Options diagramIsosceles90) (CorrectAnswer diagramIsosceles90)
     = Some "90度"
  /\ validateIsoscelesTriangleProblem diagramIsosceles90 = Some None
  /\ validateProblem diagramIsosceles90
     = Some (diagramIsosceles90, Some (ForbiddenReference "下の図")).
Proof.
  split; [|vm_compute; auto 10].
  vm_compute. intuition congruence.
Qed.

(** C9: for a problem that passes the structural checks, a description
    that the validator takes as quantitative and that contains a
    blocklisted phrase is rejected with a forbidden-reference error (for
    the first phrase of the blocklist it contains), and a description
    that the validator does not take as quantitative is accepted,
    whatever phrases it contains. *)
Theorem forbidden_reference_only_when_quantitative p :
  structurallyValid p ->
  (validateIsMathProblem (Description p) = true ->
   forall phrase, In phrase forbiddenPhrases ->
     Contains (Description p) phrase = true ->
     exists found,
       In found forbiddenPhrases /\ Contains (Description p) found = true
       /\ validateProblem p =
            Some (withDefaultTime p, Some (ForbiddenReference found)))
  /\ (validateIsMathProblem (Description p) = false ->
      validateProblem p = Some (withDefaultTime p, None)).
Proof.
  intros Hs. rewrite (validateProblem_structural _ Hs). cbv zeta.
  split; intros ->; [|reflexivity].
  intros phrase Hin Hc.
  destruct (firstForbidden_found _ _ _ Hin Hc) as [found Hf].
  destruct (firstForbidden_Some _ _ _ Hf) as [Hin' Hc'].
  exists found. rewrite Hf. auto.
Qed.

Lemma forbidden_reference_only_when_quantitative_witness :
  (exists found,
     In found forbiddenPhrases
     /\ Contains (Description diagramAngleProblem) found = true
     /\ validateProblem diagramAngleProblem =
          Some (withDefaultTime diagramAngleProblem, Some (ForbiddenReference found)))
  /\ validateProblem diagramReadingProblem =
       Some (withDefaultTime diagramReadingProblem, None).
Proof.
  split.
  - apply (forbidden_reference_only_when_quantitative diagramAngleProblem)
      with (phrase := "下の図").
    + vm_compute. intuition congruence.
    + reflexivity.
    + vm_compute. tauto.
    + reflexivity.
  - apply (forbidden_reference_only_when_quantitative diagramReadingProblem).
    + vm_compute. intuition congruence.
    + reflexivity.
Defined.

Lemma validateIsMathProblem_feedback d :
  validateIsMathProblem d = true -> feedbackIsMathProblem d = true.
Proof.
  unfold validateIsMathProblem, feedbackIsMathProblem.
  rewrite !orb_true_iff. intuition.
Qed.

(** C3: the two tests differ on a description whose only keyword is the
    one for area: [buildFeedbackPrompt] takes it as quantitative,
    [validateProblem] does not, so the blocklist is not applied to it. *)
Theorem math_heuristics_differ :
  feedbackIsMathProblem areaDescription = true
  /\ validateIsMathProblem areaDescription = false
  /\ validateProblem (setDescription isosceles90 ("下の図の" +:+ areaDescription))
     = Some (setDescription isosceles90 ("下の図の" +:+ areaDescription), None).
Proof. vm_compute. auto. Qed.
End Validator.

(** ** The offline bank *)

Section OfflineBank.
Import GoStrings Ai Props.

Lemma mathProblems_lookup grade problems :
  mathProblems !! grade = Some problems ->
  problems = mathGrade1 \/ problems = mathGrade2 \/ problems = mathGrade3.
Proof.
  unfold mathProblems. rewrite !lookup_insert, lookup_empty.
  repeat case_decide; intros [= <-]; auto.
Qed.

Lemma bankKey_list lookup key problems :
  bankKey lookup key problems ->
  problems = mathGrade1 \/ problems = mathGrade2 \/ problems = mathGrade3
  \/ problems = englishProblems.
Proof.
  intros [grade ps H|grade]; [|auto].
  destruct (mathProblems_lookup _ _ H) as [->|[->| ->]]; auto.
Qed.

Lemma bank_NoDup problems :
  problems = mathGrade1 \/ problems = mathGrade2 \/ problems = mathGrade3
  \/ problems = englishProblems ->
  NoDup problems /\ (1 < length problems <= 3)%nat.
Proof.
  intros [->|[->|[->| ->]]]; (split; [|cbn; lia]);
    apply (NoDup_fmap_1 Title); refine (bool_decide_unpack _ _); vm_compute; exact I.
Qed.

Lemma bank_valid problems p :
  problems = mathGrade1 \/ problems = mathGrade2 \/ problems = mathGrade3
  \/ problems = englishProblems ->
  In p problems -> validProblemb p = true.
Proof.
  intros [->|[->|[->| ->]]] Hin; cbn in Hin;
    repeat (destruct Hin as [<-|Hin]; [reflexivity|]); destruct Hin.
Qed.

Lemma validProblemb_true p : validProblemb p = true -> validProblem p.
Proof.
  unfold validProblemb, validProblem. rewrite !andb_true_iff.
  rewrite !Z.leb_le, !Z.ltb_lt. lia.
Qed.

Lemma counter_setProblemIndex e key v key' :
  counter (setProblemIndex e key v) key' =
    if decide (key = key') then v else counter e key'.
Proof.
  unfold counter, setProblemIndex; cbn. rewrite lookup_insert.
  now case_decide.
Qed.

Lemma countersOk_counter e key : countersOk e -> 0 <= counter e key.
Proof.
  intros H. unfold counter. destruct (problemIndex e !! key) eqn:Hk; cbn; [|lia].
  eapply H, Hk.
Qed.

Lemma countersOk_setProblemIndex e key v :
  countersOk e -> 0 <= v -> countersOk (setProblemIndex e key v).
Proof.
  intros H Hv k w. unfold setProblemIndex; cbn. rewrite lookup_insert.
  case_decide; [intros [= <-]; assumption|apply H].
Qed.

(** One lookup: the entry at the counter, and the counter moved on. *)
Lemma nextProblem_spec e key problems :
  0 <= counter e key -> 0 < len problems < maxInt ->
  exists p,
    entryAt problems (counter e key) = Some p
    /\ nextProblem e key problems =
         Some (p, setProblemIndex e key (counter e key mod len problems + 1)).
Proof.
  intros Hc Hn. unfold nextProblem, entryAt. fold (counter e key).
  rewrite Z.rem_mod_nonneg by lia.
  pose proof (Z.mod_pos_bound (counter e key) (len problems)) as Hm.
  rewrite wrapInt_small by (unfold minInt, maxInt in *; lia).
  destruct (index_in_range problems (counter e key mod len problems)) as [p Hp];
    [lia|].
  exists p. rewrite Hp. split; [|reflexivity].
  now apply index_Some in Hp.
Qed.

Lemma entryAt_shift problems c i :
  0 < len problems ->
  entryAt problems (c mod len problems + 1 + i) = entryAt problems (c + (1 + i)).
Proof.
  intros Hn. unfold entryAt. do 2 f_equal.
  rewrite <- Z.add_assoc, Zplus_mod_idemp_l. reflexivity.
Qed.

(** [n] lookups in a row go through the list cyclically. *)
Lemma repeat_nextProblem key problems n : forall e,
  0 <= counter e key -> 0 < len problems < maxInt ->
  exists ps e',
    repeatLookup (fun e => nextProblem e key problems) n e = Some (ps, e')
    /\ length ps = n
    /\ forall i, (i < n)%nat ->
         ps !! i = entryAt problems (counter e key + Z.of_nat i).
Proof.
  induction n as [|n IH]; intros e Hc Hn.
  - exists [], e. repeat split. intros i Hi. lia.
  - destruct (nextProblem_spec e key problems Hc Hn) as (p & Hp & Hnext).
    set (e1 := setProblemIndex e key (counter e key mod len problems + 1)) in *.
    assert (Hc1 : counter e1 key = counter e key mod len problems + 1).
    { unfold e1. rewrite counter_setProblemIndex. now case_decide. }
    pose proof (Z.mod_pos_bound (counter e key) (len problems)) as Hm.
    destruct (IH e1) as (ps & e' & Hrep & Hlen & Hps); [lia|assumption|].
    exists (p :: ps), e'. cbn [repeatLookup]. rewrite Hnext. cbn.
    rewrite Hrep. cbn. repeat split; [now rewrite Hlen|].
    intros [|i] Hi; cbn.
    + now rewrite Z.add_0_r.
    + rewrite Hps by lia. rewrite Hc1, entryAt_shift by lia.
      do 2 f_equal. lia.
Qed.

Lemma rotate_Permutation {A} (l : list A) k : rotate k l ≡ₚ l.
Proof.
  unfold rotate. rewrite Permutation_app_comm. now rewrite take_drop.
Qed.

(** The first [length problems] results are the list, rotated. *)
Lemma round_robin_rotate problems c ps :
  0 <= c -> (0 < length problems)%nat ->
  (length problems <= length ps)%nat ->
  (forall i, (i < length ps)%nat -> ps !! i = entryAt problems (c + Z.of_nat i)) ->
  take (length problems) ps = rotate (Z.to_nat (c mod len problems)) problems.
Proof.
  intros Hc Hn Hlen Hps. apply list_eq. intros i.
  destruct (decide (i < length problems)%nat) as [Hi|Hi].
  - rewrite lookup_take_lt by assumption. rewrite Hps by lia.
    rewrite lookup_rotate_r by assumption.
    unfold entryAt, rotate_nat_add, len. f_equal. f_equal.
    rewrite Z2Nat.id by (apply Z.mod_pos_bound; lia).
    now rewrite Zplus_mod_idemp_l.
  - rewrite !lookup_ge_None_2; [reflexivity| |].
    + rewrite length_rotate. lia.
    + rewrite length_take. lia.
Qed.

Lemma bankKey_lookup lookup key problems :
  bankKey lookup key problems ->
  forall e, lookup e = nextProblem e key problems.
Proof.
  intros [grade ps H|grade] e; [|reflexivity].
  unfold getMathProblem. rewrite H.
  destruct (bank_NoDup ps) as [_ Hlen].
  { destruct (mathProblems_lookup _ _ H) as [->|[->| ->]]; auto. }
  replace (0 <? len ps) with true; [reflexivity|].
  symmetry. apply Z.ltb_lt. unfold len. lia.
Qed.

Lemma repeatLookup_ext lookup1 lookup2 n e :
  (forall e, lookup1 e = lookup2 e) ->
  repeatLookup lookup1 n e = repeatLookup lookup2 n e.
Proof.
  intros H. revert e. induction n as [|n IH]; intros e; [reflexivity|].
  cbn [repeatLookup]. rewrite H. destruct (lookup2 e) as [[p e1]|]; [|reflexivity].
  cbn. now rewrite IH.
Qed.

Lemma bank_len (problems : list Problem) :
  (1 < length problems <= 3)%nat -> 0 < len problems < maxInt.
Proof. unfold len, maxInt. lia. Qed.

(** The offline lookup of a validated state returns, and what it
    returns is a valid problem; the connection state is not touched. *)
Lemma nextProblem_bank e key problems :
  problems = mathGrade1 \/ problems = mathGrade2 \/ problems = mathGrade3
  \/ problems = englishProblems ->
  countersOk e ->
  exists p e',
    nextProblem e key problems = Some (p, e')
    /\ validProblem p /\ countersOk e'
    /\ isOnline e' = isOnline e /\ failureCount e' = failureCount e
    /\ lastCheck e' = lastCheck e.
Proof.
  intros Hbank Hok. destruct (bank_NoDup _ Hbank) as [_ Hlen].
  pose proof (bank_len _ Hlen) as Hn.
  destruct (nextProblem_spec e key problems) as (p & Hp & Hnext);
    [now apply countersOk_counter|assumption|].
  eexists _, _. split; [exact Hnext|].
  split; [|split; [|repeat split]].
  - apply validProblemb_true, (bank_valid problems); [assumption|].
    unfold entryAt in Hp. apply list_elem_of_In. eapply list_elem_of_lookup_2, Hp.
  - apply countersOk_setProblemIndex; [assumption|].
    pose proof (Z.mod_pos_bound (counter e key) (len problems)). lia.
Qed.

Lemma generateOfflineProblem_total e ctx :
  countersOk e ->
  exists p e',
    generateOfflineProblem e ctx = Some (p, e')
    /\ validProblem p /\ countersOk e'
    /\ isOnline e' = isOnline e /\ failureCount e' = failureCount e
    /\ lastCheck e' = lastCheck e.
Proof.
  intros Hok. unfold generateOfflineProblem.
  destruct (_ || _).
  { unfold getMathProblem. destruct (mathProblems !! Grade ctx) as [ps|] eqn:Hps.
    - destruct (0 <? len ps).
      + apply nextProblem_bank; [|assumption].
        destruct (mathProblems_lookup _ _ Hps) as [->|[->| ->]]; auto.
      + exists defaultMathProblem, e. split; [reflexivity|].
        split; [apply validProblemb_true; reflexivity|]. repeat split; assumption.
    - exists defaultMathProblem, e. split; [reflexivity|].
        split; [apply validProblemb_true; reflexivity|]. repeat split; assumption. }
  destruct (String.eqb _ "英語").
  { apply nextProblem_bank; auto. }
  repeat match goal with
         | |- context [if ?b then _ else _] => destruct b
         end;
    eexists _, e; (split; [reflexivity|]);
    (split; [apply validProblemb_true; reflexivity|]); repeat split; assumption.
Qed.

(** Whatever the state, a problem that the bank returns is valid. *)
Lemma nextProblem_valid e key problems p e' :
  problems = mathGrade1 \/ problems = mathGrade2 \/ problems = mathGrade3
  \/ problems = englishProblems ->
  nextProblem e key problems = Some (p, e') -> validProblem p.
Proof.
  intros Hbank. unfold nextProblem.
  destruct (index problems _) as [q|] eqn:Hq; [|discriminate].
  cbn. intros [= <- _]. apply index_Some in Hq as [_ Hq].
  apply validProblemb_true, (bank_valid problems); [assumption|].
  apply list_elem_of_In. eapply list_elem_of_lookup_2, Hq.
Qed.

Lemma generateOfflineProblem_valid e ctx p e' :
  generateOfflineProblem e ctx = Some (p, e') -> validProblem p.
Proof.
  unfold generateOfflineProblem.
  destruct (_ || _).
  { unfold getMathProblem. destruct (mathProblems !! Grade ctx) as [ps|] eqn:Hps.
    - destruct (0 <? len ps).
      + apply nextProblem_valid.
        destruct (mathProblems_lookup _ _ Hps) as [->|[->| ->]]; auto.
      + intros [= <- _]. apply validProblemb_true. reflexivity.
    - intros [= <- _]. apply validProblemb_true. reflexivity. }
  destruct (String.eqb _ "英語").
  { apply nextProblem_valid. auto. }
  repeat match goal with
         | |- context [if ?b then _ else _] => destruct b
         end;
    intros [= <- _]; apply validProblemb_true; reflexivity.
Qed.
End OfflineBank.

(** ** The coordinator *)

Section Coordinator.
Import GoStrings Ai Props.

Variable unmarshal : string -> option OllamaResponse.

Lemma generate_unreachable e backend prompt :
  unreachable backend ->
  exists cause, generate unmarshal e backend prompt = Err (HTTPRequestError cause).
Proof.
  intros H. unfold generate.
  destruct (H (OllamaURL (config e) +:+ "/api/generate")
              {| ReqModel := Model (config e); Prompt := prompt; Stream := true;
                 ReqOptions := generateOptions |}) as [cause ->].
  eauto.
Qed.

Lemma buildPersonalizedPrompt_total ctx :
  0 <= Grade ctx <= 3 -> exists prompt, buildPersonalizedPrompt ctx = Some prompt.
Proof.
  intros H. unfold buildPersonalizedPrompt.
  destruct (index_in_range gradeText (Grade ctx)) as [g ->];
    [change (len gradeText) with 4; lia|].
  cbn. eauto.
Qed.

Lemma countersOk_recordFailure e now :
  countersOk e -> countersOk (recordFailure e now).
Proof. intros H. exact H. Qed.

Lemma countersOk_recordSuccess e now :
  countersOk e -> countersOk (recordSuccess e now).
Proof. intros H. exact H. Qed.

Lemma countersOk_NewEngine cfg now : countersOk (NewEngine cfg now).
Proof. intros key v. cbn. now rewrite lookup_empty. Qed.

Lemma GeneratePersonalizedProblem_backend_error e backend now ctx prompt err :
  buildPersonalizedPrompt ctx = Some prompt ->
  generate unmarshal e backend prompt = Err err ->
  GeneratePersonalizedProblem unmarshal e backend now ctx =
    '(p, e') ← generateOfflineProblem (recordFailure e now) ctx; Some (Ok p, e').
Proof.
  intros Hp Hg. unfold GeneratePersonalizedProblem. cbn [shouldTryAI negb].
  rewrite Hp. cbn. rewrite Hg. reflexivity.
Qed.

Lemma GeneratePersonalizedProblem_backend_ok e backend now ctx prompt response :
  buildPersonalizedPrompt ctx = Some prompt ->
  generate unmarshal e backend prompt = Ok response ->
  GeneratePersonalizedProblem unmarshal e backend now ctx =
    r ← parseProblemResponse response; Some (r, recordSuccess e now).
Proof.
  intros Hp Hg. unfold GeneratePersonalizedProblem. cbn [shouldTryAI negb].
  rewrite Hp. cbn. rewrite Hg. reflexivity.
Qed.

(** One offline call for mathematics, grade 3, with the key's counter
    at [c]. *)
Lemma math3_unreachable_call e backend now ctx :
  Subject ctx = "数学" -> Grade ctx = 3 -> 0 <= counter e "数学_G3" ->
  unreachable backend ->
  exists p,
    entryAt mathGrade3 (counter e "数学_G3") = Some p
    /\ GeneratePersonalizedProblem unmarshal e backend now ctx =
         Some (Ok p,
               setProblemIndex (recordFailure e now) "数学_G3"
                 (counter e "数学_G3" mod 3 + 1)).
Proof.
  intros Hs Hg Hc Hb.
  destruct (buildPersonalizedPrompt_total ctx) as [prompt Hp]; [lia|].
  destruct (generate_unreachable e backend prompt Hb) as [cause Hgen].
  rewrite (GeneratePersonalizedProblem_backend_error _ _ _ _ _ _ Hp Hgen).
  unfold generateOfflineProblem. rewrite Hs. cbn [String.eqb orb].
  replace (String.eqb "数学" "数学") with true by (symmetry; apply String.eqb_refl).
  cbn [orb]. unfold getMathProblem. rewrite Hg.
  change (mathProblems !! 3) with (Some mathGrade3).
  change (0 <? len mathGrade3) with true. cbv iota.
  change ("数学_G" +:+ formatInt 3) with "数学_G3".
  destruct (nextProblem_spec (recordFailure e now) "数学_G3" mathGrade3)
    as (p & Hentry & Hnext);
    [exact Hc|change (len mathGrade3) with 3; unfold maxInt; lia|].
  exists p. split; [exact Hentry|]. rewrite Hnext. reflexivity.
Qed.

(** C4: for a key of the bank (its list has more than one entry) and an
    engine whose counter for the key is not negative, as many lookups in
    a row as the list is long return the entries of the list, each once,
    in the order of the list, cyclically from the counter and from the
    head of the list when the key was not used before; the lookup after
    them returns the same entry as the first.  In particular, two calls
    in a row of [GeneratePersonalizedProblem] for mathematics, grade 3,
    with an unreachable backend, return the first and then the second
    entry of the list of that key. *)
Theorem offline_rotation_round_robin :
  (forall lookup key problems e,
      bankKey lookup key problems -> 0 <= counter e key ->
      let N := length problems in
      (1 < N)%nat
      /\ exists ps e',
          repeatLookup lookup (S N) e = Some (ps, e')
          /\ take N ps = rotate (Z.to_nat (counter e key mod len problems)) problems
          /\ NoDup (take N ps)
          /\ ps !! N = ps !! 0%nat
          /\ (counter e key = 0 -> take N ps = problems))
  /\ (forall e backend1 backend2 now1 now2 ctx,
        Subject ctx = "数学" -> Grade ctx = 3 -> counter e "数学_G3" = 0 ->
        unreachable backend1 -> unreachable backend2 ->
        exists first second rest e1 e2,
          mathProblems !! 3 = Some (first :: second :: rest)
          /\ GeneratePersonalizedProblem unmarshal e backend1 now1 ctx
             = Some (Ok first, e1)
          /\ GeneratePersonalizedProblem unmarshal e1 backend2 now2 ctx
             = Some (Ok second, e2)).
Proof.
  split.
  - intros lookup key problems e Hkey Hc N.
    destruct (bank_NoDup problems (bankKey_list _ _ _ Hkey)) as [Hnd Hlen].
    split; [lia|].
    destruct (repeat_nextProblem key problems (S N) e Hc (bank_len _ Hlen))
      as (ps & e' & Hrep & Hps_len & Hps).
    exists ps, e'.
    assert (Hrot : take N ps
                   = rotate (Z.to_nat (counter e key mod len problems)) problems).
    { apply round_robin_rotate; [assumption|lia|lia|].
      intros i Hi. apply Hps. lia. }
    split; [|split; [|split; [|split]]].
    + rewrite <- Hrep. apply repeatLookup_ext, bankKey_lookup, Hkey.
    + exact Hrot.
    + rewrite Hrot. eapply NoDup_Permutation_proper; [apply rotate_Permutation|exact Hnd].
    + rewrite !Hps by lia. unfold entryAt. do 2 f_equal.
      rewrite Z.add_0_r. unfold N, len.
      replace (counter e key + Z.of_nat (length problems))
        with (counter e key + 1 * Z.of_nat (length problems)) by lia.
      apply Z_mod_plus_full.
    + intros H0. rewrite Hrot, H0. rewrite Z.mod_0_l by (unfold len; lia).
      unfold rotate. change (Z.to_nat 0) with 0%nat.
      rewrite Nat.Div0.mod_0_l. cbn. apply app_nil_r.
  - intros e b1 b2 now1 now2 ctx Hs Hg Hc Hb1 Hb2.
    destruct (math3_unreachable_call e b1 now1 ctx Hs Hg) as (p1 & Hp1 & Hcall1);
      [lia|assumption|].
    set (e1 := setProblemIndex (recordFailure e now1) "数学_G3"
                 (counter e "数学_G3" mod 3 + 1)) in *.
    assert (Hc1 : counter e1 "数学_G3" = 1).
    { unfold e1. rewrite counter_setProblemIndex, Hc. now case_decide. }
    destruct (math3_unreachable_call e1 b2 now2 ctx Hs Hg) as (p2 & Hp2 & Hcall2);
      [lia|assumption|].
    rewrite Hc in Hp1. rewrite Hc1 in Hp2.
    injection Hp1 as <-. injection Hp2 as <-.
    eexists _, _, _, e1, _. split; [reflexivity|]. split; [exact Hcall1|exact Hcall2].
Qed.

Lemma parseProblemResponse_valid response p :
  parseProblemResponse response = Some (Ok p) -> validProblem p.
Proof.
  unfold parseProblemResponse.
  destruct (Nat.eqb _ 0); [discriminate|].
  match goal with
  | |- context [validateProblem ?q] =>
      destruct (validateProblem q) as [[p' [err|]]|] eqn:Hv; cbn; try discriminate
  end.
  intros [= <-]. apply validateProblem_accepts in Hv as [Hs ->].
  destruct Hs as (_ & _ & Hn & Hc & Hd).
  unfold validProblem.
  rewrite withDefaultTime_CorrectAnswer, withDefaultTime_Options,
    withDefaultTime_Difficulty.
  pose proof (withDefaultTime_positive
                {| Title := getField (parseKeyValueResponse response) "TITLE" "";
                   Description := getField (parseKeyValueResponse response) "DESCRIPTION" "";
                   Options := [getField (parseKeyValueResponse response) "OPTION1" "";
                               getField (parseKeyValueResponse response) "OPTION2" "";
                               getField (parseKeyValueResponse response) "OPTION3" "";
                               getField (parseKeyValueResponse response) "OPTION4" ""];
                   CorrectAnswer :=
                     wrapInt (parseInt (getField (parseKeyValueResponse response) "CORRECT" "1") - 1);
                   Explanation := getField (parseKeyValueResponse response) "EXPLANATION" "";
                   Difficulty := parseInt (getField (parseKeyValueResponse response) "DIFFICULTY" "3");
                   EstimatedTime := parseInt (getField (parseKeyValueResponse response) "TIME" "300");
                   Encouragement := getField (parseKeyValueResponse response) "ENCOURAGEMENT" "";
                   ProblemType := getField (parseKeyValueResponse response) "TYPE" "" |}).
  tauto.
Qed.

Lemma parseProblemResponse_total response :
  exists r, parseProblemResponse response = Some r.
Proof.
  unfold parseProblemResponse.
  destruct (Nat.eqb _ 0); [eauto|].
  match goal with
  | |- context [validateProblem ?q] =>
      destruct (validateProblem_total q) as [[p' [err|]] ->]; cbn; eauto
  end.
Qed.

(** The estimated time never decides whether a problem is rejected. *)
Lemma validateProblem_time_irrelevant q t :
  snd <$> validateProblem (setEstimatedTime q t) = snd <$> validateProblem q.
Proof.
  unfold validateProblem.
  fold (withDefaultTime (setEstimatedTime q t)). fold (withDefaultTime q).
  change (Title (setEstimatedTime q t)) with (Title q).
  change (Description (setEstimatedTime q t)) with (Description q).
  change (Options (setEstimatedTime q t)) with (Options q).
  change (CorrectAnswer (setEstimatedTime q t)) with (CorrectAnswer q).
  change (Difficulty (setEstimatedTime q t)) with (Difficulty q).
  destruct (String.eqb (Title q) ""); [reflexivity|].
  destruct (String.eqb (Description q) ""); [reflexivity|].
  destruct (len (Options q) <? 2); [reflexivity|].
  destruct (_ || _); [reflexivity|].
  destruct (_ || _); [reflexivity|].
  cbv zeta. rewrite !withDefaultTime_Description.
  change (Description (setEstimatedTime q t)) with (Description q).
  destruct (validateIsMathProblem _); [|reflexivity].
  destruct (firstForbidden _ _); [reflexivity|].
  destruct (_ && _); [|reflexivity].
  unfold validateIsoscelesTriangleProblem.
  rewrite !withDefaultTime_Description, !withDefaultTime_Options,
    !withDefaultTime_CorrectAnswer.
  change (Description (setEstimatedTime q t)) with (Description q).
  change (Options (setEstimatedTime q t)) with (Options q).
  change (CorrectAnswer (setEstimatedTime q t)) with (CorrectAnswer q).
  destruct (_ && _); [|reflexivity].
  destruct (index _ _); [|reflexivity]. cbn.
  destruct (negb _); reflexivity.
Qed.

(** The calls keep the rotation counters valid. *)
Lemma GeneratePersonalizedProblem_countersOk e backend now ctx r e' :
  countersOk e ->
  GeneratePersonalizedProblem unmarshal e backend now ctx = Some (r, e') ->
  countersOk e'.
Proof.
  intros Hok. unfold GeneratePersonalizedProblem. cbn [shouldTryAI negb].
  destruct (buildPersonalizedPrompt ctx) as [prompt|]; [cbn|discriminate].
  destruct (generate unmarshal e backend prompt) as [response|err].
  - destruct (parseProblemResponse response); cbn; [|discriminate].
    intros [= _ <-]. now apply countersOk_recordSuccess.
  - destruct (generateOfflineProblem_total (recordFailure e now) ctx)
      as (p & e1 & Hoff & _ & Hok1 & _); [now apply countersOk_recordFailure|].
    rewrite Hoff. cbn. now intros [= _ <-].
Qed.

Lemma GenerateFeedback_countersOk e backend now req r e' :
  countersOk e ->
  GenerateFeedback unmarshal e backend now req = Some (r, e') ->
  countersOk e'.
Proof.
  intros Hok. unfold GenerateFeedback. cbn [shouldTryAI negb].
  destruct (buildFeedbackPrompt req) as [prompt|]; [cbn|discriminate].
  destruct (generate unmarshal e backend prompt) as [response|err];
    intros [= _ <-]; assumption.
Qed.

(** C1: when the prompt is built and the backend call returns an error,
    [GeneratePersonalizedProblem] and [GenerateFeedback] record the
    failure and return an entry of the offline bank with a nil error;
    when the backend call succeeds and the response does not parse or
    validate, they return that error, with the success recorded and the
    bank not consulted. *)
Theorem failure_handling_asymmetric e backend now :
  countersOk e ->
  (forall ctx prompt err,
      buildPersonalizedPrompt ctx = Some prompt ->
      generate unmarshal e backend prompt = Err err ->
      exists p e',
        generateOfflineProblem (recordFailure e now) ctx = Some (p, e')
        /\ GeneratePersonalizedProblem unmarshal e backend now ctx = Some (Ok p, e')
        /\ isOnline e' = false
        /\ failureCount e' = wrapInt (failureCount e + 1))
  /\ (forall ctx prompt response err,
        buildPersonalizedPrompt ctx = Some prompt ->
        generate unmarshal e backend prompt = Ok response ->
        parseProblemResponse response = Some (Err err) ->
        GeneratePersonalizedProblem unmarshal e backend now ctx
        = Some (Err err, recordSuccess e now))
  /\ (forall req prompt err,
        buildFeedbackPrompt req = Some prompt ->
        generate unmarshal e backend prompt = Err err ->
        GenerateFeedback unmarshal e backend now req
        = Some (Ok (generateOfflineFeedback req), recordFailure e now))
  /\ (forall req prompt response err,
        buildFeedbackPrompt req = Some prompt ->
        generate unmarshal e backend prompt = Ok response ->
        parseFeedbackResponse response = Err err ->
        GenerateFeedback unmarshal e backend now req
        = Some (Err err, recordSuccess e now)).
Proof.
  intros Hok. split; [|split; [|split]].
  - intros ctx prompt err Hp Hg.
    destruct (generateOfflineProblem_total (recordFailure e now) ctx)
      as (p & e' & Hoff & _ & _ & Hon & Hfc & _);
      [now apply countersOk_recordFailure|].
    exists p, e'. split; [exact Hoff|].
    rewrite (GeneratePersonalizedProblem_backend_error _ _ _ _ _ _ Hp Hg), Hoff.
    repeat split; assumption.
  - intros ctx prompt response err Hp Hg Hparse.
    rewrite (GeneratePersonalizedProblem_backend_ok _ _ _ _ _ _ Hp Hg), Hparse.
    reflexivity.
  - intros req prompt err Hp Hg. unfold GenerateFeedback. cbn [shouldTryAI negb].
    rewrite Hp. cbn. rewrite Hg. reflexivity.
  - intros req prompt response err Hp Hg Hparse. unfold GenerateFeedback.
    cbn [shouldTryAI negb]. rewrite Hp. cbn. rewrite Hg, Hparse. reflexivity.
Qed.
End Coordinator.

(** ** The streaming client *)

Section Streaming.
Import GoStrings Ai Props.

Lemma app_assoc_s (a b c : string) : (a +:+ b) +:+ c = a +:+ (b +:+ c).
Proof. induction a as [|x a IH]; [reflexivity|]. rewrite !app_cons. now f_equal. Qed.

Lemma app_empty_r (a : string) : a +:+ "" = a.
Proof. induction a as [|x a IH]; [reflexivity|]. rewrite app_cons. now f_equal. Qed.

Lemma nonEmpty_true s : s <> "" -> nonEmpty s = true.
Proof. intros H. unfold nonEmpty. now rewrite (proj2 (String.eqb_neq _ _) H). Qed.

Lemma nonEmpty_false s : s = "" -> nonEmpty s = false.
Proof. now intros ->. Qed.

Variable unmarshal : string -> option OllamaResponse.

(** While the fragments let it go on, the loop accumulates. *)
Lemma scanLoop_goesOn pre rest acc :
  Forall goesOn (fragments unmarshal pre) ->
  scanLoop unmarshal (pre ++ rest) acc
  = scanLoop unmarshal rest (acc +:+ concatResponses (fragments unmarshal pre)).
Proof.
  revert acc. induction pre as [|line pre IH]; intros acc Hpre.
  - cbn. now rewrite app_empty_r.
  - cbn [app scanLoop fragments] in *.
    destruct (String.eqb line ""); [now apply IH|].
    destruct (unmarshal line) as [r|]; [|now apply IH].
    apply Forall_cons in Hpre as [[He Hd] Hpre].
    rewrite (nonEmpty_false _ He), Hd. cbn [concatResponses].
    rewrite IH by assumption. now rewrite app_assoc_s.
Qed.

Lemma scanLoop_error line rest r acc :
  line <> "" -> unmarshal line = Some r -> Error r <> "" ->
  scanLoop unmarshal (line :: rest) acc = Err (OllamaStreamError (Error r)).
Proof.
  intros Hl Hu He. cbn [scanLoop].
  rewrite (proj2 (String.eqb_neq _ _) Hl), Hu, (nonEmpty_true _ He). reflexivity.
Qed.

Lemma scanLoop_untilDone toks acc :
  Forall noError (untilDone (fragments unmarshal toks)) ->
  scanLoop unmarshal toks acc
  = Ok (acc +:+ concatResponses (untilDone (fragments unmarshal toks))).
Proof.
  revert acc. induction toks as [|line toks IH]; intros acc H.
  - cbn. now rewrite app_empty_r.
  - cbn [scanLoop fragments] in *.
    destruct (String.eqb line ""); [now apply IH|].
    destruct (unmarshal line) as [r|]; [|now apply IH].
    cbn [untilDone] in *. destruct (Done r).
    + apply Forall_cons in H as [He _]. rewrite (nonEmpty_false _ He).
      cbn. now rewrite app_empty_r.
    + apply Forall_cons in H as [He H]. rewrite (nonEmpty_false _ He).
      cbn [concatResponses]. rewrite IH by assumption. now rewrite app_assoc_s.
Qed.

Lemma generate_responds e backend prompt body lines :
  backend (requestURL e) (requestBody e prompt) = Responds 200 body lines ->
  generate unmarshal e backend prompt =
    match scanLoop unmarshal (tokens lines) "" with
    | Err err => Err err
    | Ok fullResponse =>
        match scanErr lines with
        | Some cause => Err (StreamReadError cause)
        | None => Ok (TrimSpace fullResponse)
        end
    end.
Proof.
  intros H. unfold generate. fold (requestURL e). fold (requestBody e prompt).
  rewrite H. reflexivity.
Qed.

(** C5, as amended: when the response has status 200 and a line of the
    stream decodes to a fragment with a non-empty error field, no earlier
    fragment carrying an error or the done flag, the call fails with the
    error made of that message, and returns none of the text accumulated
    before. *)
Theorem stream_error_aborts e backend prompt body lines pre line post r :
  backend (requestURL e) (requestBody e prompt) = Responds 200 body lines ->
  tokens lines = pre ++ line :: post ->
  line <> "" -> unmarshal line = Some r -> Error r <> "" ->
  Forall goesOn (fragments unmarshal pre) ->
  generate unmarshal e backend prompt = Err (OllamaStreamError (Error r))
  /\ errorString (OllamaStreamError (Error r)) = "ollama処理エラー: " +:+ Error r.
Proof.
  intros Hb Htok Hl Hu He Hpre. split; [|reflexivity].
  rewrite (generate_responds _ _ _ _ _ Hb), Htok.
  rewrite scanLoop_goesOn by assumption.
  now rewrite (scanLoop_error _ _ _ _ Hl Hu He).
Qed.

Lemma generate_untilDone e backend prompt body lines :
  backend (requestURL e) (requestBody e prompt) = Responds 200 body lines ->
  scanErr lines = None ->
  Forall noError (untilDone (fragments unmarshal (tokens lines))) ->
  generate unmarshal e backend prompt
  = Ok (TrimSpace (concatResponses (untilDone (fragments unmarshal (tokens lines))))).
Proof.
  intros Hb Hs Hf.
  rewrite (generate_responds _ _ _ _ _ Hb), scanLoop_untilDone by assumption.
  now rewrite Hs.
Qed.
End Streaming.

Section StreamingExamples.
Import GoStrings Ai Props.

Lemma stream_error_aborts_witness :
  generate Json.Unmarshal freshEngine
    (answering [fragmentLine "A" false; ""; "not json"; errorLine "model not found";
                fragmentLine "B" true]) "prompt"
  = Err (OllamaStreamError "model not found")
  /\ errorString (OllamaStreamError "model not found")
     = "ollama処理エラー: model not found".
Proof.
  apply (stream_error_aborts Json.Unmarshal freshEngine
           (answering [fragmentLine "A" false; ""; "not json";
                       errorLine "model not found"; fragmentLine "B" true])
           "prompt" ""
           (readWithoutError [fragmentLine "A" false; ""; "not json";
                              errorLine "model not found"; fragmentLine "B" true])
           [fragmentLine "A" false; ""; "not json"] (errorLine "model not found")
           [fragmentLine "B" true]
           {| Response := ""; Done := false; Error := "model not found" |}).
  - reflexivity.
  - reflexivity.
  - vm_compute. discriminate.
  - vm_compute. reflexivity.
  - vm_compute. discriminate.
  - vm_compute. repeat constructor.
Defined.

(** C5, as stated, fails: a fragment with an error field that comes
    after a fragment with the done flag is never read. *)
Lemma error_after_done_is_not_read :
  Json.Unmarshal (errorLine "boom")
  = Some {| Response := ""; Done := false; Error := "boom" |}
  /\ generate Json.Unmarshal freshEngine
       (answering [fragmentLine "A" true; errorLine "boom"]) "prompt"
     = Ok "A".
Proof. vm_compute. split; reflexivity. Qed.

(** C6, as amended: when the response has status 200, the body is read
    without error and no fragment up to the first one with the done flag
    carries an error, [generate] returns the response fields of the
    fragments up to and including that one, concatenated in the order of
    arrival, with the white space at both ends trimmed; lines that are
    empty or do not decode are skipped.  In particular the fragments A, B
    and C, the last one done, give ABC, with or without a malformed line
    between them. *)
Theorem generate_accumulates :
  (forall unmarshal e backend prompt body lines,
      backend (requestURL e) (requestBody e prompt) = Responds 200 body lines ->
      scanErr lines = None ->
      Forall noError (untilDone (fragments unmarshal (tokens lines))) ->
      generate unmarshal e backend prompt
      = Ok (TrimSpace
              (concatResponses (untilDone (fragments unmarshal (tokens lines))))))
  /\ (forall e prompt,
        generate Json.Unmarshal e
          (answering [fragmentLine "A" false; fragmentLine "B" false;
                      fragmentLine "C" true]) prompt
        = Ok "ABC")
  /\ (forall e prompt,
        generate Json.Unmarshal e
          (answering [fragmentLine "A" false; "not json"; fragmentLine "B" false;
                      fragmentLine "C" true; fragmentLine "D" true]) prompt
        = Ok "ABC").
Proof.
  split; [exact generate_untilDone|].
  split; intros e prompt.
  - rewrite (generate_untilDone Json.Unmarshal e _ prompt ""
               (readWithoutError [fragmentLine "A" false; fragmentLine "B" false;
                                  fragmentLine "C" true]) eq_refl eq_refl);
      [reflexivity|vm_compute; repeat constructor].
  - rewrite (generate_untilDone Json.Unmarshal e _ prompt ""
               (readWithoutError [fragmentLine "A" false; "not json";
                                  fragmentLine "B" false; fragmentLine "C" true;
                                  fragmentLine "D" true]) eq_refl eq_refl);
      [reflexivity|vm_compute; repeat constructor].
Qed.

Lemma generate_accumulates_witness :
  generate Json.Unmarshal freshEngine
    (answering [fragmentLine "TITLE: " false; ""; fragmentLine "x " true;
                fragmentLine "y" true]) "prompt"
  = Ok "TITLE: x".
Proof.
  rewrite (proj1 generate_accumulates Json.Unmarshal freshEngine
             _ "prompt" ""
             (readWithoutError [fragmentLine "TITLE: " false; "";
                                fragmentLine "x " true; fragmentLine "y" true])
             eq_refl eq_refl).
  - reflexivity.
  - vm_compute. repeat constructor.
Defined.

(** C6, as stated, fails: the text returned is not the concatenation
    when that begins or ends with white space. *)
Lemma generate_trims_concatenation :
  concatResponses (untilDone (fragments Json.Unmarshal [fragmentLine " A" true]))
  = " A"
  /\ generate Json.Unmarshal freshEngine
       (answering [fragmentLine " A" true]) "prompt"
     = Ok "A".
Proof. vm_compute. split; reflexivity. Qed.
End StreamingExamples.

Section CoordinatorExamples.
Import GoStrings Ai Props.

Lemma failure_handling_asymmetric_witness :
  (exists p e',
      GeneratePersonalizedProblem Json.Unmarshal freshEngine refusing 1 (mathContext 3)
      = Some (Ok p, e')
      /\ isOnline e' = false /\ failureCount e' = 1)
  /\ GeneratePersonalizedProblem Json.Unmarshal freshEngine
       (answering [fragmentLine "hello" true]) 1 (mathContext 3)
     = Some (Err (ResponseParseError "hello"), recordSuccess freshEngine 1)
  /\ GenerateFeedback Json.Unmarshal freshEngine refusing 1 exampleFeedbackRequest
     = Some (Ok (generateOfflineFeedback exampleFeedbackRequest),
             recordFailure freshEngine 1)
  /\ GenerateFeedback Json.Unmarshal freshEngine
       (answering [fragmentLine "" true]) 1 exampleFeedbackRequest
     = Some (Err (ResponseParseError ""), recordSuccess freshEngine 1).
Proof.
  pose proof (countersOk_NewEngine exampleConfig 0) as Hok.
  fold freshEngine in Hok. set (e := freshEngine) in *.
  split; [|split; [|split]].
  - destruct (failure_handling_asymmetric Json.Unmarshal e refusing 1 Hok)
      as (H & _).
    edestruct (H (mathContext 3)) as (p & e' & _ & Hcall & Hon & Hfc).
    + vm_compute; reflexivity.
    + vm_compute; reflexivity.
    + exists p, e'. split; [exact Hcall|]. split; [exact Hon|exact Hfc].
  - destruct (failure_handling_asymmetric Json.Unmarshal e
                (answering [fragmentLine "hello" true]) 1 Hok)
      as (_ & H & _).
    eapply (H (mathContext 3)).
    + vm_compute; reflexivity.
    + vm_compute; reflexivity.
    + vm_compute; reflexivity.
  - destruct (failure_handling_asymmetric Json.Unmarshal e refusing 1 Hok)
      as (_ & _ & H & _).
    eapply (H exampleFeedbackRequest).
    + vm_compute; reflexivity.
    + vm_compute; reflexivity.
  - destruct (failure_handling_asymmetric Json.Unmarshal e
                (answering [fragmentLine "" true]) 1 Hok)
      as (_ & _ & _ & H).
    eapply (H exampleFeedbackRequest).
    + vm_compute; reflexivity.
    + vm_compute; reflexivity.
    + vm_compute; reflexivity.
Defined.

Lemma offline_rotation_round_robin_witness :
  (exists ps e',
      repeatLookup (fun e => getMathProblem e 3) 4 freshEngine
      = Some (ps, e')
      /\ take 3 ps = mathGrade3 /\ ps !! 3%nat = ps !! 0%nat)
  /\ exists first second rest e1 e2,
      mathProblems !! 3 = Some (first :: second :: rest)
      /\ GeneratePersonalizedProblem Json.Unmarshal freshEngine
           refusing 1 (mathContext 3) = Some (Ok first, e1)
      /\ GeneratePersonalizedProblem Json.Unmarshal e1 refusing 2 (mathContext 3)
         = Some (Ok second, e2).
Proof.
  split.
  - destruct (proj1 (offline_rotation_round_robin Json.Unmarshal)
                (fun e => getMathProblem e 3) "数学_G3" mathGrade3
                freshEngine)
      as (_ & ps & e' & Hrep & _ & _ & Hlast & Hfirst).
    + apply (mathKey 3). reflexivity.
    + vm_compute. discriminate.
    + exists ps, e'. split; [exact Hrep|]. split; [apply Hfirst; reflexivity|exact Hlast].
  - apply (proj2 (offline_rotation_round_robin Json.Unmarshal)
             freshEngine refusing refusing 1 2 (mathContext 3));
      try reflexivity; intros url req; eexists; reflexivity.
Defined.
End CoordinatorExamples.

(** ** Strings: reversal, trimming, splitting *)

Section StringFacts.
Import GoStrings Ai Props.

Lemma length_app_s (a b : string) :
  String.length (a +:+ b) = (String.length a + String.length b)%nat.
Proof. induction a as [|x a IH]; [reflexivity|]. rewrite app_cons. cbn. now rewrite IH. Qed.

Lemma reverse_acc s acc : reverse s acc = reverse s "" +:+ acc.
Proof.
  revert acc. induction s as [|c s IH]; intros acc; [reflexivity|].
  cbn. rewrite (IH (String c acc)), (IH (String c "")).
  now rewrite app_assoc_s.
Qed.

Lemma reverse_app a b : reverse (a +:+ b) "" = reverse b "" +:+ reverse a "".
Proof.
  induction a as [|c a IH]; [now rewrite app_empty_l, app_empty_r|].
  rewrite app_cons. cbn. rewrite (reverse_acc (a +:+ b)), (reverse_acc a), IH.
  now rewrite app_assoc_s.
Qed.

Lemma reverse_involutive s : reverse (reverse s "") "" = s.
Proof.
  induction s as [|c s IH]; [reflexivity|].
  cbn. rewrite (reverse_acc s), reverse_app, IH. reflexivity.
Qed.

Lemma length_reverse s acc :
  String.length (reverse s acc) = (String.length s + String.length acc)%nat.
Proof.
  revert acc. induction s as [|c s IH]; intros acc; [reflexivity|].
  cbn. rewrite IH. cbn. lia.
Qed.

Lemma app_eq_empty (a b : string) : a +:+ b = "" -> a = "" /\ b = "".
Proof. destruct a; [auto|discriminate]. Qed.

(** *** White space bytes *)

Lemma space2_high a b : space2 a b = true -> 128 <= code a /\ 128 <= code b.
Proof.
  unfold space2, byteIs. rewrite andb_true_iff, orb_true_iff, !Z.eqb_eq. lia.
Qed.

Lemma space3_high a b c :
  space3 a b c = true -> 128 <= code a /\ 128 <= code b /\ 128 <= code c.
Proof.
  unfold space3, byteIs.
  rewrite !orb_true_iff, !andb_true_iff, !orb_true_iff, !andb_true_iff,
    !Z.eqb_eq, !Z.leb_le. lia.
Qed.

Lemma asciiSpace_low a : asciiSpace a = true -> code a < 128.
Proof. unfold asciiSpace, byteIs. rewrite !orb_true_iff, !Z.eqb_eq. lia. Qed.

Lemma space2_low_l a b : code a < 128 -> space2 a b = false.
Proof. intros H. destruct (space2 a b) eqn:E; [apply space2_high in E; lia|reflexivity]. Qed.

Lemma space2_low_r a b : code b < 128 -> space2 a b = false.
Proof. intros H. destruct (space2 a b) eqn:E; [apply space2_high in E; lia|reflexivity]. Qed.

Lemma space3_low_1 a b c : code a < 128 -> space3 a b c = false.
Proof. intros H. destruct (space3 a b c) eqn:E; [apply space3_high in E; lia|reflexivity]. Qed.

Lemma space3_low_2 a b c : code b < 128 -> space3 a b c = false.
Proof. intros H. destruct (space3 a b c) eqn:E; [apply space3_high in E; lia|reflexivity]. Qed.

Lemma space3_low_3 a b c : code c < 128 -> space3 a b c = false.
Proof. intros H. destruct (space3 a b c) eqn:E; [apply space3_high in E; lia|reflexivity]. Qed.

(** *** Trimming *)

Lemma trimLeft_length_bound n : forall s,
  (String.length s <= n)%nat -> (String.length (trimLeft s) <= String.length s)%nat.
Proof.
  induction n as [|n IH]; intros s Hn.
  - destruct s; [cbn; lia|cbn in Hn; lia].
  - destruct s as [|a [|b [|c s3]]]; cbn in *; try lia.
    + destruct (asciiSpace a); cbn; lia.
    + destruct (asciiSpace a).
      * specialize (IH (String b "")). cbn in IH. lia.
      * destruct (space2 a b); cbn; lia.
    + destruct (asciiSpace a).
      * specialize (IH (String b (String c s3))). cbn in IH. lia.
      * destruct (space2 a b).
        -- specialize (IH (String c s3)). cbn in IH. lia.
        -- destruct (space3 a b c); [|cbn; lia].
           specialize (IH s3). lia.
Qed.

Lemma trimLeft_length s : (String.length (trimLeft s) <= String.length s)%nat.
Proof. now apply (trimLeft_length_bound (String.length s)). Qed.

Lemma trimLeftRev_length_bound n : forall s,
  (String.length s <= n)%nat -> (String.length (trimLeftRev s) <= String.length s)%nat.
Proof.
  induction n as [|n IH]; intros s Hn.
  - destruct s; [cbn; lia|cbn in Hn; lia].
  - destruct s as [|a [|b [|c s3]]]; cbn in *; try lia.
    + destruct (asciiSpace a); cbn; lia.
    + destruct (asciiSpace a).
      * specialize (IH (String b "")). cbn in IH. lia.
      * destruct (space2 b a); cbn; lia.
    + destruct (asciiSpace a).
      * specialize (IH (String b (String c s3))). cbn in IH. lia.
      * destruct (space2 b a).
        -- specialize (IH (String c s3)). cbn in IH. lia.
        -- destruct (space3 c b a); [|cbn; lia].
           specialize (IH s3). lia.
Qed.

Lemma trimLeftRev_length s : (String.length (trimLeftRev s) <= String.length s)%nat.
Proof. now apply (trimLeftRev_length_bound (String.length s)). Qed.

Lemma trimRight_length s : (String.length (trimRight s) <= String.length s)%nat.
Proof.
  unfold trimRight. rewrite length_reverse. cbn.
  pose proof (trimLeftRev_length (reverse s "")) as H.
  rewrite length_reverse in H. cbn in H. lia.
Qed.

Lemma trimLeft_cons a s1 :
  trimLeft (String a s1) =
    if asciiSpace a then trimLeft s1
    else match s1 with
         | EmptyString => String a s1
         | String b s2 =>
             if space2 a b then trimLeft s2
             else match s2 with
                  | EmptyString => String a s1
                  | String c s3 => if space3 a b c then trimLeft s3 else String a s1
                  end
         end.
Proof. reflexivity. Qed.

Lemma trimLeftRev_cons a s1 :
  trimLeftRev (String a s1) =
    if asciiSpace a then trimLeftRev s1
    else match s1 with
         | EmptyString => String a s1
         | String b s2 =>
             if space2 b a then trimLeftRev s2
             else match s2 with
                  | EmptyString => String a s1
                  | String c s3 => if space3 c b a then trimLeftRev s3 else String a s1
                  end
         end.
Proof. reflexivity. Qed.

(** A string that [trimLeft] leaves as it is stays so when an ASCII byte
    follows it: no byte of it can be the beginning of a white space
    character that the following byte completes. *)
Lemma trimLeft_stable s t :
  trimLeft s = s -> s <> "" -> asciiHead t -> trimLeft (s +:+ t) = s +:+ t.
Proof.
  intros Hs Hne Ht.
  destruct s as [|a [|b [|c s3]]]; [congruence| | |].
  - rewrite trimLeft_cons in Hs. rewrite app_cons, app_empty_l.
    destruct (asciiSpace a) eqn:Ha; [discriminate|].
    destruct t as [|d [|f t]]; rewrite trimLeft_cons, Ha; [reflexivity| |].
    + now rewrite (space2_low_r a d Ht).
    + now rewrite (space2_low_r a d Ht), (space3_low_2 a d f Ht).
  - rewrite trimLeft_cons in Hs. rewrite !app_cons, app_empty_l.
    destruct (asciiSpace a) eqn:Ha;
      [length_absurd Hs (trimLeft_length (String b ""))|].
    destruct (space2 a b) eqn:Hab; [discriminate|].
    destruct t as [|d t]; rewrite trimLeft_cons, Ha, Hab; [reflexivity|].
    now rewrite (space3_low_3 a b d Ht).
  - rewrite trimLeft_cons in Hs. rewrite !app_cons.
    destruct (asciiSpace a) eqn:Ha;
      [length_absurd Hs (trimLeft_length (String b (String c s3)))|].
    destruct (space2 a b) eqn:Hab;
      [length_absurd Hs (trimLeft_length (String c s3))|].
    destruct (space3 a b c) eqn:Habc; [length_absurd Hs (trimLeft_length s3)|].
    now rewrite trimLeft_cons, Ha, Hab, Habc.
Qed.

Lemma trimLeftRev_stable s t :
  trimLeftRev s = s -> s <> "" -> asciiHead t -> trimLeftRev (s +:+ t) = s +:+ t.
Proof.
  intros Hs Hne Ht.
  destruct s as [|a [|b [|c s3]]]; [congruence| | |].
  - rewrite trimLeftRev_cons in Hs. rewrite app_cons, app_empty_l.
    destruct (asciiSpace a) eqn:Ha; [discriminate|].
    destruct t as [|d [|f t]]; rewrite trimLeftRev_cons, Ha; [reflexivity| |].
    + now rewrite (space2_low_l d a Ht).
    + now rewrite (space2_low_l d a Ht), (space3_low_2 f d a Ht).
  - rewrite trimLeftRev_cons in Hs. rewrite !app_cons, app_empty_l.
    destruct (asciiSpace a) eqn:Ha;
      [length_absurd Hs (trimLeftRev_length (String b ""))|].
    destruct (space2 b a) eqn:Hab; [discriminate|].
    destruct t as [|d t]; rewrite trimLeftRev_cons, Ha, Hab; [reflexivity|].
    now rewrite (space3_low_1 d b a Ht).
  - rewrite trimLeftRev_cons in Hs. rewrite !app_cons.
    destruct (asciiSpace a) eqn:Ha;
      [length_absurd Hs (trimLeftRev_length (String b (String c s3)))|].
    destruct (space2 b a) eqn:Hab;
      [length_absurd Hs (trimLeftRev_length (String c s3))|].
    destruct (space3 c b a) eqn:Habc; [length_absurd Hs (trimLeftRev_length s3)|].
    now rewrite trimLeftRev_cons, Ha, Hab, Habc.
Qed.

Lemma reverse_inj a b : reverse a "" = reverse b "" -> a = b.
Proof.
  intros H. apply (f_equal (fun s => reverse s "")) in H.
  now rewrite !reverse_involutive in H.
Qed.

Lemma trimRight_fixed_iff s :
  trimRight s = s <-> trimLeftRev (reverse s "") = reverse s "".
Proof.
  unfold trimRight. split; intros H.
  - rewrite <- H at 2. now rewrite reverse_involutive.
  - rewrite H. apply reverse_involutive.
Qed.

Lemma reverse_empty_iff s : reverse s "" = "" <-> s = "".
Proof.
  split; [|now intros ->]. intros H. apply reverse_inj. exact H.
Qed.

(** The same at the end: an ASCII byte before the string changes
    nothing. *)
Lemma trimRight_stable t c s :
  trimRight s = s -> s <> "" -> code c < 128 ->
  trimRight (t +:+ String c s) = t +:+ String c s.
Proof.
  intros Hs Hne Hc. apply trimRight_fixed_iff.
  replace (t +:+ String c s) with ((t +:+ String c "") +:+ s)
    by (now rewrite app_assoc_s).
  rewrite reverse_app. apply trimLeftRev_stable.
  - now apply trimRight_fixed_iff.
  - now rewrite reverse_empty_iff.
  - rewrite reverse_app. cbn. exact Hc.
Qed.

Lemma trimLeft_fixed_or_shorter s :
  trimLeft s = s \/ (String.length (trimLeft s) < String.length s)%nat.
Proof.
  destruct s as [|a [|b [|c s3]]]; cbn; [auto| | |].
  - destruct (asciiSpace a); cbn; [right; lia|auto].
  - destruct (asciiSpace a).
    { right. pose proof (trimLeft_length (String b "")). cbn in *; lia. }
    destruct (space2 a b); cbn; [right; lia|auto].
  - destruct (asciiSpace a).
    { right. pose proof (trimLeft_length (String b (String c s3))). cbn in *; lia. }
    destruct (space2 a b).
    { right. pose proof (trimLeft_length (String c s3)). cbn in *; lia. }
    destruct (space3 a b c); [|auto].
    right. pose proof (trimLeft_length s3). lia.
Qed.

(** What [TrimSpace] leaves as it is, both halves leave as it is. *)
Lemma TrimSpace_fixed s : TrimSpace s = s -> trimLeft s = s /\ trimRight s = s.
Proof.
  unfold TrimSpace. intros H.
  destruct (trimLeft_fixed_or_shorter s) as [Hl|Hl].
  - rewrite Hl in H. auto.
  - apply (f_equal String.length) in H.
    pose proof (trimRight_length (trimLeft s)). lia.
Qed.

Lemma TrimSpace_of_fixed s : trimLeft s = s -> trimRight s = s -> TrimSpace s = s.
Proof. unfold TrimSpace. now intros -> ->. Qed.
End StringFacts.

(** ** Lines *)

Section Lines.
Import GoStrings Ai Props.

Lemma noByte_app n a b : noByte n (a +:+ b) = noByte n a && noByte n b.
Proof.
  induction a as [|c a IH]; [reflexivity|].
  rewrite app_cons. cbn. rewrite IH. now rewrite andb_assoc.
Qed.

Lemma splitLines_noLF l s cur :
  noByte 10 l = true -> splitLines (l +:+ s) cur = splitLines s (reverse l cur).
Proof.
  revert cur. induction l as [|c l IH]; intros cur H; [reflexivity|].
  cbn in H. apply andb_true_iff in H as [Hc Hl]. apply negb_true_iff in Hc.
  rewrite app_cons. cbn. rewrite Hc. now apply IH.
Qed.

Lemma SplitNewline_single l : noByte 10 l = true -> SplitNewline l = [l].
Proof.
  intros H. unfold SplitNewline.
  rewrite <- (app_empty_r l) at 1. rewrite splitLines_noLF by assumption.
  cbn. now rewrite reverse_involutive.
Qed.

Lemma SplitNewline_cons l s :
  noByte 10 l = true -> SplitNewline (l +:+ LF +:+ s) = l :: SplitNewline s.
Proof.
  intros H. unfold SplitNewline. rewrite splitLines_noLF by assumption.
  rewrite app_cons, app_empty_l. cbn. now rewrite reverse_involutive.
Qed.

Lemma Join_cons x y (l : list string) sep :
  Join (x :: y :: l) sep = x +:+ sep +:+ Join (y :: l) sep.
Proof. reflexivity. Qed.

Lemma Join_contLines l ls : Join (l :: ls) LF = l +:+ contLines ls.
Proof.
  revert l. induction ls as [|y ls IH]; intros l.
  - cbn. now rewrite app_empty_r.
  - rewrite Join_cons, IH. reflexivity.
Qed.

Lemma Join_app (l1 l2 : list string) sep :
  l1 <> [] -> l2 <> [] ->
  Join (l1 ++ l2) sep = Join l1 sep +:+ sep +:+ Join l2 sep.
Proof.
  intros H1 H2. induction l1 as [|x l1 IH]; [congruence|].
  destruct l1 as [|y l1].
  - destruct l2 as [|z l2]; [congruence|]. reflexivity.
  - cbn [app] in *. rewrite !Join_cons, IH by discriminate.
    now rewrite !app_assoc_s.
Qed.

Lemma SplitNewline_Join (ls : list string) :
  ls <> [] -> Forall (fun l => noByte 10 l = true) ls ->
  SplitNewline (Join ls LF) = ls.
Proof.
  induction ls as [|x ls IH]; [congruence|]. intros _ H.
  apply Forall_cons in H as [Hx Hls].
  destruct ls as [|y ls]; [now apply SplitNewline_single|].
  rewrite Join_cons, SplitNewline_cons by assumption.
  f_equal. now apply IH.
Qed.

Lemma splitLines_not_nil s cur : splitLines s cur <> [].
Proof.
  revert cur. induction s as [|c s IH]; intros cur; cbn; [discriminate|].
  destruct (byteIs c 10); [discriminate|apply IH].
Qed.

Lemma Join_splitLines s cur : Join (splitLines s cur) LF = reverse cur "" +:+ s.
Proof.
  revert cur. induction s as [|c s IH]; intros cur.
  - cbn. now rewrite app_empty_r.
  - cbn [splitLines]. destruct (byteIs c 10) eqn:Hc.
    + destruct (splitLines s "") as [|y l] eqn:Hs; [now apply splitLines_not_nil in Hs|].
      rewrite Join_cons, <- Hs, IH. cbn [reverse]. rewrite app_empty_l.
      unfold byteIs in Hc. apply Z.eqb_eq in Hc.
      assert (c = "010"%char) as ->.
      { rewrite <- (ascii_N_embedding c). unfold code in Hc.
        now replace (N_of_ascii c) with 10%N by lia. }
      reflexivity.
    + rewrite IH. cbn [reverse]. rewrite (reverse_acc cur (String c "")).
      now rewrite app_assoc_s.
Qed.

Lemma Join_SplitNewline s : Join (SplitNewline s) LF = s.
Proof. unfold SplitNewline. now rewrite Join_splitLines. Qed.

Lemma splitLines_noLF_lines s cur :
  noByte 10 cur = true ->
  Forall (fun l => noByte 10 l = true) (splitLines s cur).
Proof.
  assert (Hrev : forall a acc, noByte 10 a = true -> noByte 10 acc = true ->
                               noByte 10 (reverse a acc) = true).
  { induction a as [|x a IHa]; intros acc Ha Hacc; [exact Hacc|].
    cbn in *. apply andb_true_iff in Ha as [Hx Ha]. apply IHa; [assumption|].
    cbn. now rewrite Hx. }
  revert cur. induction s as [|c s IH]; intros cur Hcur; cbn.
  - constructor; [|constructor]. now apply Hrev.
  - destruct (byteIs c 10) eqn:Hc.
    + constructor; [now apply Hrev|]. now apply IH.
    + apply IH. cbn. now rewrite Hc.
Qed.

(** *** Fences, the colon, slices *)

Lemma noFence_tail a s : noFence (String a s) = true -> noFence s = true.
Proof.
  cbn. destruct s as [|b [|c s3]]; [reflexivity..|].
  rewrite andb_true_iff. now intros [_ H].
Qed.

Lemma RemoveFences_noFence s : noFence s = true -> RemoveFences s = s.
Proof.
  induction s as [|a s IH]; [reflexivity|]. intros H.
  pose proof (noFence_tail _ _ H) as Hs. specialize (IH Hs).
  destruct s as [|b [|c s3]]; [reflexivity..|].
  cbn [noFence] in H. apply andb_true_iff in H as [H _].
  apply negb_true_iff in H. cbn [RemoveFences]. rewrite H.
  cbn [RemoveFences] in IH. now rewrite IH.
Qed.

Lemma noFence_cons3 a b c s :
  noFence (String a (String b (String c s)))
  = negb (byteIs a 96 && byteIs b 96 && byteIs c 96)
    && noFence (String b (String c s)).
Proof. reflexivity. Qed.

(** A byte that is no backquote keeps the fences of the two sides
    apart. *)
Lemma noFence_app_sep a c b :
  byteIs c 96 = false -> noFence a = true -> noFence b = true ->
  noFence (a +:+ String c b) = true.
Proof.
  intros Hc Ha Hb. induction a as [|x a IH].
  - rewrite app_empty_l. destruct b as [|y [|z b]]; [reflexivity..|].
    rewrite noFence_cons3, Hc, Hb. reflexivity.
  - specialize (IH (noFence_tail _ _ Ha)). rewrite app_cons.
    destruct a as [|y [|z a]].
    + rewrite app_empty_l in *. destruct b as [|y b]; [reflexivity|].
      rewrite noFence_cons3, Hc, IH, andb_false_r. reflexivity.
    + rewrite app_cons, app_empty_l in *.
      rewrite noFence_cons3, Hc, IH, andb_false_r. reflexivity.
    + rewrite !app_cons in *. rewrite noFence_cons3 in Ha |- *.
      apply andb_true_iff in Ha as [Ha _]. now rewrite Ha, IH.
Qed.

Lemma noFence_Join ls :
  Forall (fun l => noFence l = true) ls -> noFence (Join ls LF) = true.
Proof.
  induction ls as [|x ls IH]; intros H; [reflexivity|].
  apply Forall_cons in H as [Hx Hls]. destruct ls as [|y ls]; [exact Hx|].
  rewrite Join_cons, app_cons, app_empty_l.
  apply noFence_app_sep; [reflexivity|assumption|now apply IH].
Qed.

Lemma Ascii_eqb_colon c : Ascii.eqb c ":" = byteIs c 58.
Proof. destruct c as [[] [] [] [] [] [] [] []]; reflexivity. Qed.

Lemma HasPrefix_colon s :
  HasPrefix s ":" = match s with
                    | EmptyString => false
                    | String c _ => byteIs c 58
                    end.
Proof.
  destruct s as [|c s]; [reflexivity|]. cbn.
  now rewrite Ascii_eqb_colon, andb_true_r.
Qed.

Lemma Index_colon_none l : noByte 58 l = true -> Index l ":" = -1.
Proof.
  induction l as [|c l IH]; [reflexivity|]. cbn [noByte].
  rewrite andb_true_iff, negb_true_iff. intros [Hc Hl].
  rewrite Index_unfold, HasPrefix_colon, Hc. cbv zeta.
  now rewrite (IH Hl).
Qed.

Lemma Index_colon_first k rest :
  noByte 58 k = true ->
  Index (k +:+ String ":" rest) ":" = Z.of_nat (String.length k).
Proof.
  induction k as [|c k IH].
  - intros _. rewrite app_empty_l. now rewrite Index_unfold, HasPrefix_colon.
  - cbn [noByte]. rewrite andb_true_iff, negb_true_iff. intros [Hc Hk].
    rewrite app_cons, Index_unfold, HasPrefix_colon, Hc. cbv zeta.
    rewrite (IH Hk).
    replace (Z.of_nat (String.length k) <? 0) with false
      by (symmetry; apply Z.ltb_ge; lia).
    cbn [String.length]. lia.
Qed.

Lemma sliceTo_app k s : sliceTo (k +:+ s) (String.length k) = k.
Proof.
  induction k as [|c k IH].
  - rewrite app_empty_l. now destruct s.
  - rewrite app_cons. cbn. now rewrite IH.
Qed.

Lemma sliceFrom_app k s : sliceFrom (k +:+ s) (String.length k) = s.
Proof.
  induction k as [|c k IH].
  - rewrite app_empty_l. now destruct s.
  - rewrite app_cons. cbn. exact IH.
Qed.
End Lines.

(** ** The response parser *)

Section Parser.
Import GoStrings Ai Props.

Lemma trimmed_TrimSpace l : trimmed l -> TrimSpace l = l.
Proof. intros (_ & Hl & Hr). now apply TrimSpace_of_fixed. Qed.

Lemma cleanLine_spec l :
  cleanLine l = true ->
  trimmed l /\ noByte 10 l = true /\ noFence l = true.
Proof.
  unfold cleanLine, nonEmpty. rewrite !andb_true_iff, negb_true_iff.
  intros [[[Hne Ht] Hlf] Hbq].
  apply String.eqb_neq in Hne. apply String.eqb_eq in Ht.
  destruct (TrimSpace_fixed _ Ht). repeat split; assumption.
Qed.

Lemma cleanKey_spec k :
  cleanKey k = true ->
  trimmed k /\ noByte 10 k = true /\ noFence k = true /\ noByte 58 k = true.
Proof.
  unfold cleanKey. rewrite andb_true_iff. intros [Hc Hk].
  destruct (cleanLine_spec _ Hc) as (? & ? & ?). auto.
Qed.

(** The line that opens a field. *)
Lemma trimmed_keyLine k l : trimmed k -> trimmed l -> trimmed (k +:+ ": " +:+ l).
Proof.
  intros (Hk & Hkl & _) (Hl & _ & Hlr). repeat split.
  - intros H. apply app_eq_empty in H as [? _]. contradiction.
  - apply trimLeft_stable; [assumption..|].
    change (asciiHead (String ":" (String " " l))). reflexivity.
  - change (k +:+ ": " +:+ l) with (k +:+ String ":" (String " " l)).
    rewrite <- (app_empty_l (String " " l)), <- app_cons, <- app_assoc_s.
    apply trimRight_stable; [assumption..|]. reflexivity.
Qed.

Lemma trimmed_Join ls :
  ls <> [] -> Forall trimmed ls -> trimmed (Join ls LF).
Proof.
  induction ls as [|x ls IH]; [congruence|]. intros _ H.
  apply Forall_cons in H as [Hx Hls].
  destruct ls as [|y ls]; [exact Hx|].
  destruct (IH ltac:(discriminate) Hls) as (Hne & _ & Hr).
  destruct Hx as (Hxne & Hxl & _).
  rewrite Join_cons. repeat split.
  - intros H. apply app_eq_empty in H as [? _]. contradiction.
  - apply trimLeft_stable; [assumption..|].
    change (asciiHead (String "010"%char (Join (y :: ls) LF))). reflexivity.
  - rewrite app_cons, app_empty_l.
    apply trimRight_stable; [assumption..|]. reflexivity.
Qed.

Lemma TrimSpace_space l : TrimSpace (String " " l) = TrimSpace l.
Proof. reflexivity. Qed.

Lemma nonneg_not_minus_one n : negb (Z.of_nat n =? -1) = true.
Proof. apply negb_true_iff, Z.eqb_neq. lia. Qed.

Lemma parseLine_key st k l :
  cleanKey k = true -> trimmed l ->
  parseLine st (k +:+ ": " +:+ l)
  = {| fields := flushKey st; currentKey := k; currentValue := l |}.
Proof.
  intros Hk Hl. destruct (cleanKey_spec _ Hk) as (Hkt & _ & _ & Hcolon).
  pose proof (trimmed_keyLine _ _ Hkt Hl) as Hline.
  unfold parseLine. rewrite (trimmed_TrimSpace _ Hline).
  destruct Hline as (Hne & _). rewrite (proj2 (String.eqb_neq _ _) Hne).
  change (k +:+ ": " +:+ l) with (k +:+ String ":" (String " " l)).
  rewrite (Index_colon_first _ _ Hcolon), nonneg_not_minus_one.
  rewrite Nat2Z.id.
  replace (Z.to_nat (Z.of_nat (String.length k) + 1)) with (S (String.length k)) by lia.
  rewrite sliceTo_app, (trimmed_TrimSpace _ Hkt).
  replace (sliceFrom (k +:+ String ":" (String " " l)) (S (String.length k)))
    with (String " " l).
  - now rewrite TrimSpace_space, (trimmed_TrimSpace _ Hl).
  - rewrite <- (app_empty_l (String " " l)), <- app_cons, <- app_assoc_s.
    replace (S (String.length k)) with (String.length (k +:+ ":"))
      by (rewrite length_app_s; cbn; lia).
    now rewrite sliceFrom_app.
Qed.

Lemma parseLine_continuation st l :
  trimmed l -> noByte 58 l = true ->
  currentKey st <> "" -> currentValue st <> "" ->
  parseLine st l
  = {| fields := fields st; currentKey := currentKey st;
       currentValue := currentValue st +:+ LF +:+ l |}.
Proof.
  intros Hl Hcolon Hkey Hval. unfold parseLine.
  rewrite (trimmed_TrimSpace _ Hl). destruct Hl as (Hne & _).
  rewrite (proj2 (String.eqb_neq _ _) Hne), (Index_colon_none _ Hcolon).
  cbn [Z.eqb negb]. rewrite (nonEmpty_true _ Hkey).
  replace (0 <? Z.of_nat (String.length (currentValue st))) with true.
  - now rewrite app_assoc_s.
  - symmetry. apply Z.ltb_lt. destruct (currentValue st); [congruence|cbn; lia].
Qed.

Lemma parseLine_continuations ls : forall st,
  Forall (fun l => trimmed l /\ noByte 58 l = true) ls ->
  currentKey st <> "" -> currentValue st <> "" ->
  fold_left parseLine ls st
  = {| fields := fields st; currentKey := currentKey st;
       currentValue := currentValue st +:+ contLines ls |}.
Proof.
  induction ls as [|l ls IH]; intros st Hls Hkey Hval.
  - cbn. rewrite app_empty_r. now destruct st.
  - apply Forall_cons in Hls as [[Hl Hc] Hls]. cbn [fold_left contLines].
    rewrite (parseLine_continuation _ _ Hl Hc Hkey Hval).
    rewrite IH; [|assumption|exact Hkey|]; cbn [fields currentKey currentValue].
    + now rewrite !app_assoc_s.
    + intros H. apply app_eq_empty in H as [? _]. contradiction.
Qed.

Lemma cleanValue_spec v :
  cleanValue v = true ->
  exists l ls,
    SplitNewline v = l :: ls /\ v = l +:+ contLines ls
    /\ cleanLine l = true
    /\ Forall (fun l' => cleanLine l' = true /\ noByte 58 l' = true) ls.
Proof.
  unfold cleanValue. destruct (SplitNewline v) as [|l ls] eqn:Hs; [discriminate|].
  rewrite andb_true_iff, forallb_forall. intros [Hl Hls].
  exists l, ls. repeat split; [| assumption |].
  - now rewrite <- Join_contLines, <- Hs, Join_SplitNewline.
  - apply List.Forall_forall. intros l' Hin. specialize (Hls _ Hin).
    now apply andb_true_iff in Hls.
Qed.

Lemma cleanValue_trimmed v : cleanValue v = true -> trimmed v.
Proof.
  intros H. destruct (cleanValue_spec _ H) as (l & ls & Hs & _ & Hl & Hls).
  rewrite <- (Join_SplitNewline v), Hs. apply trimmed_Join; [discriminate|].
  constructor; [now apply cleanLine_spec|].
  eapply Forall_impl; [exact Hls|]. intros l' [Hc _]. now apply cleanLine_spec.
Qed.

(** The lines of one field open the key and build up the value. *)
Lemma fold_fieldLines st kv :
  cleanField kv = true ->
  fold_left parseLine (fieldLines kv) st
  = {| fields := flushKey st; currentKey := kv.1; currentValue := kv.2 |}.
Proof.
  destruct kv as [k v]. unfold cleanField, fieldLines. cbn [fst snd].
  rewrite andb_true_iff. intros [Hk Hv].
  destruct (cleanValue_spec _ Hv) as (l & ls & -> & Hjoin & Hl & Hls).
  destruct (cleanLine_spec _ Hl) as (Hlt & _).
  destruct (cleanKey_spec _ Hk) as ((Hkne & _) & _).
  cbn [fold_left]. rewrite (parseLine_key _ _ _ Hk Hlt).
  rewrite parseLine_continuations; cbn [fields currentKey currentValue].
  - now rewrite <- Hjoin.
  - eapply Forall_impl; [exact Hls|]. intros l' [Hc Hcolon].
    split; [now apply cleanLine_spec|assumption].
  - exact Hkne.
  - now destruct Hlt.
Qed.

Lemma flushKey_field m kv :
  cleanField kv = true ->
  flushKey {| fields := m; currentKey := kv.1; currentValue := kv.2 |}
  = insertField m kv.
Proof.
  unfold cleanField. rewrite andb_true_iff. intros [Hk Hv].
  destruct (cleanKey_spec _ Hk) as ((Hkne & _) & _).
  unfold flushKey, insertField. cbn [fields currentKey currentValue].
  now rewrite (nonEmpty_true _ Hkne), (trimmed_TrimSpace _ (cleanValue_trimmed _ Hv)).
Qed.

Lemma fold_recordLines fs : forall st,
  cleanRecord fs = true ->
  flushKey (fold_left parseLine (recordLines fs) st)
  = fold_left insertField fs (flushKey st).
Proof.
  induction fs as [|kv fs IH]; intros st Hfs; [reflexivity|].
  cbn in Hfs. apply andb_true_iff in Hfs as [Hkv Hfs].
  unfold recordLines. cbn [flat_map fold_left]. rewrite fold_left_app.
  fold (recordLines fs). rewrite IH by assumption.
  now rewrite (fold_fieldLines _ _ Hkv), (flushKey_field _ _ Hkv).
Qed.

(** *** The rendered text *)

Lemma fieldLines_not_nil kv : fieldLines kv <> [].
Proof. unfold fieldLines. destruct (SplitNewline kv.2); discriminate. Qed.

Lemma renderField_lines kv : renderField kv = Join (fieldLines kv) LF.
Proof.
  unfold renderField, fieldLines.
  destruct (SplitNewline kv.2) as [|l ls] eqn:Hs;
    [now apply splitLines_not_nil in Hs|].
  rewrite Join_contLines, !app_assoc_s, <- Join_contLines, <- Hs.
  now rewrite Join_SplitNewline.
Qed.

Lemma recordLines_not_nil fs : fs <> [] -> recordLines fs <> [].
Proof.
  destruct fs as [|kv fs]; [congruence|]. intros _ H.
  unfold recordLines in H. cbn in H. apply app_eq_nil in H as [H _].
  now apply fieldLines_not_nil in H.
Qed.

Lemma renderRecord_lines fs : renderRecord fs = Join (recordLines fs) LF.
Proof.
  unfold renderRecord. induction fs as [|kv fs IH]; [reflexivity|].
  destruct fs as [|kv' fs].
  - cbn [map Join]. unfold recordLines. cbn [flat_map].
    rewrite List.app_nil_r. apply renderField_lines.
  - change (recordLines (kv :: kv' :: fs))
      with (fieldLines kv ++ recordLines (kv' :: fs)).
    rewrite Join_app;
      [|apply fieldLines_not_nil|now apply recordLines_not_nil].
    rewrite <- IH, <- renderField_lines. reflexivity.
Qed.

Lemma recordLines_clean fs :
  cleanRecord fs = true ->
  Forall (fun l => trimmed l /\ noByte 10 l = true /\ noFence l = true)
         (recordLines fs).
Proof.
  induction fs as [|[k v] fs IH]; intros Hfs; [constructor|].
  cbn in Hfs. apply andb_true_iff in Hfs as [Hkv Hfs].
  unfold recordLines. cbn [flat_map]. apply Forall_app. split; [|now apply IH].
  unfold cleanField in Hkv. cbn [fst snd] in Hkv.
  apply andb_true_iff in Hkv as [Hk Hv].
  destruct (cleanValue_spec _ Hv) as (l & ls & Hs & _ & Hl & Hls).
  unfold fieldLines. cbn [fst snd]. rewrite Hs.
  destruct (cleanKey_spec _ Hk) as (Hkt & Hk10 & Hk96 & _).
  destruct (cleanLine_spec _ Hl) as (Hlt & Hl10 & Hl96).
  constructor.
  - split; [now apply trimmed_keyLine|]. split.
    + now rewrite !noByte_app, Hk10, Hl10.
    + change (k +:+ ": " +:+ l) with (k +:+ String ":" (String " " l)).
      apply noFence_app_sep; [reflexivity|assumption|].
      rewrite <- (app_empty_l (String " " l)).
      now apply noFence_app_sep.
  - eapply Forall_impl; [exact Hls|]. intros l' [Hc _]. now apply cleanLine_spec.
Qed.

Lemma parse_rendered fs :
  cleanRecord fs = true ->
  parseKeyValueResponse (renderRecord fs) = fold_left insertField fs ∅.
Proof.
  intros Hfs. destruct fs as [|kv fs]; [reflexivity|].
  pose proof (recordLines_clean _ Hfs) as Hlines.
  assert (Hnil : recordLines (kv :: fs) <> []) by now apply recordLines_not_nil.
  unfold parseKeyValueResponse. rewrite renderRecord_lines.
  rewrite RemoveFences_noFence.
  2:{ apply noFence_Join.
      eapply Forall_impl; [exact Hlines|]. now intros l (_ & _ & ?). }
  rewrite trimmed_TrimSpace.
  2:{ apply trimmed_Join; [assumption|].
      eapply Forall_impl; [exact Hlines|]. now intros l (? & _). }
  rewrite SplitNewline_Join.
  2: assumption.
  2:{ eapply Forall_impl; [exact Hlines|]. now intros l (_ & ? & _). }
  now rewrite fold_recordLines.
Qed.

Lemma fold_insertField fs : forall m,
  NoDup (map fst fs) ->
  fold_left insertField fs m = list_to_map fs ∪ m.
Proof.
  induction fs as [|[k v] fs IH]; intros m Hnd.
  - cbn. now rewrite (left_id_L ∅ (∪)).
  - cbn [map fst] in Hnd. apply NoDup_cons in Hnd as [Hk Hnd].
    cbn [fold_left list_to_map foldr]. rewrite IH by assumption.
    unfold insertField. cbn [fst snd].
    rewrite <- insert_union_l. symmetry. apply insert_union_r.
    now apply not_elem_of_list_to_map_1.
Qed.

(** C7, as stated, fails: a further line of a value that holds a colon
    is read as a new field. *)
Lemma colon_line_breaks_round_trip :
  In ("EXPLANATION", "two steps" +:+ LF +:+ "step 2: add") colonRecord
  /\ parseKeyValueResponse (renderRecord colonRecord) !! "EXPLANATION"
     = Some "two steps"
  /\ parseKeyValueResponse (renderRecord colonRecord) !! "step 2" = Some "add".
Proof. vm_compute. auto. Qed.
End Parser.

(** * Further properties of the engine

    ** More on trimming, fences and lines *)

Section MoreStrings.
Import GoStrings Ai Props.

(** What [trimLeft] returns is the end of its argument, and [trimLeft]
    leaves it as it is. *)
Lemma trimLeft_suffix_bound n : forall s,
  (String.length s <= n)%nat ->
  (exists p, s = p +:+ trimLeft s) /\ trimLeft (trimLeft s) = trimLeft s.
Proof.
  induction n as [|n IH]; intros s Hn.
  - destruct s; [|cbn in Hn; lia]. split; [now exists ""|reflexivity].
  - destruct s as [|a s1]; [split; [now exists ""|reflexivity]|].
    cbn [String.length] in Hn. rewrite trimLeft_cons.
    destruct (asciiSpace a) eqn:Ha.
    { destruct (IH s1 ltac:(lia)) as [[p Hp] Hi]. split; [|exact Hi].
      exists (String a p). rewrite app_cons. now rewrite <- Hp. }
    destruct s1 as [|b s2].
    { split; [now exists ""|]. now rewrite trimLeft_cons, Ha. }
    cbn [String.length] in Hn.
    destruct (space2 a b) eqn:Hab.
    { destruct (IH s2 ltac:(lia)) as [[p Hp] Hi]. split; [|exact Hi].
      exists (String a (String b p)). rewrite !app_cons. now rewrite <- Hp. }
    destruct s2 as [|c s3].
    { split; [now exists ""|]. now rewrite trimLeft_cons, Ha, Hab. }
    cbn [String.length] in Hn.
    destruct (space3 a b c) eqn:Habc.
    { destruct (IH s3 ltac:(lia)) as [[p Hp] Hi]. split; [|exact Hi].
      exists (String a (String b (String c p))). rewrite !app_cons.
      now rewrite <- Hp. }
    split; [now exists ""|]. now rewrite trimLeft_cons, Ha, Hab, Habc.
Qed.

Lemma trimLeft_suffix s : exists p, s = p +:+ trimLeft s.
Proof. now apply (trimLeft_suffix_bound (String.length s)). Qed.

Lemma trimLeft_idempotent s : trimLeft (trimLeft s) = trimLeft s.
Proof. now apply (trimLeft_suffix_bound (String.length s)). Qed.

Lemma trimLeftRev_suffix_bound n : forall s,
  (String.length s <= n)%nat ->
  (exists p, s = p +:+ trimLeftRev s)
  /\ trimLeftRev (trimLeftRev s) = trimLeftRev s.
Proof.
  induction n as [|n IH]; intros s Hn.
  - destruct s; [|cbn in Hn; lia]. split; [now exists ""|reflexivity].
  - destruct s as [|a s1]; [split; [now exists ""|reflexivity]|].
    cbn [String.length] in Hn. rewrite trimLeftRev_cons.
    destruct (asciiSpace a) eqn:Ha.
    { destruct (IH s1 ltac:(lia)) as [[p Hp] Hi]. split; [|exact Hi].
      exists (String a p). rewrite app_cons. now rewrite <- Hp. }
    destruct s1 as [|b s2].
    { split; [now exists ""|]. now rewrite trimLeftRev_cons, Ha. }
    cbn [String.length] in Hn.
    destruct (space2 b a) eqn:Hab.
    { destruct (IH s2 ltac:(lia)) as [[p Hp] Hi]. split; [|exact Hi].
      exists (String a (String b p)). rewrite !app_cons. now rewrite <- Hp. }
    destruct s2 as [|c s3].
    { split; [now exists ""|]. now rewrite trimLeftRev_cons, Ha, Hab. }
    cbn [String.length] in Hn.
    destruct (space3 c b a) eqn:Habc.
    { destruct (IH s3 ltac:(lia)) as [[p Hp] Hi]. split; [|exact Hi].
      exists (String a (String b (String c p))). rewrite !app_cons.
      now rewrite <- Hp. }
    split; [now exists ""|]. now rewrite trimLeftRev_cons, Ha, Hab, Habc.
Qed.

(** What [trimRight] returns is the beginning of its argument. *)
Lemma trimRight_prefix s : exists q, s = trimRight s +:+ q.
Proof.
  destruct (trimLeftRev_suffix_bound _ (reverse s "") (Nat.le_refl _))
    as [[p Hp] _].
  exists (reverse p ""). unfold trimRight.
  rewrite <- reverse_app, <- Hp. now rewrite reverse_involutive.
Qed.

Lemma trimRight_idempotent s : trimRight (trimRight s) = trimRight s.
Proof.
  unfold trimRight. rewrite reverse_involutive.
  destruct (trimLeftRev_suffix_bound _ (reverse s "") (Nat.le_refl _))
    as [_ ->]. reflexivity.
Qed.

(** A beginning of a text that [trimLeft] leaves as it is, is left as
    it is too. *)
Lemma trimLeft_prefix_fixed v q :
  trimLeft (v +:+ q) = v +:+ q -> trimLeft v = v.
Proof.
  intros H. destruct v as [|a [|b [|c v3]]]; [reflexivity| | |].
  - rewrite app_cons, app_empty_l, trimLeft_cons in H. rewrite trimLeft_cons.
    destruct (asciiSpace a); [length_absurd H (trimLeft_length q)|reflexivity].
  - rewrite !app_cons, app_empty_l, trimLeft_cons in H. rewrite trimLeft_cons.
    destruct (asciiSpace a);
      [length_absurd H (trimLeft_length (String b q))|].
    destruct (space2 a b); [length_absurd H (trimLeft_length q)|reflexivity].
  - rewrite !app_cons, trimLeft_cons in H. rewrite trimLeft_cons.
    destruct (asciiSpace a);
      [length_absurd H (trimLeft_length (String b (String c (v3 +:+ q))))|].
    destruct (space2 a b);
      [length_absurd H (trimLeft_length (String c (v3 +:+ q)))|].
    destruct (space3 a b c);
      [length_absurd H (trimLeft_length (v3 +:+ q))|reflexivity].
Qed.

(** What [TrimSpace] returns, neither half of it changes. *)
Lemma TrimSpace_halves s :
  trimLeft (TrimSpace s) = TrimSpace s /\ trimRight (TrimSpace s) = TrimSpace s.
Proof.
  unfold TrimSpace. split; [|apply trimRight_idempotent].
  destruct (trimRight_prefix (trimLeft s)) as [q Hq].
  apply (trimLeft_prefix_fixed _ q). rewrite <- Hq.
  apply trimLeft_idempotent.
Qed.

Lemma TrimSpace_idempotent s : TrimSpace (TrimSpace s) = TrimSpace s.
Proof.
  destruct (TrimSpace_halves s) as [Hl Hr]. now apply TrimSpace_of_fixed.
Qed.

(** *** Bytes that a text does not hold *)

Lemma noByte_reverse n s acc :
  noByte n (reverse s acc) = noByte n s && noByte n acc.
Proof.
  revert acc. induction s as [|c s IH]; intros acc; [reflexivity|].
  cbn. rewrite IH. cbn. destruct (byteIs c n), (noByte n s); reflexivity.
Qed.

Lemma noByte_trimLeft n s : noByte n s = true -> noByte n (trimLeft s) = true.
Proof.
  destruct (trimLeft_suffix s) as [p Hp]. intros H. rewrite Hp in H.
  rewrite noByte_app in H. now apply andb_true_iff in H as [_ H].
Qed.

Lemma noByte_trimRight n s : noByte n s = true -> noByte n (trimRight s) = true.
Proof.
  destruct (trimRight_prefix s) as [q Hq]. intros H. rewrite Hq in H.
  rewrite noByte_app in H. now apply andb_true_iff in H as [H _].
Qed.

Lemma noByte_TrimSpace n s : noByte n s = true -> noByte n (TrimSpace s) = true.
Proof. intros H. now apply noByte_trimRight, noByte_trimLeft. Qed.

Lemma noByte_RemoveFences_bound n k : forall s,
  (String.length s <= k)%nat ->
  noByte n s = true -> noByte n (RemoveFences s) = true.
Proof.
  induction k as [|k IH]; intros s Hk H.
  - destruct s; [reflexivity|cbn in Hk; lia].
  - destruct s as [|a s1]; [reflexivity|].
    cbn [String.length] in Hk. cbn [noByte] in H.
    apply andb_true_iff in H as [Ha H1].
    assert (Hcons : noByte n (String a (RemoveFences s1)) = true).
    { cbn [noByte]. rewrite Ha. apply IH; [lia|assumption]. }
    destruct s1 as [|b [|c s3]]; try exact Hcons.
    cbn [RemoveFences].
    destruct (byteIs a 96 && byteIs b 96 && byteIs c 96); [|exact Hcons].
    cbn [noByte] in H1. apply andb_true_iff in H1 as [_ H1].
    apply andb_true_iff in H1 as [_ H1].
    apply IH; [cbn [String.length] in Hk; lia|assumption].
Qed.

Lemma noByte_RemoveFences n s :
  noByte n s = true -> noByte n (RemoveFences s) = true.
Proof. now apply (noByte_RemoveFences_bound n (String.length s)). Qed.

Lemma noByte_splitLines n s : forall cur,
  noByte n s = true -> noByte n cur = true ->
  Forall (fun l => noByte n l = true) (splitLines s cur).
Proof.
  induction s as [|c s IH]; intros cur Hs Hcur; cbn [splitLines].
  - constructor; [|constructor]. now rewrite noByte_reverse, Hcur.
  - cbn [noByte] in Hs. apply andb_true_iff in Hs as [Hc Hs].
    destruct (byteIs c 10).
    + constructor; [now rewrite noByte_reverse, Hcur|]. now apply IH.
    + apply IH; [assumption|]. cbn [noByte]. now rewrite Hc.
Qed.

Lemma noByte_sliceTo n s : forall k,
  noByte n s = true -> noByte n (sliceTo s k) = true.
Proof.
  induction s as [|c s IH]; intros [|k] H; try reflexivity.
  cbn in H |- *. apply andb_true_iff in H as [Hc Hs].
  rewrite Hc. now apply IH.
Qed.

Lemma noByte_sliceFrom n s : forall k,
  noByte n s = true -> noByte n (sliceFrom s k) = true.
Proof.
  induction s as [|c s IH]; intros [|k] H; try exact H.
  cbn in H |- *. apply andb_true_iff in H as [_ Hs]. now apply IH.
Qed.

(** The part of a line before its first colon holds no colon. *)
Lemma Index_colon_range l : -1 <= Index l ":" <= Z.of_nat (String.length l).
Proof.
  induction l as [|c l IH]; [cbn; lia|].
  rewrite Index_unfold, HasPrefix_colon.
  destruct (byteIs c 58); [cbn [String.length]; lia|]. cbv zeta.
  destruct (Index l ":" <? 0) eqn:E; cbn [String.length]; lia.
Qed.

Lemma noByte_before_colon l :
  noByte 58 (sliceTo l (Z.to_nat (Index l ":"))) = true.
Proof.
  induction l as [|c l IH]; [reflexivity|].
  rewrite Index_unfold, HasPrefix_colon.
  destruct (byteIs c 58) eqn:Hc; [reflexivity|]. cbv zeta.
  destruct (Index l ":" <? 0) eqn:E; [reflexivity|].
  apply Z.ltb_ge in E.
  replace (Z.to_nat (Index l ":" + 1)) with (S (Z.to_nat (Index l ":")))
    by lia.
  cbn [sliceTo noByte]. now rewrite Hc, IH.
Qed.

(** *** Fences around a text *)

Lemma RemoveFences_fence s :
  RemoveFences ("```" +:+ s) = RemoveFences s.
Proof. reflexivity. Qed.

(** A closing fence after a byte that is no backquote is removed and
    nothing else. *)
Lemma RemoveFences_closing y c :
  noFence (y +:+ String c "") = true -> byteIs c 96 = false ->
  RemoveFences (y +:+ String c "```") = y +:+ String c "".
Proof.
  intros Hy Hc. induction y as [|a y IH].
  - rewrite !app_empty_l. cbn [RemoveFences]. rewrite Hc. reflexivity.
  - rewrite !app_cons in Hy |- *.
    specialize (IH (noFence_tail _ _ Hy)).
    destruct y as [|b [|d y]].
    + rewrite !app_empty_l in *. cbn [RemoveFences] in IH |- *.
      rewrite Hc in IH |- *. rewrite andb_false_r.
      cbn [andb]. reflexivity.
    + rewrite !app_cons, !app_empty_l in *.
      change (RemoveFences (String a (String b (String c "```"))))
        with (if byteIs a 96 && byteIs b 96 && byteIs c 96
              then RemoveFences "```"
              else String a (RemoveFences (String b (String c "```")))).
      rewrite Hc, andb_false_r, IH. reflexivity.
    + rewrite !app_cons in *.
      change (RemoveFences (String a (String b (String d (y +:+ String c "```")))))
        with (if byteIs a 96 && byteIs b 96 && byteIs d 96
              then RemoveFences (y +:+ String c "```")
              else String a (RemoveFences
                               (String b (String d (y +:+ String c "```"))))).
      rewrite noFence_cons3 in Hy. apply andb_true_iff in Hy as [Hy _].
      apply negb_true_iff in Hy. rewrite Hy, IH. reflexivity.
Qed.

(** A line feed at either end is trimmed away. *)
Lemma trimRight_LF s : trimRight (s +:+ LF) = trimRight s.
Proof.
  unfold trimRight. rewrite reverse_app. reflexivity.
Qed.

Lemma TrimSpace_LF_around s :
  trimmed s -> TrimSpace (LF +:+ s +:+ LF) = s.
Proof.
  intros (Hne & Hl & Hr). unfold TrimSpace.
  rewrite app_cons, app_empty_l, trimLeft_cons. cbn [asciiSpace byteIs].
  change (asciiSpace "010") with true. cbv iota.
  rewrite trimLeft_stable by (assumption || reflexivity).
  now rewrite trimRight_LF.
Qed.

Lemma TrimSpace_LF_end s :
  trimmed s -> TrimSpace (s +:+ LF) = s.
Proof.
  intros (Hne & Hl & Hr). unfold TrimSpace.
  rewrite trimLeft_stable by (assumption || reflexivity).
  now rewrite trimRight_LF.
Qed.

(** *** The verb [%d] *)

Lemma to_int_not_nil z :
  Z.to_int z <> Decimal.Pos Decimal.Nil /\ Z.to_int z <> Decimal.Neg Decimal.Nil.
Proof.
  split; intros H; pose proof (DecimalZ.of_to z) as Hz;
    rewrite H in Hz; cbn in Hz; subst z; discriminate.
Qed.

Lemma formatInt_inj z z' : formatInt z = formatInt z' -> z = z'.
Proof.
  unfold formatInt. intros H.
  apply (f_equal NilZero.int_of_string) in H.
  destruct (to_int_not_nil z), (to_int_not_nil z').
  rewrite !NilZero.isi in H by assumption.
  injection H as H. now apply DecimalZ.to_int_inj.
Qed.

Lemma key_inj prefix z z' :
  prefix +:+ formatInt z = prefix +:+ formatInt z' -> z = z'.
Proof.
  intros H. apply formatInt_inj.
  induction prefix as [|c p IH]; [exact H|].
  rewrite !app_cons in H. injection H as H. now apply IH.
Qed.
End MoreStrings.

(** ** More on the response parser *)

Section MoreParser.
Import GoStrings Ai Props AiOps MoreProps.

(** *** Records with a recurring key *)

Lemma fold_insertField_other post : forall m k,
  ~ In k (map fst post) -> fold_left insertField post m !! k = m !! k.
Proof.
  induction post as [|[k' v'] post IH]; intros m k Hk; [reflexivity|].
  cbn [fold_left]. rewrite IH by (intros H; apply Hk; now right).
  unfold insertField. cbn [fst snd]. apply lookup_insert_ne.
  intros ->. apply Hk. now left.
Qed.

Lemma fold_insertField_last pre k v post m :
  ~ In k (map fst post) ->
  fold_left insertField (pre ++ (k, v) :: post) m !! k = Some v.
Proof.
  intros Hk. rewrite fold_left_app. cbn [fold_left].
  rewrite fold_insertField_other by assumption.
  unfold insertField. cbn [fst snd]. apply lookup_insert_eq.
Qed.



(** *** Lines without a field *)

Lemma parseLine_plain st l :
  noByte 58 l = true -> currentKey st = "" -> parseLine st l = st.
Proof.
  intros Hl Hk. unfold parseLine.
  destruct (String.eqb (TrimSpace l) ""); [reflexivity|].
  rewrite (Index_colon_none _ (noByte_TrimSpace _ _ Hl)). cbn [Z.eqb negb].
  now rewrite (nonEmpty_false _ Hk).
Qed.

Lemma fold_parseLine_plain ls : forall st,
  Forall (fun l => noByte 58 l = true) ls -> currentKey st = "" ->
  fold_left parseLine ls st = st.
Proof.
  induction ls as [|l ls IH]; intros st Hls Hk; [reflexivity|].
  apply Forall_cons in Hls as [Hl Hls]. cbn [fold_left].
  rewrite parseLine_plain by assumption. now apply IH.
Qed.

Lemma parse_colon_free response :
  noByte 58 response = true -> parseKeyValueResponse response = ∅.
Proof.
  intros H. unfold parseKeyValueResponse, SplitNewline.
  rewrite fold_parseLine_plain; [reflexivity| |reflexivity].
  apply noByte_splitLines; [|reflexivity].
  now apply noByte_TrimSpace, noByte_RemoveFences.
Qed.

Lemma plainLine_spec l :
  plainLine l = true ->
  trimmed l /\ noByte 10 l = true /\ noFence l = true /\ noByte 58 l = true.
Proof.
  unfold plainLine. rewrite andb_true_iff. intros [Hc Hk].
  destruct (cleanLine_spec _ Hc) as (? & ? & ?). auto.
Qed.

(** The lines of a record after lines that hold no field. *)
Lemma parse_lines pre fs :
  forallb plainLine pre = true -> cleanRecord fs = true ->
  parseKeyValueResponse (Join (pre ++ recordLines fs) LF)
  = fold_left insertField fs ∅.
Proof.
  intros Hpre Hfs.
  assert (Hp : Forall (fun l => trimmed l /\ noByte 10 l = true
                                /\ noFence l = true /\ noByte 58 l = true) pre).
  { apply List.Forall_forall. intros l Hin. apply plainLine_spec.
    rewrite forallb_forall in Hpre. now apply Hpre. }
  pose proof (recordLines_clean _ Hfs) as Hlines.
  destruct (pre ++ recordLines fs) as [|l0 ls0] eqn:Hall.
  { apply app_eq_nil in Hall as [-> Hr].
    destruct fs as [|kv fs]; [reflexivity|].
    now apply recordLines_not_nil in Hr. }
  rewrite <- Hall.
  assert (Hnil : pre ++ recordLines fs <> []) by (rewrite Hall; discriminate).
  assert (Hclean : Forall (fun l => trimmed l /\ noByte 10 l = true
                                    /\ noFence l = true)
                          (pre ++ recordLines fs)).
  { apply Forall_app. split; [|assumption].
    eapply Forall_impl; [exact Hp|]. intros l (? & ? & ? & _). auto. }
  unfold parseKeyValueResponse.
  rewrite RemoveFences_noFence.
  2:{ apply noFence_Join.
      eapply Forall_impl; [exact Hclean|]. now intros l (_ & _ & ?). }
  rewrite trimmed_TrimSpace.
  2:{ apply trimmed_Join; [assumption|].
      eapply Forall_impl; [exact Hclean|]. now intros l (? & _). }
  rewrite SplitNewline_Join.
  2: assumption.
  2:{ eapply Forall_impl; [exact Hclean|]. now intros l (_ & ? & _). }
  rewrite fold_left_app, (fold_parseLine_plain pre).
  - now rewrite fold_recordLines.
  - eapply Forall_impl; [exact Hp|]. now intros l (_ & _ & _ & ?).
  - reflexivity.
Qed.

(** A text that removing the fences and trimming turn into such lines
    is read as these lines are. *)
Lemma parse_cleaned t pre fs :
  forallb plainLine pre = true -> cleanRecord fs = true ->
  TrimSpace (RemoveFences t) = Join (pre ++ recordLines fs) LF ->
  parseKeyValueResponse t = fold_left insertField fs ∅.
Proof.
  intros Hpre Hfs Ht. rewrite <- (parse_lines pre fs Hpre Hfs).
  unfold parseKeyValueResponse. rewrite Ht. do 3 f_equal.
  destruct (pre ++ recordLines fs) as [|l0 ls0] eqn:Hall; [reflexivity|].
  rewrite <- Hall.
  assert (Hclean : Forall (fun l => trimmed l /\ noByte 10 l = true
                                    /\ noFence l = true)
                          (pre ++ recordLines fs)).
  { apply Forall_app. split; [|now apply recordLines_clean].
    apply List.Forall_forall. intros l Hin. rewrite forallb_forall in Hpre.
    destruct (plainLine_spec _ (Hpre _ Hin)) as (? & ? & ? & _). auto. }
  rewrite RemoveFences_noFence.
  2:{ apply noFence_Join.
      eapply Forall_impl; [exact Hclean|]. now intros l (_ & _ & ?). }
  symmetry. apply trimmed_TrimSpace, trimmed_Join; [now rewrite Hall|].
  eapply Forall_impl; [exact Hclean|]. now intros l (? & _).
Qed.

Lemma renderRecord_trimmed fs :
  cleanRecord fs = true -> fs <> [] ->
  trimmed (renderRecord fs) /\ noFence (renderRecord fs) = true.
Proof.
  intros Hfs Hne. pose proof (recordLines_clean _ Hfs) as Hlines.
  rewrite renderRecord_lines. split.
  - apply trimmed_Join; [now apply recordLines_not_nil|].
    eapply Forall_impl; [exact Hlines|]. now intros l (? & _).
  - apply noFence_Join.
    eapply Forall_impl; [exact Hlines|]. now intros l (_ & _ & ?).
Qed.

(** *** What every parsed field satisfies *)

Lemma goodFields_flushKey st : goodState st -> goodFields (flushKey st).
Proof.
  intros [Hf Hk]. unfold flushKey, nonEmpty.
  destruct (String.eqb (currentKey st) "") eqn:E; cbn [negb]; [exact Hf|].
  apply String.eqb_neq in E. destruct (Hk E) as (Ht & Hc & Hl).
  intros k v. rewrite lookup_insert. case_decide as Hd.
  - intros [= <-]. subst k. split; [repeat split; assumption|].
    apply TrimSpace_idempotent.
  - apply Hf.
Qed.

Lemma goodState_parseLine st l :
  noByte 10 l = true -> goodState st -> goodState (parseLine st l).
Proof.
  intros Hl Hst. unfold parseLine.
  destruct (String.eqb (TrimSpace l) ""); [exact Hst|].
  destruct (negb (Index (TrimSpace l) ":" =? -1)).
  - split; cbn [fields currentKey]; [now apply goodFields_flushKey|].
    intros _. split; [apply TrimSpace_idempotent|]. split.
    + apply noByte_TrimSpace, noByte_before_colon.
    + now apply noByte_TrimSpace, noByte_sliceTo, noByte_TrimSpace.
  - destruct (nonEmpty (currentKey st)); [|exact Hst].
    destruct Hst as [Hf Hk]. split; cbn [fields currentKey]; assumption.
Qed.

Lemma goodState_fold ls : forall st,
  Forall (fun l => noByte 10 l = true) ls -> goodState st ->
  goodState (fold_left parseLine ls st).
Proof.
  induction ls as [|l ls IH]; intros st Hls Hst; [exact Hst|].
  apply Forall_cons in Hls as [Hl Hls]. cbn [fold_left].
  apply IH; [assumption|]. now apply goodState_parseLine.
Qed.

Lemma goodFields_parse response : goodFields (parseKeyValueResponse response).
Proof.
  unfold parseKeyValueResponse. apply goodFields_flushKey, goodState_fold.
  - now apply splitLines_noLF_lines.
  - split; cbn [fields currentKey]; [|congruence].
    intros k v. now rewrite lookup_empty.
Qed.

(** X1: in the text of a clean record a key may recur: the parsed map
    then gives, for every key of the record, the value of its last
    field, and nothing for any other key. *)
Theorem last_field_wins fs :
  cleanRecord fs = true ->
  (forall pre k v post,
      fs = pre ++ (k, v) :: post -> ~ In k (map fst post) ->
      parseKeyValueResponse (renderRecord fs) !! k = Some v)
  /\ (forall k, ~ In k (map fst fs) ->
        parseKeyValueResponse (renderRecord fs) !! k = None).
Proof.
  intros Hfs. rewrite (parse_rendered _ Hfs). split.
  - intros pre k v post -> Hk. now apply fold_insertField_last.
  - intros k Hk. rewrite fold_insertField_other by assumption.
    apply lookup_empty.
Qed.

Lemma last_field_wins_witness :
  parseKeyValueResponse (renderRecord repeatedKeyRecord) !! "TITLE"
  = Some "second title"
  /\ parseKeyValueResponse (renderRecord repeatedKeyRecord) !! "OPTION1" = None.
Proof.
  destruct (last_field_wins repeatedKeyRecord) as [Hlast Hnone].
  - vm_compute. reflexivity.
  - split.
    + apply (Hlast [("TITLE", "first title"); ("DIFFICULTY", "2")]
               "TITLE" "second title" []); [reflexivity|].
      intros [].
    + apply Hnone. cbn. intros [H|[H|[H|[]]]]; discriminate.
Defined.

(** X2: a response without any colon (the empty response included)
    gives no field, so both parsers return the parse error that quotes
    the response. *)
Theorem colon_free_response_is_rejected response :
  noByte 58 response = true ->
  parseKeyValueResponse response = ∅
  /\ parseProblemResponse response = Some (Err (ResponseParseError response))
  /\ parseFeedbackResponse response = Err (ResponseParseError response).
Proof.
  intros H. pose proof (parse_colon_free _ H) as Hp.
  unfold parseProblemResponse, parseFeedbackResponse. rewrite Hp.
  repeat split.
Qed.

Lemma colon_free_response_is_rejected_witness :
  parseKeyValueResponse refusal = ∅
  /\ parseProblemResponse refusal = Some (Err (ResponseParseError refusal))
  /\ parseFeedbackResponse refusal = Err (ResponseParseError refusal).
Proof.
  apply (colon_free_response_is_rejected refusal). vm_compute. reflexivity.
Defined.

(** X3: code fences around the text of a clean record change nothing:
    with or without a tag (a line without colon) after the opening
    fence, the fields read are those of the bare text. *)
Theorem fenced_record_parses fs tag :
  cleanRecord fs = true -> fs <> [] ->
  tag = "" \/ plainLine tag = true ->
  parseKeyValueResponse (fenced tag (renderRecord fs))
  = parseKeyValueResponse (renderRecord fs).
Proof.
  intros Hfs Hne Htag.
  destruct (renderRecord_trimmed _ Hfs Hne) as [Ht Hf].
  rewrite (parse_rendered _ Hfs).
  assert (Hinner : noFence (LF +:+ renderRecord fs +:+ LF) = true).
  { rewrite app_cons, app_empty_l.
    apply (noFence_app_sep ""); [reflexivity..|].
    apply noFence_app_sep; [reflexivity|assumption|reflexivity]. }
  unfold fenced. destruct Htag as [->|Htag].
  - apply (parse_cleaned _ []); [reflexivity|assumption|].
    rewrite app_empty_l.
    change ("```" +:+ LF +:+ renderRecord fs +:+ LF +:+ "```")
      with ("```" +:+ (LF +:+ renderRecord fs +:+ String "010" "```")).
    rewrite RemoveFences_fence, <- app_assoc_s.
    rewrite RemoveFences_closing;
      [|now rewrite app_assoc_s|reflexivity].
    rewrite app_assoc_s, TrimSpace_LF_around by assumption.
    cbn [app]. apply renderRecord_lines.
  - destruct (plainLine_spec _ Htag) as (Htt & Ht10 & Htf & Htc).
    assert (Hj : Join ([tag] ++ recordLines fs) LF
                 = tag +:+ LF +:+ renderRecord fs).
    { rewrite Join_app; [|discriminate|now apply recordLines_not_nil].
      now rewrite renderRecord_lines. }
    apply (parse_cleaned _ [tag]); [cbn; now rewrite Htag|assumption|].
    change ("```" +:+ tag +:+ LF +:+ renderRecord fs +:+ LF +:+ "```")
      with ("```" +:+ (tag +:+ LF +:+ renderRecord fs +:+ LF +:+ "```")).
    rewrite RemoveFences_fence.
    replace (tag +:+ LF +:+ renderRecord fs +:+ LF +:+ "```")
      with ((tag +:+ LF +:+ renderRecord fs) +:+ String "010" "```")
      by (now rewrite !app_assoc_s).
    rewrite RemoveFences_closing; [| |reflexivity].
    + rewrite Hj. apply TrimSpace_LF_end. rewrite <- Hj.
      apply trimmed_Join; [discriminate|].
      constructor; [assumption|].
      eapply Forall_impl; [exact (recordLines_clean _ Hfs)|].
      now intros l (? & _).
    + rewrite !app_assoc_s, app_cons, app_empty_l.
      apply noFence_app_sep; [reflexivity|assumption|].
      rewrite app_cons, app_empty_l in Hinner.
      exact (noFence_tail _ _ Hinner).
Qed.

Lemma fenced_record_parses_witness :
  parseKeyValueResponse (fenced "text" (renderRecord threeLineRecord))
  = parseKeyValueResponse (renderRecord threeLineRecord).
Proof.
  apply (fenced_record_parses threeLineRecord "text").
  - vm_compute. reflexivity.
  - discriminate.
  - right. vm_compute. reflexivity.
Defined.

(** X4: lines without colon before the first field of a clean record
    are dropped: the fields read are those of the record alone. *)
Theorem preamble_is_ignored pre fs :
  forallb plainLine pre = true -> cleanRecord fs = true -> fs <> [] ->
  parseKeyValueResponse (withPreamble pre (renderRecord fs))
  = parseKeyValueResponse (renderRecord fs).
Proof.
  intros Hpre Hfs Hne. rewrite (parse_rendered _ Hfs).
  rewrite <- (parse_lines pre fs Hpre Hfs). f_equal.
  unfold withPreamble. destruct pre as [|l pre].
  - cbn [app Join]. apply renderRecord_lines.
  - rewrite !Join_app;
      [|discriminate|now apply recordLines_not_nil|discriminate..].
    cbn [Join]. now rewrite renderRecord_lines.
Qed.

Lemma preamble_is_ignored_witness :
  parseKeyValueResponse
    (withPreamble ["はい、問題を作成しました。"; "以下のとおりです"]
                  (renderRecord threeLineRecord))
  = parseKeyValueResponse (renderRecord threeLineRecord).
Proof.
  apply (preamble_is_ignored
           ["はい、問題を作成しました。"; "以下のとおりです"] threeLineRecord).
  - vm_compute. reflexivity.
  - vm_compute. reflexivity.
  - discriminate.
Defined.

(** X5: whatever the response, every field that the parser stores has a
    key that is not empty, has no white space at either end and holds
    neither a colon nor a line feed, and a value without white space at
    either end. *)
Theorem parsed_fields_are_trimmed response k v :
  parseKeyValueResponse response !! k = Some v ->
  k <> "" /\ TrimSpace k = k /\ noByte 58 k = true /\ noByte 10 k = true
  /\ TrimSpace v = v.
Proof.
  intros H. destruct (goodFields_parse response k v H) as [(? & ? & ? & ?) ?].
  auto.
Qed.

Lemma parsed_fields_are_trimmed_witness :
  "TITLE" <> "" /\ TrimSpace "TITLE" = "TITLE"
  /\ noByte 58 "TITLE" = true /\ noByte 10 "TITLE" = true
  /\ TrimSpace "x = 1 : 2" = "x = 1 : 2".
Proof.
  apply (parsed_fields_are_trimmed "  TITLE  :  x = 1 : 2  " "TITLE" "x = 1 : 2").
  vm_compute. reflexivity.
Defined.


End MoreParser.

(** ** More on validation *)

Section MoreValidator.
Import GoStrings Ai Props AiOps MoreProps.

Lemma validateProblem_fst p p' r :
  validateProblem p = Some (p', r) ->
  p' = p \/ (structurallyValid p /\ p' = withDefaultTime p).
Proof.
  unfold validateProblem.
  destruct (String.eqb (Title p) "") eqn:Ht; [intros [= <- _]; now left|].
  destruct (String.eqb (Description p) "") eqn:Hd; [intros [= <- _]; now left|].
  destruct (len (Options p) <? 2) eqn:Hn; [intros [= <- _]; now left|].
  destruct (CorrectAnswer p <? 0) eqn:Hc1; [intros [= <- _]; now left|].
  destruct (len (Options p) <=? CorrectAnswer p) eqn:Hc2;
    [intros [= <- _]; now left|].
  destruct (Difficulty p <? 1) eqn:Hd1; [intros [= <- _]; now left|].
  destruct (5 <? Difficulty p) eqn:Hd2; [intros [= <- _]; now left|].
  cbn [orb]. fold (withDefaultTime p). intros H. right.
  apply String.eqb_neq in Ht, Hd.
  apply Z.ltb_ge in Hn, Hc1, Hd1, Hd2. apply Z.leb_gt in Hc2.
  split; [repeat split; assumption || lia|].
  destruct (validateIsMathProblem _); [|congruence].
  destruct (firstForbidden _ _); [congruence|].
  destruct (_ && _); [|congruence].
  destruct (validateIsoscelesTriangleProblem _) as [[?|]|]; cbn in H; congruence.
Qed.

Lemma withDefaultTime_idempotent p :
  withDefaultTime (withDefaultTime p) = withDefaultTime p.
Proof.
  unfold withDefaultTime. destruct (EstimatedTime p <=? 0) eqn:E; [reflexivity|].
  now rewrite E.
Qed.

Lemma structurallyValid_withDefaultTime p :
  structurallyValid p -> structurallyValid (withDefaultTime p).
Proof. unfold withDefaultTime. now destruct (EstimatedTime p <=? 0). Qed.

Lemma withDefaultTime_cases p :
  withDefaultTime p = p
  \/ (EstimatedTime p <= 0 /\ withDefaultTime p = setEstimatedTime p 300).
Proof.
  unfold withDefaultTime. destruct (EstimatedTime p <=? 0) eqn:E; [|now left].
  right. apply Z.leb_le in E. auto.
Qed.

(** Validating again what [validateProblem] leaves gives the same. *)
Lemma validateProblem_fixed p p' r :
  validateProblem p = Some (p', r) -> validateProblem p' = Some (p', r).
Proof.
  intros H. destruct (validateProblem_fst _ _ _ H) as [->|[Hs ->]]; [exact H|].
  rewrite (validateProblem_structural _ Hs) in H.
  rewrite (validateProblem_structural _ (structurallyValid_withDefaultTime _ Hs)).
  cbv zeta in *.
  now rewrite withDefaultTime_idempotent, withDefaultTime_Description.
Qed.

Lemma parseProblemResponse_accepted response p :
  parseProblemResponse response = Some (Ok p) -> accepted p.
Proof.
  unfold parseProblemResponse.
  destruct (Nat.eqb _ 0); [discriminate|].
  match goal with
  | |- context [validateProblem ?q] =>
      destruct (validateProblem q) as [[p' [err|]]|] eqn:Hv; cbn; try discriminate
  end.
  intros [= <-]. exact (validateProblem_fixed _ _ _ Hv).
Qed.

(** *** The bank *)

Lemma bank_accepted problems p :
  problems = mathGrade1 \/ problems = mathGrade2 \/ problems = mathGrade3
  \/ problems = englishProblems ->
  In p problems -> accepted p.
Proof.
  intros [->|[->|[->| ->]]] Hin; cbn in Hin;
    repeat (destruct Hin as [<-|Hin]; [vm_compute; reflexivity|]); destruct Hin.
Qed.

Lemma nextProblem_accepted e key problems p e' :
  problems = mathGrade1 \/ problems = mathGrade2 \/ problems = mathGrade3
  \/ problems = englishProblems ->
  nextProblem e key problems = Some (p, e') -> accepted p.
Proof.
  intros Hbank. unfold nextProblem.
  destruct (index problems _) as [q|] eqn:Hq; [|discriminate].
  cbn. intros [= <- _]. apply index_Some in Hq as [_ Hq].
  apply (bank_accepted problems); [assumption|].
  apply list_elem_of_In. eapply list_elem_of_lookup_2, Hq.
Qed.

Lemma generateOfflineProblem_accepted e ctx p e' :
  generateOfflineProblem e ctx = Some (p, e') -> accepted p.
Proof.
  unfold generateOfflineProblem.
  destruct (_ || _).
  { unfold getMathProblem. destruct (mathProblems !! Grade ctx) as [ps|] eqn:Hps.
    - destruct (0 <? len ps).
      + apply nextProblem_accepted.
        destruct (mathProblems_lookup _ _ Hps) as [->|[->| ->]]; auto.
      + intros [= <- _]. vm_compute. reflexivity.
    - intros [= <- _]. vm_compute. reflexivity. }
  destruct (String.eqb _ "英語").
  { apply nextProblem_accepted. auto. }
  repeat match goal with
         | |- context [if ?b then _ else _] => destruct b
         end;
    intros [= <- _]; vm_compute; reflexivity.
Qed.

(** X7: [validateProblem] changes nothing of a problem but an estimated
    time that is not positive, which becomes 300; and validating the
    problem it leaves gives the same problem and the same verdict
    again. *)
Theorem validation_is_idempotent p p' r :
  validateProblem p = Some (p', r) ->
  (p' = p \/ (EstimatedTime p <= 0 /\ p' = setEstimatedTime p 300))
  /\ validateProblem p' = Some (p', r).
Proof.
  intros H. split; [|exact (validateProblem_fixed _ _ _ H)].
  destruct (validateProblem_fst _ _ _ H) as [->|[_ ->]]; [now left|].
  destruct (withDefaultTime_cases p) as [->|[? ->]]; auto.
Qed.

Lemma validation_is_idempotent_witness :
  (setEstimatedTime isosceles60 300 = setEstimatedTime isosceles60 0
   \/ (EstimatedTime (setEstimatedTime isosceles60 0) <= 0
       /\ setEstimatedTime isosceles60 300
          = setEstimatedTime (setEstimatedTime isosceles60 0) 300))
  /\ validateProblem (setEstimatedTime isosceles60 300)
     = Some (setEstimatedTime isosceles60 300,
             Some (GeometricInconsistency (AngleBNot90 "60度"))).
Proof.
  apply (validation_is_idempotent (setEstimatedTime isosceles60 0)).
  vm_compute. reflexivity.
Defined.

(** X8: every problem that the offline bank returns is one that
    [validateProblem] accepts and leaves as it is: the bank never hands
    out what the validator would refuse from the backend. *)
Theorem offline_bank_passes_validation e ctx p e' :
  generateOfflineProblem e ctx = Some (p, e') ->
  validateProblem p = Some (p, None).
Proof. apply generateOfflineProblem_accepted. Qed.

Lemma offline_bank_passes_validation_witness :
  exists p e',
    generateOfflineProblem freshEngine (mathContext 3) = Some (p, e')
    /\ validateProblem p = Some (p, None).
Proof.
  eexists _, _. split.
  - vm_compute. reflexivity.
  - eapply (offline_bank_passes_validation freshEngine (mathContext 3)).
    vm_compute. reflexivity.
Defined.

(** X9: the isosceles check is a test on the text of the stated answer:
    for a structurally valid problem without blocklisted phrase whose
    description mentions the isosceles triangle and an angle, the
    problem is refused exactly when the description holds both 45度 and
    角B and the stated answer does not hold the characters 90. *)
Theorem isosceles_check_is_textual p answer :
  structurallyValid p ->
  Contains (Description p) "二等辺三角形" = true ->
  Contains (Description p) "角" = true ->
  firstForbidden (Description p) forbiddenPhrases = None ->
  index (Options p) (CorrectAnswer p) = Some answer ->
  validateProblem p
  = Some (withDefaultTime p, oracleVerdict (Description p) answer).
Proof.
  intros Hs Hiso Hangle Hforb Hans.
  rewrite (validateProblem_structural _ Hs). cbv zeta.
  rewrite (validateIsMathProblem_angle _ Hangle), Hforb, Hiso, Hangle.
  cbn [andb]. unfold validateIsoscelesTriangleProblem, oracleVerdict.
  rewrite withDefaultTime_Description, withDefaultTime_Options,
    withDefaultTime_CorrectAnswer, Hans.
  destruct (Contains (Description p) "45度" && Contains (Description p) "角B");
    [|reflexivity].
  cbn. destruct (Contains answer "90"); reflexivity.
Qed.

Lemma isosceles_check_is_textual_witness :
  validateProblem isosceles190 = Some (isosceles190, None).
Proof.
  apply (isosceles_check_is_textual isosceles190 "190度").
  - vm_compute. intuition congruence.
  - vm_compute. reflexivity.
  - vm_compute. reflexivity.
  - vm_compute. reflexivity.
  - vm_compute. reflexivity.
Defined.

(** *** Problems read from a response *)

Lemma validateProblem_options p p' r :
  validateProblem p = Some (p', r) -> Options p' = Options p.
Proof.
  intros H. destruct (validateProblem_fst _ _ _ H) as [->|[_ ->]];
    [reflexivity|apply withDefaultTime_Options].
Qed.

Lemma validateProblem_insufficient p p' :
  validateProblem p = Some (p', Some InsufficientOptions) ->
  len (Options p) < 2.
Proof.
  unfold validateProblem.
  destruct (String.eqb (Title p) ""); [discriminate|].
  destruct (String.eqb (Description p) ""); [discriminate|].
  destruct (len (Options p) <? 2) eqn:Hn; [intros _; now apply Z.ltb_lt|].
  destruct (_ || _); [discriminate|].
  destruct (_ || _); [discriminate|].
  destruct (validateIsMathProblem _); [|discriminate].
  destruct (firstForbidden _ _); [discriminate|].
  destruct (_ && _); [|discriminate].
  destruct (validateIsoscelesTriangleProblem _) as [[?|]|]; discriminate.
Qed.

(** X10: a problem read from a response has four options, whatever the
    response holds (an option that is missing or empty is the empty
    text), so the check for too few options never fires on a
    response. *)
Theorem parsed_problem_has_four_options response :
  (forall p, parseProblemResponse response = Some (Ok p) ->
             length (Options p) = 4%nat)
  /\ parseProblemResponse response
     <> Some (Err (ProblemValidationError InsufficientOptions)).
Proof.
  unfold parseProblemResponse.
  destruct (Nat.eqb _ 0); [split; [discriminate|discriminate]|].
  match goal with
  | |- context [validateProblem ?q] =>
      destruct (validateProblem q) as [[p' [err|]]|] eqn:Hv; cbn
  end.
  - split; [discriminate|]. intros [= ->].
    apply validateProblem_insufficient in Hv.
    unfold len in Hv. cbn [Options length] in Hv. lia.
  - split; [|discriminate]. intros p [= <-].
    now rewrite (validateProblem_options _ _ _ Hv).
  - split; discriminate.
Qed.

Lemma getField_insert m k v k' d :
  getField (<[k := v]> m) k' d
  = if decide (k = k') then (if nonEmpty v then v else d) else getField m k' d.
Proof. unfold getField. rewrite lookup_insert. now case_decide. Qed.

Lemma getField_empty k d : getField ∅ k d = d.
Proof. unfold getField. now rewrite lookup_empty. Qed.

(** X11: a response that holds a title and a description only, the
    description not a quantitative one, is accepted: the problem has
    four empty options, the first of them as the correct answer, the
    difficulty 3 and the estimated time 300. *)
Theorem missing_fields_take_defaults title description :
  cleanValue title = true -> cleanValue description = true ->
  validateIsMathProblem description = false ->
  parseProblemResponse (renderRecord (bareRecord title description))
  = Some (Ok (bareProblem title description)).
Proof.
  intros Ht Hd Hmath.
  destruct (cleanValue_trimmed _ Ht) as (Htne & _).
  destruct (cleanValue_trimmed _ Hd) as (Hdne & _).
  unfold parseProblemResponse. rewrite parse_rendered.
  2:{ unfold bareRecord, cleanRecord, cleanField. cbn [forallb fst snd].
      rewrite Ht, Hd. reflexivity. }
  unfold bareRecord. cbn [fold_left]. unfold insertField. cbn [fst snd].
  replace (Nat.eqb (size (<["DESCRIPTION" := description]>
                            (<["TITLE" := title]> (∅ : gmap string string)))) 0)
    with false.
  2:{ symmetry. apply Nat.eqb_neq. rewrite map_size_empty_iff.
      apply insert_non_empty. }
  rewrite !getField_insert, !getField_empty.
  repeat match goal with
         | |- context [decide (?a = ?b)] =>
             destruct (decide (a = b)) as [?|?]; [try congruence|try congruence]
         end.
  rewrite (nonEmpty_true _ Htne), (nonEmpty_true _ Hdne).
  change (wrapInt (parseInt "1" - 1)) with 0.
  change (parseInt "3") with 3. change (parseInt "300") with 300.
  fold (bareProblem title description).
  rewrite validateProblem_structural.
  2:{ unfold structurallyValid, bareProblem, len. cbn. repeat split; (assumption || lia). }
  cbv zeta. change (Description (bareProblem title description)) with description.
  rewrite Hmath. reflexivity.
Qed.

Lemma missing_fields_take_defaults_witness :
  parseProblemResponse
    (renderRecord (bareRecord "日本の地理" "日本の首都はどこですか？"))
  = Some (Ok (bareProblem "日本の地理" "日本の首都はどこですか？")).
Proof.
  apply (missing_fields_take_defaults "日本の地理" "日本の首都はどこですか？").
  - vm_compute. reflexivity.
  - vm_compute. reflexivity.
  - vm_compute. reflexivity.
Defined.
End MoreValidator.

(** ** More on the client and the coordinator *)

Section MoreCoordinator.
Import GoStrings Ai Props AiOps MoreProps.

Variable unmarshal : string -> option OllamaResponse.

(** *** The stream *)

Lemma scanLoop_Ok toks : forall acc r,
  scanLoop unmarshal toks acc = Ok r ->
  Forall noError (untilDone (fragments unmarshal toks)).
Proof.
  induction toks as [|line toks IH]; intros acc r H; [constructor|].
  cbn [scanLoop fragments] in *.
  destruct (String.eqb line ""); [now apply (IH acc r)|].
  destruct (unmarshal line) as [f|]; [|now apply (IH acc r)].
  unfold nonEmpty in H.
  destruct (String.eqb (Error f) "") eqn:He; cbn [negb] in H; [|discriminate].
  apply String.eqb_eq in He. cbn [untilDone].
  destruct (Done f).
  - constructor; [exact He|constructor].
  - constructor; [exact He|]. eapply IH, H.
Qed.

Lemma generate_Ok e backend prompt t :
  generate unmarshal e backend prompt = Ok t ->
  exists body lines,
    backend (requestURL e) (requestBody e prompt) = Responds 200 body lines
    /\ scanErr lines = None
    /\ Forall noError (untilDone (fragments unmarshal (tokens lines)))
    /\ t = TrimSpace (concatResponses
                        (untilDone (fragments unmarshal (tokens lines)))).
Proof.
  unfold generate. fold (requestURL e). fold (requestBody e prompt).
  destruct (backend _ _) as [c|c|status body lines]; try discriminate.
  destruct (status =? 200) eqn:Hs; cbn [negb]; [|discriminate].
  apply Z.eqb_eq in Hs. subst status.
  destruct (scanLoop unmarshal (tokens lines) "") as [full|err] eqn:Hl;
    [|discriminate].
  destruct (scanErr lines) as [c|] eqn:Hse; [discriminate|].
  intros [= <-]. exists body, lines.
  pose proof (scanLoop_Ok _ _ _ Hl) as Hf.
  rewrite (scanLoop_untilDone _ _ _ Hf) in Hl. injection Hl as <-.
  rewrite app_empty_l. auto.
Qed.

Lemma generate_trimmed e backend prompt t :
  generate unmarshal e backend prompt = Ok t -> TrimSpace t = t.
Proof.
  intros H. destruct (generate_Ok _ _ _ _ H) as (body & lines & _ & _ & _ & ->).
  apply TrimSpace_idempotent.
Qed.

(** *** Panics *)

Lemma index_None {A} (l : list A) i :
  index l i = None <-> ~ (0 <= i < len l).
Proof.
  split.
  - intros H Hr. destruct (index_in_range l i Hr) as [x Hx]. congruence.
  - intros H. destruct (index l i) as [x|] eqn:Hx; [|reflexivity].
    apply index_Some in Hx as [? _]. contradiction.
Qed.

Lemma buildPersonalizedPrompt_None ctx :
  buildPersonalizedPrompt ctx = None <-> ~ (0 <= Grade ctx <= 3).
Proof.
  split.
  - intros H Hr. destruct (buildPersonalizedPrompt_total _ Hr) as [p Hp].
    congruence.
  - intros H. unfold buildPersonalizedPrompt.
    replace (index gradeText (Grade ctx)) with (@None string); [reflexivity|].
    symmetry. apply index_None. change (len gradeText) with 4. lia.
Qed.

Lemma buildFeedbackPrompt_None req :
  buildFeedbackPrompt req = None
  <-> ~ (0 <= CorrectAnswer (ReqProblem req) < len (Options (ReqProblem req))).
Proof.
  rewrite <- index_None. unfold buildFeedbackPrompt.
  destruct (index _ _) as [c|]; cbn; [|tauto].
  destruct (feedbackIsMathProblem _); split; discriminate.
Qed.

Lemma GeneratePersonalizedProblem_None e backend now ctx :
  countersOk e ->
  GeneratePersonalizedProblem unmarshal e backend now ctx = None
  <-> ~ (0 <= Grade ctx <= 3).
Proof.
  intros Hok. rewrite <- buildPersonalizedPrompt_None.
  unfold GeneratePersonalizedProblem. cbn [shouldTryAI negb].
  destruct (buildPersonalizedPrompt ctx) as [prompt|]; cbn; [|tauto].
  destruct (generate unmarshal e backend prompt) as [response|err].
  - destruct (parseProblemResponse_total response) as [r ->]. cbn.
    split; discriminate.
  - destruct (generateOfflineProblem_total (recordFailure e now) ctx)
      as (p & e' & -> & _); [now apply countersOk_recordFailure|].
    cbn. split; discriminate.
Qed.

Lemma GenerateFeedback_None e backend now req :
  GenerateFeedback unmarshal e backend now req = None
  <-> ~ (0 <= CorrectAnswer (ReqProblem req) < len (Options (ReqProblem req))).
Proof.
  rewrite <- buildFeedbackPrompt_None.
  unfold GenerateFeedback. cbn [shouldTryAI negb].
  destruct (buildFeedbackPrompt req) as [prompt|]; cbn; [|tauto].
  destruct (generate unmarshal e backend prompt); split; discriminate.
Qed.

Lemma GeneratePersonalizedProblem_valid e backend now ctx p e' :
  GeneratePersonalizedProblem unmarshal e backend now ctx = Some (Ok p, e') ->
  validProblem p /\ accepted p.
Proof.
  unfold GeneratePersonalizedProblem. cbn [shouldTryAI negb].
  destruct (buildPersonalizedPrompt ctx) as [prompt|]; [cbn|discriminate].
  destruct (generate unmarshal e backend prompt) as [response|err].
  - destruct (parseProblemResponse response) as [[q|err]|] eqn:Hp;
      cbn; try discriminate.
    intros [= <- _]. split;
      [now apply (parseProblemResponse_valid unmarshal response)
      |now apply (parseProblemResponse_accepted response)].
  - destruct (generateOfflineProblem (recordFailure e now) ctx)
      as [[q e1]|] eqn:Hq; cbn; [|discriminate].
    intros [= <- _]. split;
      [now apply (generateOfflineProblem_valid _ _ _ _ Hq)
      |now apply (generateOfflineProblem_accepted _ _ _ _ Hq)].
Qed.

(** *** The rotation counters *)

Lemma countersBounded_countersOk e : countersBounded e -> countersOk e.
Proof. intros H k v Hk. destruct (H k v Hk). lia. Qed.

Lemma nextProblem_bounded e key problems p e' :
  problems = mathGrade1 \/ problems = mathGrade2 \/ problems = mathGrade3
  \/ problems = englishProblems ->
  countersBounded e ->
  nextProblem e key problems = Some (p, e') -> countersBounded e'.
Proof.
  intros Hbank Hb. destruct (bank_NoDup _ Hbank) as [_ Hlen].
  unfold nextProblem. fold (counter e key).
  destruct (index problems _) as [q|]; [|discriminate]. cbn.
  intros [= _ <-]. intros k v. unfold setProblemIndex. cbn.
  rewrite lookup_insert. case_decide; [|apply Hb].
  intros [= <-].
  pose proof (countersOk_counter e key (countersBounded_countersOk _ Hb)) as Hc.
  assert (Hn : 0 < len problems <= 3) by (unfold len; lia).
  rewrite Z.rem_mod_nonneg by lia.
  pose proof (Z.mod_pos_bound (counter e key) (len problems)).
  rewrite wrapInt_small; unfold minInt, maxInt; lia.
Qed.

Lemma generateOfflineProblem_bounded e ctx p e' :
  countersBounded e ->
  generateOfflineProblem e ctx = Some (p, e') -> countersBounded e'.
Proof.
  intros Hb. unfold generateOfflineProblem.
  destruct (_ || _).
  { unfold getMathProblem. destruct (mathProblems !! Grade ctx) as [ps|] eqn:Hps.
    - destruct (0 <? len ps).
      + apply nextProblem_bounded; [|assumption].
        destruct (mathProblems_lookup _ _ Hps) as [->|[->| ->]]; auto.
      + now intros [= _ <-].
    - now intros [= _ <-]. }
  destruct (String.eqb _ "英語").
  { apply nextProblem_bounded; auto. }
  repeat match goal with
         | |- context [if ?b then _ else _] => destruct b
         end;
    now intros [= _ <-].
Qed.

Lemma nextProblem_other_key e key problems key' problems' p e1 :
  key <> key' ->
  nextProblem e key' problems' = Some (p, e1) ->
  fst <$> nextProblem e1 key problems = fst <$> nextProblem e key problems.
Proof.
  intros Hk. unfold nextProblem.
  destruct (index problems' _) as [q|]; [|discriminate]. cbn.
  intros [= _ <-].
  change (problemIndex (setProblemIndex e key'
            (wrapInt (Z.rem (default 0 (problemIndex e !! key')) (len problems') + 1)))
          !! key)
    with (<[key' := wrapInt (Z.rem (default 0 (problemIndex e !! key'))
                                   (len problems') + 1)]> (problemIndex e) !! key).
  rewrite lookup_insert_ne by congruence.
  destruct (index problems _); reflexivity.
Qed.

Lemma mathKey_englishKey g g' : "数学_G" +:+ formatInt g <> "英語_G" +:+ formatInt g'.
Proof. rewrite !app_cons. discriminate. Qed.

Lemma getMathProblem_cases e g :
  (exists problems, getMathProblem e g
                    = nextProblem e ("数学_G" +:+ formatInt g) problems)
  \/ (forall e', getMathProblem e' g = Some (defaultMathProblem, e')).
Proof.
  unfold getMathProblem. destruct (mathProblems !! g) as [ps|].
  - destruct (0 <? len ps); [left; eauto|right; reflexivity].
  - right. reflexivity.
Qed.

Lemma getMathProblem_after e g key' problems' p e1 :
  "数学_G" +:+ formatInt g <> key' ->
  nextProblem e key' problems' = Some (p, e1) ->
  fst <$> getMathProblem e1 g = fst <$> getMathProblem e g.
Proof.
  intros Hk Hn. unfold getMathProblem. destruct (mathProblems !! g) as [ps|].
  - destruct (0 <? len ps); [|reflexivity].
    now apply (nextProblem_other_key _ _ _ key' problems' p).
  - reflexivity.
Qed.

(** X12: [generate] returns a text exactly when the backend answers
    with status 200, the stream is read without error and no fragment
    up to the first one that is done carries an error; the text is then
    the trimmed concatenation of these fragments. *)
Theorem generate_succeeds_exactly_when e backend prompt t :
  generate unmarshal e backend prompt = Ok t
  <-> exists body lines,
        backend (requestURL e) (requestBody e prompt) = Responds 200 body lines
        /\ scanErr lines = None
        /\ Forall noError (untilDone (fragments unmarshal (tokens lines)))
        /\ t = TrimSpace (concatResponses
                            (untilDone (fragments unmarshal (tokens lines)))).
Proof.
  split; [apply generate_Ok|].
  intros (body & lines & Hb & Hs & Hf & ->).
  now apply (generate_untilDone unmarshal e backend prompt body lines).
Qed.

(** X13: a text that [generate] returns, and so a study tip that
    [GenerateStudyTip] returns, has no white space at either end:
    trimming it again changes nothing. *)
Theorem generated_text_is_trimmed e backend :
  (forall prompt t,
      generate unmarshal e backend prompt = Ok t -> TrimSpace t = t)
  /\ (forall subject weakness t,
        GenerateStudyTip unmarshal e backend subject weakness = Ok t ->
        TrimSpace t = t).
Proof.
  split.
  - intros prompt t. apply generate_trimmed.
  - intros subject weakness t. unfold GenerateStudyTip. apply generate_trimmed.
Qed.

(** X14: with valid rotation counters, [GeneratePersonalizedProblem]
    panics exactly when the grade of the context is outside 0..3, the
    range of the grade names of the prompt; the backend and the offline
    bank have no say in it. *)
Theorem problem_call_panics_exactly_when e backend now ctx :
  countersOk e ->
  GeneratePersonalizedProblem unmarshal e backend now ctx = None
  <-> ~ (0 <= Grade ctx <= 3).
Proof. apply GeneratePersonalizedProblem_None. Qed.

(** X15: [GenerateFeedback] panics exactly when the index of the
    correct answer is outside the options of the problem; it never does
    for a problem that [GeneratePersonalizedProblem] has returned. *)
Theorem feedback_call_panics_exactly_when :
  (forall e backend now req,
      GenerateFeedback unmarshal e backend now req = None
      <-> ~ (0 <= CorrectAnswer (ReqProblem req)
             < len (Options (ReqProblem req))))
  /\ (forall e backend now ctx p e1 backend' now' req,
        GeneratePersonalizedProblem unmarshal e backend now ctx
        = Some (Ok p, e1) ->
        ReqProblem req = p ->
        exists r e2,
          GenerateFeedback unmarshal e1 backend' now' req = Some (r, e2)).
Proof.
  split; [apply GenerateFeedback_None|].
  intros e backend now ctx p e1 backend' now' req Hp Hreq.
  destruct (GeneratePersonalizedProblem_valid _ _ _ _ _ _ Hp) as [(Hc & _) _].
  destruct (GenerateFeedback unmarshal e1 backend' now' req) as [[r e2]|] eqn:Hf;
    [eauto|].
  apply GenerateFeedback_None in Hf. rewrite Hreq in Hf. contradiction.
Qed.

(** X16: a problem that [GeneratePersonalizedProblem] returns, from the
    backend or from the bank, is one that [validateProblem] accepts and
    leaves as it is. *)
Theorem returned_problem_passes_validation e backend now ctx p e' :
  GeneratePersonalizedProblem unmarshal e backend now ctx = Some (Ok p, e') ->
  validateProblem p = Some (p, None).
Proof. intros H. now apply (GeneratePersonalizedProblem_valid _ _ _ _ _ _ H). Qed.

(** X17: the rotation counters stay between 0 and 3 (the length of the
    longest list of the bank) from a new engine on, through every call:
    unlike the failure counter they cannot run over. *)
Theorem rotation_counters_stay_bounded :
  (forall cfg now, countersBounded (NewEngine cfg now))
  /\ (forall e backend now ctx r e',
        countersBounded e ->
        GeneratePersonalizedProblem unmarshal e backend now ctx = Some (r, e') ->
        countersBounded e')
  /\ (forall e backend now req r e',
        countersBounded e ->
        GenerateFeedback unmarshal e backend now req = Some (r, e') ->
        countersBounded e').
Proof.
  split; [|split].
  - intros cfg now k v. cbn. now rewrite lookup_empty.
  - intros e backend now ctx r e' Hb.
    unfold GeneratePersonalizedProblem. cbn [shouldTryAI negb].
    destruct (buildPersonalizedPrompt ctx) as [prompt|]; [cbn|discriminate].
    destruct (generate unmarshal e backend prompt) as [response|err].
    + destruct (parseProblemResponse response); cbn; [|discriminate].
      now intros [= _ <-].
    + destruct (generateOfflineProblem (recordFailure e now) ctx)
        as [[q e1]|] eqn:Hq; cbn; [|discriminate].
      intros [= _ <-].
      apply (generateOfflineProblem_bounded (recordFailure e now) ctx q);
        [exact Hb|exact Hq].
  - intros e backend now req r e' Hb.
    unfold GenerateFeedback. cbn [shouldTryAI negb].
    destruct (buildFeedbackPrompt req) as [prompt|]; [cbn|discriminate].
    destruct (generate unmarshal e backend prompt); now intros [= _ <-].
Qed.

(** X18: the rotations do not disturb one another: a lookup for one
    grade of mathematics or of English leaves the next problem of every
    other grade, and of the other subject, as it was.  (English has one
    list for all grades and yet a counter for each.) *)
Theorem rotations_are_independent e g g' p e1 :
  (g <> g' -> getMathProblem e g' = Some (p, e1) ->
   fst <$> getMathProblem e1 g = fst <$> getMathProblem e g)
  /\ (g <> g' -> getEnglishProblem e g' = Some (p, e1) ->
      fst <$> getEnglishProblem e1 g = fst <$> getEnglishProblem e g)
  /\ (getEnglishProblem e g' = Some (p, e1) ->
      fst <$> getMathProblem e1 g = fst <$> getMathProblem e g)
  /\ (getMathProblem e g' = Some (p, e1) ->
      fst <$> getEnglishProblem e1 g = fst <$> getEnglishProblem e g).
Proof.
  assert (Hmm : g <> g' -> "数学_G" +:+ formatInt g <> "数学_G" +:+ formatInt g').
  { intros Hg H. now apply key_inj in H. }
  assert (Hee : g <> g' -> "英語_G" +:+ formatInt g <> "英語_G" +:+ formatInt g').
  { intros Hg H. now apply key_inj in H. }
  repeat split.
  - intros Hg H. destruct (getMathProblem_cases e g') as [[ps Hps]|Hdef].
    + rewrite Hps in H. apply (getMathProblem_after _ _ _ _ _ _ (Hmm Hg) H).
    + rewrite Hdef in H. now injection H as _ <-.
  - intros Hg H. unfold getEnglishProblem in *.
    apply (nextProblem_other_key _ _ _ _ _ _ _ (Hee Hg) H).
  - intros H. unfold getEnglishProblem in H.
    apply (getMathProblem_after _ _ _ _ _ _ (mathKey_englishKey g g') H).
  - intros H. unfold getEnglishProblem.
    destruct (getMathProblem_cases e g') as [[ps Hps]|Hdef].
    + rewrite Hps in H.
      apply (nextProblem_other_key _ _ _ _ _ _ _
               (fun E => mathKey_englishKey g' g (eq_sym E)) H).
    + rewrite Hdef in H. now injection H as _ <-.
Qed.
End MoreCoordinator.

Section MoreCoordinatorExamples.
Import GoStrings Ai Props AiOps MoreProps.

Lemma problem_call_panics_exactly_when_witness :
  GeneratePersonalizedProblem Json.Unmarshal freshEngine refusing 1 (mathContext 4)
  = None
  <-> ~ (0 <= Grade (mathContext 4) <= 3).
Proof.
  apply (problem_call_panics_exactly_when Json.Unmarshal freshEngine refusing 1
           (mathContext 4)).
  apply countersOk_NewEngine.
Defined.
End MoreCoordinatorExamples.

(** ** The connection test *)

Section ConnectionTest.
Import GoStrings Ai Props AiOps MoreProps.

(** *** Runes *)

Lemma isJapaneseRune_range r :
  isJapaneseRune r = true <->
  12352 <= r <= 12543 \/ 19968 <= r <= 40879.
Proof.
  unfold isJapaneseRune.
  rewrite !orb_true_iff, !andb_true_iff, !Z.leb_le. lia.
Qed.

Lemma isJapaneseRune_ascii r : r < 128 -> isJapaneseRune r = false.
Proof.
  intros H. destruct (isJapaneseRune r) eqn:E; [|reflexivity].
  apply isJapaneseRune_range in E. lia.
Qed.

Lemma containsJapanese_cons_ascii c s :
  code c < 128 -> containsJapanese (String c s) = containsJapanese s.
Proof.
  intros H. cbn [containsJapanese]. unfold firstRune.
  replace (code c <? 128) with true by (symmetry; now apply Z.ltb_lt).
  cbn [fst snd]. now rewrite (isJapaneseRune_ascii _ H).
Qed.

Lemma containsJapanese_ascii s : allAscii s = true -> containsJapanese s = false.
Proof.
  induction s as [|c s IH]; [reflexivity|]. cbn [allAscii].
  rewrite andb_true_iff, Z.ltb_lt. intros [Hc Hs].
  rewrite containsJapanese_cons_ascii by assumption. now apply IH.
Qed.

(** The width of a rune, and the continuation bytes it is read from. *)
Lemma firstRune_width b0 s :
  (firstRune b0 s).2 = 1%nat
  \/ ((firstRune b0 s).2 = 2%nat
      /\ exists b1 s2, s = String b1 s2 /\ contByte b1 = true)
  \/ ((firstRune b0 s).2 = 3%nat
      /\ exists b1 b2 s3, s = String b1 (String b2 s3)
                          /\ contByte b1 = true /\ contByte b2 = true)
  \/ ((firstRune b0 s).2 = 4%nat
      /\ exists b1 b2 b3 s4, s = String b1 (String b2 (String b3 s4))
                             /\ contByte b1 = true /\ contByte b2 = true
                             /\ contByte b3 = true).
Proof.
  unfold firstRune. destruct (code b0 <? 128); [now left|].
  unfold decoderune.
  destruct ((192 <=? code b0) && (code b0 <? 224)).
  { destruct s as [|b1 s2]; [now left|].
    destruct (contByte b1) eqn:H1; [|now left].
    cbv zeta. destruct (127 <? _); [|now left].
    right. left. split; [reflexivity|]. eauto. }
  destruct ((224 <=? code b0) && (code b0 <? 240)).
  { destruct s as [|b1 [|b2 s3]]; [now left..|].
    destruct (contByte b1) eqn:H1; [|now left].
    destruct (contByte b2) eqn:H2; [|now left].
    cbn [andb]. cbv zeta. destruct (_ && _); [|now left].
    right. right. left. split; [reflexivity|]. eauto 6. }
  destruct ((240 <=? code b0) && (code b0 <? 248)); [|now left].
  destruct s as [|b1 [|b2 [|b3 s4]]]; [now left..|].
  destruct (contByte b1) eqn:H1; [|now left].
  destruct (contByte b2) eqn:H2; [|now left].
  destruct (contByte b3) eqn:H3; [|now left].
  cbn [andb]. cbv zeta. destruct (_ && _); [|now left].
  right. right. right. split; [reflexivity|]. eauto 8.
Qed.

(** The rune before a text that begins with a byte from 224 to 239 and
    two further bytes does not depend on what follows. *)
Lemma firstRune_three c0 c1 c2 rest :
  224 <= code c0 < 240 ->
  firstRune c0 (String c1 (String c2 rest))
  = firstRune c0 (String c1 (String c2 "")).
Proof.
  intros H. unfold firstRune, decoderune.
  replace (code c0 <? 128) with false by (symmetry; apply Z.ltb_ge; lia).
  replace (code c0 <? 224) with false by (symmetry; apply Z.ltb_ge; lia).
  rewrite andb_false_r.
  replace (224 <=? code c0) with true by (symmetry; apply Z.leb_le; lia).
  replace (code c0 <? 240) with true by (symmetry; apply Z.ltb_lt; lia).
  reflexivity.
Qed.

Lemma In_runesFrom n : forall lo r,
  lo <= r < lo + Z.of_nat n -> In r (runesFrom lo n).
Proof.
  induction n as [|n IH]; intros lo r H; [lia|].
  cbn [runesFrom]. destruct (Z.eq_dec lo r) as [->|Hne]; [now left|].
  right. apply IH. lia.
Qed.

Lemma japaneseRunes_decode : forallb decodesBack japaneseRunes = true.
Proof. vm_compute. reflexivity. Qed.

Lemma encode3_decodes r :
  isJapaneseRune r = true ->
  exists c0 c1 c2,
    encode3 r = String c0 (String c1 (String c2 ""))
    /\ 224 <= code c0 < 240
    /\ forall rest, firstRune c0 (String c1 (String c2 rest)) = (r, 3%nat).
Proof.
  intros Hr. apply isJapaneseRune_range in Hr.
  assert (Hin : In r japaneseRunes).
  { unfold japaneseRunes. apply in_or_app.
    destruct Hr; [left|right]; apply In_runesFrom; lia. }
  pose proof japaneseRunes_decode as Hall. rewrite forallb_forall in Hall.
  specialize (Hall r Hin). unfold decodesBack in Hall.
  eexists _, _, _. split; [reflexivity|].
  change (encode3 r) with
    (String (byte (Z.lor 224 (Z.shiftr r 12)))
       (String (byte (Z.lor 128 (Z.land (Z.shiftr r 6) 63)))
          (String (byte (Z.lor 128 (Z.land r 63))) ""))) in Hall.
  cbv iota in Hall. rewrite !andb_true_iff in Hall.
  destruct Hall as [[[Hlo Hhi] Hrune] Hw].
  apply Z.leb_le in Hlo. apply Z.ltb_lt in Hhi.
  apply Z.eqb_eq in Hrune. apply Nat.eqb_eq in Hw.
  split; [lia|]. intros rest. rewrite firstRune_three by lia.
  destruct (firstRune _ _) as [r' w]. cbn [fst snd] in *. congruence.
Qed.

Lemma contByte_high c : 224 <= code c -> contByte c = false.
Proof.
  intros H. unfold contByte. apply andb_false_iff. right. apply Z.leb_gt. lia.
Qed.

(** A rune is found wherever it stands. *)
Lemma containsJapanese_found_bound r b n : forall a,
  isJapaneseRune r = true -> (String.length a <= n)%nat ->
  containsJapanese (a +:+ encode3 r +:+ b) = true.
Proof.
  intros a Hr. destruct (encode3_decodes r Hr) as (c0 & c1 & c2 & -> & Hc0 & Hdec).
  pose proof (contByte_high c0 ltac:(lia)) as Hcont.
  rewrite !app_cons, app_empty_l. revert a.
  induction n as [|n IH]; intros a Hn.
  - destruct a; [|cbn in Hn; lia]. rewrite app_empty_l.
    cbn [containsJapanese]. rewrite Hdec. cbn [fst]. now rewrite Hr.
  - destruct a as [|a0 a1].
    { rewrite app_empty_l. cbn [containsJapanese]. rewrite Hdec. cbn [fst].
      now rewrite Hr. }
    cbn [String.length] in Hn. rewrite app_cons. cbn [containsJapanese].
    destruct (isJapaneseRune (firstRune a0 _).1); [reflexivity|].
    destruct (firstRune_width a0 (a1 +:+ String c0 (String c1 (String c2 b))))
      as [Hw|[[Hw Hs]|[[Hw Hs]|[Hw Hs]]]]; rewrite Hw.
    + apply IH. lia.
    + destruct Hs as (b1 & s2 & Hs & H1).
      destruct a1 as [|x1 a2].
      { rewrite app_empty_l in Hs. injection Hs as <- _. congruence. }
      rewrite app_cons. apply IH. cbn [String.length] in Hn. lia.
    + destruct Hs as (b1 & b2 & s3 & Hs & H1 & H2).
      destruct a1 as [|x1 [|x2 a3]].
      { rewrite app_empty_l in Hs. injection Hs as <- _. congruence. }
      { rewrite app_cons, app_empty_l in Hs. injection Hs as _ <- _. congruence. }
      rewrite !app_cons. apply IH. cbn [String.length] in Hn. lia.
    + destruct Hs as (b1 & b2 & b3 & s4 & Hs & H1 & H2 & H3).
      destruct a1 as [|x1 [|x2 [|x3 a4]]].
      { rewrite app_empty_l in Hs. injection Hs as <- _. congruence. }
      { rewrite app_cons, app_empty_l in Hs. injection Hs as _ <- _. congruence. }
      { rewrite !app_cons, app_empty_l in Hs. injection Hs as _ _ <- _.
        congruence. }
      rewrite !app_cons. apply IH. cbn [String.length] in Hn. lia.
Qed.

Lemma containsJapanese_found r a b :
  isJapaneseRune r = true -> containsJapanese (a +:+ encode3 r +:+ b) = true.
Proof.
  intros Hr. now apply (containsJapanese_found_bound r b (String.length a)).
Qed.

Variable unmarshal : string -> option OllamaResponse.

(** X19: a reply made of ASCII bytes only holds no Japanese character,
    so the connection test fails on it with the error that asks to
    check the model; [UpdateConfig] returns that error and the engine
    keeps the new configuration all the same. *)
Theorem ascii_reply_fails_connection_test e cfg backend reply :
  generate unmarshal (setConfig e cfg) backend testPrompt = Ok reply ->
  allAscii reply = true ->
  containsJapanese reply = false
  /\ testConnection unmarshal (setConfig e cfg) backend = Some NoJapaneseResponse
  /\ UpdateConfig unmarshal e cfg backend
     = (setConfig e cfg, Some NoJapaneseResponse)
  /\ GetCurrentModel (UpdateConfig unmarshal e cfg backend).1 = Model cfg.
Proof.
  intros Hg Ha. pose proof (containsJapanese_ascii _ Ha) as Hc.
  assert (Ht : testConnection unmarshal (setConfig e cfg) backend
               = Some NoJapaneseResponse).
  { unfold testConnection. now rewrite Hg, Hc. }
  unfold UpdateConfig. rewrite Ht. auto.
Qed.

(** X20: a hiragana, a katakana or a kanji (U+3040..U+30FF,
    U+4E00..U+9FAF) in its UTF-8 encoding is found wherever it stands in
    a text, whatever bytes surround it; the connection test passes on a
    reply that holds one. *)
Theorem japanese_rune_is_found r a b :
  isJapaneseRune r = true ->
  containsJapanese (a +:+ encode3 r +:+ b) = true
  /\ forall e backend,
       generate unmarshal e backend testPrompt = Ok (a +:+ encode3 r +:+ b) ->
       testConnection unmarshal e backend = None.
Proof.
  intros Hr. pose proof (containsJapanese_found r a b Hr) as Hc.
  split; [exact Hc|]. intros e backend Hg.
  unfold testConnection. now rewrite Hg, Hc.
Qed.
End ConnectionTest.

Section ConnectionTestExamples.
Import GoStrings Ai Props AiOps MoreProps.

Lemma ascii_reply_fails_connection_test_witness :
  containsJapanese englishReply = false
  /\ testConnection Json.Unmarshal (setConfig freshEngine newConfig)
       (answering [fragmentLine englishReply true])
     = Some NoJapaneseResponse
  /\ UpdateConfig Json.Unmarshal freshEngine newConfig
       (answering [fragmentLine englishReply true])
     = (setConfig freshEngine newConfig, Some NoJapaneseResponse)
  /\ GetCurrentModel
       (UpdateConfig Json.Unmarshal freshEngine newConfig
          (answering [fragmentLine englishReply true])).1
     = Model newConfig.
Proof.
  apply (ascii_reply_fails_connection_test Json.Unmarshal freshEngine newConfig
           (answering [fragmentLine englishReply true]) englishReply).
  - vm_compute. reflexivity.
  - vm_compute. reflexivity.
Defined.

Lemma japanese_rune_is_found_witness :
  containsJapanese kanjiReply = true.
Proof.
  apply (japanese_rune_is_found Json.Unmarshal 23383
           (String (byte 255) (String (byte 227) ""))
           (String (byte 128) "!")).
  vm_compute. reflexivity.
Defined.
End ConnectionTestExamples.

(** ** The checks on a response, in their order *)

Section ResponseChecks.
Import GoStrings Ai Props AiOps MoreProps.

Lemma Atoi_range s v : Atoi s = Some v -> minInt <= v <= maxInt.
Proof.
  unfold Atoi. destruct s as [|c s]; [discriminate|].
  destruct (if byteIs c 45 then (true, s)
            else if byteIs c 43 then (false, s) else (false, String c s))
    as [neg digits].
  destruct digits as [|d ds]; [discriminate|].
  destruct (parseDigits _ 0) as [n|]; [|discriminate].
  destruct (_ && _) eqn:E; [|discriminate].
  intros [= <-]. apply andb_true_iff in E as [E1 E2].
  apply Z.leb_le in E1, E2. lia.
Qed.

Lemma parseInt_range s : minInt <= parseInt s <= maxInt.
Proof.
  unfold parseInt. destruct (Atoi s) as [v|] eqn:E.
  - now apply Atoi_range in E.
  - unfold minInt, maxInt. lia.
Qed.

(** The answer index read from the text of a number outside 1..4 is
    outside the four options, the wrap-around at the least [int]
    included. *)
Lemma answer_index_out n :
  minInt <= n <= maxInt -> ~ (1 <= n <= 4) ->
  wrapInt (n - 1) < 0 \/ 4 <= wrapInt (n - 1).
Proof.
  intros Hr Hn. destruct (Z.eq_dec n minInt) as [->|Hne].
  - right. vm_compute. discriminate.
  - rewrite wrapInt_small by (unfold minInt, maxInt in *; lia). lia.
Qed.

Variable unmarshal : string -> option OllamaResponse.

Lemma scanLoop_skipped toks : forall acc,
  Forall (skipped unmarshal) toks -> scanLoop unmarshal toks acc = Ok acc.
Proof.
  induction toks as [|line toks IH]; intros acc H; [reflexivity|].
  apply Forall_cons in H as [Hl H]. cbn [scanLoop].
  destruct (String.eqb line "") eqn:E; [now apply IH|].
  destruct Hl as [->|Hl]; [discriminate|]. rewrite Hl. now apply IH.
Qed.

(** X21: the checks on the fields of a response come in a fixed order:
    a missing or empty title is reported first, then a missing or empty
    description, then an answer index that is no number from 1 to 4
    (a text that is no number reads as 0), then a difficulty that is no
    number from 1 to 5. *)
Theorem response_checks_in_order response :
  parseKeyValueResponse response <> ∅ ->
  (getField (parseKeyValueResponse response) "TITLE" "" = "" ->
   parseProblemResponse response
   = Some (Err (ProblemValidationError MissingTitle)))
  /\ (getField (parseKeyValueResponse response) "TITLE" "" <> "" ->
      getField (parseKeyValueResponse response) "DESCRIPTION" "" = "" ->
      parseProblemResponse response
      = Some (Err (ProblemValidationError MissingDescription)))
  /\ (getField (parseKeyValueResponse response) "TITLE" "" <> "" ->
      getField (parseKeyValueResponse response) "DESCRIPTION" "" <> "" ->
      ~ (1 <= parseInt (getField (parseKeyValueResponse response) "CORRECT" "1")
         <= 4) ->
      parseProblemResponse response
      = Some (Err (ProblemValidationError IndexOutOfRange)))
  /\ (getField (parseKeyValueResponse response) "TITLE" "" <> "" ->
      getField (parseKeyValueResponse response) "DESCRIPTION" "" <> "" ->
      1 <= parseInt (getField (parseKeyValueResponse response) "CORRECT" "1")
      <= 4 ->
      ~ (1 <= parseInt (getField (parseKeyValueResponse response) "DIFFICULTY" "3")
         <= 5) ->
      parseProblemResponse response
      = Some (Err (ProblemValidationError DifficultyOutOfRange))).
Proof.
  intros Hne. unfold parseProblemResponse.
  replace (Nat.eqb (size (parseKeyValueResponse response)) 0) with false
    by (symmetry; apply Nat.eqb_neq; now rewrite map_size_empty_iff).
  unfold validateProblem.
  cbn [Title Description Options CorrectAnswer Difficulty].
  change (len [getField (parseKeyValueResponse response) "OPTION1" "";
               getField (parseKeyValueResponse response) "OPTION2" "";
               getField (parseKeyValueResponse response) "OPTION3" "";
               getField (parseKeyValueResponse response) "OPTION4" ""]) with 4.
  change (4 <? 2) with false. cbv iota.
  repeat split.
  - intros ->. reflexivity.
  - intros Ht ->. now rewrite (String_eqb_empty_false _ Ht).
  - intros Ht Hd Hc.
    rewrite (String_eqb_empty_false _ Ht), (String_eqb_empty_false _ Hd).
    destruct (answer_index_out _ (parseInt_range _) Hc) as [H|H].
    + replace (wrapInt _ <? 0) with true by (symmetry; now apply Z.ltb_lt).
      reflexivity.
    + replace (4 <=? wrapInt _) with true by (symmetry; now apply Z.leb_le).
      rewrite orb_true_r. reflexivity.
  - intros Ht Hd Hc Hdiff.
    rewrite (String_eqb_empty_false _ Ht), (String_eqb_empty_false _ Hd).
    rewrite wrapInt_small by (unfold minInt, maxInt; lia).
    replace (_ - 1 <? 0) with false by (symmetry; apply Z.ltb_ge; lia).
    replace (4 <=? _ - 1) with false by (symmetry; apply Z.leb_gt; lia).
    cbn [orb].
    assert (H : parseInt (getField (parseKeyValueResponse response) "DIFFICULTY" "3") < 1
                \/ 5 < parseInt (getField (parseKeyValueResponse response) "DIFFICULTY" "3"))
      by lia.
    destruct H as [H|H].
    + replace (_ <? 1) with true by (symmetry; now apply Z.ltb_lt). reflexivity.
    + replace (5 <? _) with true by (symmetry; now apply Z.ltb_lt).
      rewrite orb_true_r. reflexivity.
Qed.

(** X22: a stream that is read without error and in which no line
    decodes (an empty body, or a page that is no JSON, under status 200)
    is no failure for [generate]: it returns the empty text.  The
    coordinator then records a success and returns the parse error; the
    offline bank is not consulted. *)
Theorem undecodable_stream_is_a_success e backend now ctx prompt body lines :
  buildPersonalizedPrompt ctx = Some prompt ->
  backend (requestURL e) (requestBody e prompt) = Responds 200 body lines ->
  scanErr lines = None ->
  Forall (skipped unmarshal) (tokens lines) ->
  generate unmarshal e backend prompt = Ok ""
  /\ GeneratePersonalizedProblem unmarshal e backend now ctx
     = Some (Err (ResponseParseError ""), recordSuccess e now).
Proof.
  intros Hp Hb Hs Hl.
  assert (Hg : generate unmarshal e backend prompt = Ok "").
  { rewrite (generate_responds unmarshal e backend prompt body lines Hb).
    now rewrite (scanLoop_skipped _ _ Hl), Hs. }
  split; [exact Hg|].
  now rewrite (GeneratePersonalizedProblem_backend_ok
                 unmarshal e backend now ctx prompt "" Hp Hg).
Qed.
End ResponseChecks.

Section ResponseChecksExamples.
Import GoStrings Ai Props AiOps MoreProps.

Lemma response_checks_in_order_witness :
  parseProblemResponse (renderRecord letterAnswerRecord)
  = Some (Err (ProblemValidationError IndexOutOfRange)).
Proof.
  apply (response_checks_in_order (renderRecord letterAnswerRecord)).
  - intros H. apply (f_equal (fun m => m !! "TITLE")) in H.
    vm_compute in H. discriminate.
  - vm_compute. discriminate.
  - vm_compute. discriminate.
  - vm_compute. intros [H _]. apply H. reflexivity.
Defined.

Lemma undecodable_stream_is_a_success_witness :
  generate Json.Unmarshal freshEngine
    (answering ["<html>"; ""; "502 Bad Gateway"])
    (default "" (buildPersonalizedPrompt (mathContext 3)))
  = Ok ""
  /\ GeneratePersonalizedProblem Json.Unmarshal freshEngine
       (answering ["<html>"; ""; "502 Bad Gateway"]) 1 (mathContext 3)
     = Some (Err (ResponseParseError ""), recordSuccess freshEngine 1).
Proof.
  apply (undecodable_stream_is_a_success Json.Unmarshal freshEngine
           (answering ["<html>"; ""; "502 Bad Gateway"]) 1 (mathContext 3)
           (default "" (buildPersonalizedPrompt (mathContext 3)))
           "" (readWithoutError ["<html>"; ""; "502 Bad Gateway"])).
  - vm_compute. reflexivity.
  - reflexivity.
  - reflexivity.
  - constructor; [right; vm_compute; reflexivity|].
    constructor; [left; reflexivity|].
    constructor; [right; vm_compute; reflexivity|]. constructor.
Defined.
End ResponseChecksExamples.

(** ** Numbers, prompts and the health state *)

Section NumbersAndPrompts.
Import GoStrings Ai Props AiOps MoreProps.

(** *** [%d] and [strconv.Atoi] *)

Lemma parseDigits_acc d : forall acc,
  parseDigits (NilEmpty.string_of_uint d) (Z.pos acc)
  = Some (Z.pos (Pos.of_uint_acc d acc)).
Proof.
  induction d; intros acc; cbn [NilEmpty.string_of_uint Pos.of_uint_acc parseDigits];
    [reflexivity|..];
    (match goal with
     | |- context [digitVal ?c] => change (digitVal c) with (Some (code c - 48))
     end; cbv iota; rewrite <- IHd; f_equal; vm_compute code; lia).
Qed.

Lemma parseDigits_zero d :
  parseDigits (NilEmpty.string_of_uint d) 0 = Some (Z.of_N (Pos.of_uint d)).
Proof.
  induction d; cbn [NilEmpty.string_of_uint Pos.of_uint parseDigits];
    [reflexivity|exact IHd|..];
    (match goal with
     | |- context [digitVal ?c] => change (digitVal c) with (Some (code c - 48))
     end; cbv iota; cbn [Z.of_N]; rewrite <- parseDigits_acc; reflexivity).
Qed.

Lemma to_uint_digits p :
  exists c rest,
    NilZero.string_of_uint (Pos.to_uint p) = String c rest
    /\ byteIs c 45 = false /\ byteIs c 43 = false
    /\ parseDigits (String c rest) 0 = Some (Z.pos p).
Proof.
  pose proof (DecimalPos.Unsigned.of_to p) as Hp.
  pose proof (parseDigits_zero (Pos.to_uint p)) as Hd. rewrite Hp in Hd.
  destruct (Pos.to_uint p); [discriminate|..];
    eexists _, _; (split; [reflexivity|]); repeat split; exact Hd.
Qed.

Lemma Atoi_formatInt z : minInt <= z <= maxInt -> Atoi (formatInt z) = Some z.
Proof.
  intros Hz. unfold formatInt. destruct z as [|p|p].
  - reflexivity.
  - cbn [Z.to_int NilZero.string_of_int].
    destruct (to_uint_digits p) as (c & rest & -> & H45 & H43 & Hd).
    unfold Atoi. rewrite H45, H43, Hd.
    replace ((minInt <=? Z.pos p) && (Z.pos p <=? maxInt)) with true;
      [reflexivity|].
    symmetry. apply andb_true_iff. split; apply Z.leb_le; lia.
  - cbn [Z.to_int NilZero.string_of_int].
    destruct (to_uint_digits p) as (c & rest & -> & H45 & H43 & Hd).
    unfold Atoi. change (byteIs "-" 45) with true. cbv iota. rewrite Hd.
    change (- Z.pos p) with (Z.neg p).
    replace ((minInt <=? Z.neg p) && (Z.neg p <=? maxInt)) with true;
      [reflexivity|].
    symmetry. apply andb_true_iff. split; apply Z.leb_le; lia.
Qed.

(** *** The text of a number *)

Lemma plainByte_spec c :
  plainByte c = true ->
  33 <= code c < 127 /\ byteIs c 10 = false /\ byteIs c 96 = false
  /\ asciiSpace c = false.
Proof.
  unfold plainByte, asciiSpace, byteIs.
  rewrite !andb_true_iff, !negb_true_iff, !Z.leb_le. intros [[[H1 H2] _] H96].
  split; [lia|]. split; [apply Z.eqb_neq; lia|]. split; [assumption|].
  repeat (apply orb_false_iff; split); apply Z.eqb_neq; lia.
Qed.

Lemma plainText_app a b : plainText (a +:+ b) = plainText a && plainText b.
Proof.
  induction a as [|c a IH]; [reflexivity|].
  rewrite app_cons. cbn [plainText]. now rewrite IH, andb_assoc.
Qed.

Lemma plainText_reverse s : plainText (reverse s "") = plainText s.
Proof.
  induction s as [|c s IH]; [reflexivity|].
  cbn [reverse]. rewrite reverse_acc, plainText_app, IH. cbn [plainText].
  now rewrite andb_true_r, andb_comm.
Qed.

Lemma plainText_trimLeft s : plainText s = true -> trimLeft s = s.
Proof.
  destruct s as [|a s1]; [reflexivity|]. cbn [plainText].
  rewrite andb_true_iff. intros [Ha _].
  destruct (plainByte_spec _ Ha) as (Hr & _ & _ & Hsp).
  rewrite trimLeft_cons, Hsp. destruct s1 as [|b [|c s3]]; [reflexivity| |].
  - now rewrite space2_low_l by lia.
  - now rewrite space2_low_l, space3_low_1 by lia.
Qed.

Lemma plainText_trimLeftRev s : plainText s = true -> trimLeftRev s = s.
Proof.
  destruct s as [|a s1]; [reflexivity|]. cbn [plainText].
  rewrite andb_true_iff. intros [Ha _].
  destruct (plainByte_spec _ Ha) as (Hr & _ & _ & Hsp).
  rewrite trimLeftRev_cons, Hsp. destruct s1 as [|b [|c s3]]; [reflexivity| |].
  - now rewrite space2_low_r by lia.
  - now rewrite space2_low_r, space3_low_3 by lia.
Qed.

Lemma plainText_noLF s : plainText s = true -> noByte 10 s = true.
Proof.
  induction s as [|c s IH]; [reflexivity|]. cbn [plainText noByte].
  rewrite andb_true_iff. intros [Hc Hs].
  destruct (plainByte_spec _ Hc) as (_ & -> & _). now rewrite IH.
Qed.

Lemma plainText_noFence s : plainText s = true -> noFence s = true.
Proof.
  induction s as [|a s IH]; [reflexivity|]. cbn [plainText].
  rewrite andb_true_iff. intros [Ha Hs]. specialize (IH Hs).
  destruct (plainByte_spec _ Ha) as (_ & _ & H96 & _).
  destruct s as [|b [|c s3]]; [reflexivity..|].
  rewrite noFence_cons3, H96, IH. reflexivity.
Qed.

Lemma plainText_cleanValue s :
  plainText s = true -> s <> "" -> cleanValue s = true.
Proof.
  intros Hp Hne. unfold cleanValue.
  rewrite (SplitNewline_single _ (plainText_noLF _ Hp)). cbn [forallb].
  rewrite andb_true_r. unfold cleanLine.
  rewrite (nonEmpty_true _ Hne), (plainText_noLF _ Hp), (plainText_noFence _ Hp).
  rewrite TrimSpace_of_fixed; [now rewrite String.eqb_refl| |].
  - now apply plainText_trimLeft.
  - apply trimRight_fixed_iff, plainText_trimLeftRev.
    now rewrite plainText_reverse.
Qed.

Lemma plainText_digits d : plainText (NilEmpty.string_of_uint d) = true.
Proof. induction d; cbn [NilEmpty.string_of_uint plainText]; try rewrite IHd; reflexivity. Qed.

Lemma plainText_formatInt z : plainText (formatInt z) = true.
Proof.
  assert (H : forall d, plainText (NilZero.string_of_uint d) = true).
  { intros d. destruct d; try apply plainText_digits. reflexivity. }
  unfold formatInt. destruct (Z.to_int z); cbn [NilZero.string_of_int plainText];
    [apply H|]. now rewrite H.
Qed.

Lemma formatInt_not_empty z : formatInt z <> "".
Proof.
  unfold formatInt. destruct (Z.to_int z) as [d|d]; cbn [NilZero.string_of_int];
    [|discriminate]. destruct d; discriminate.
Qed.

Lemma cleanValue_formatInt z : cleanValue (formatInt z) = true.
Proof.
  apply plainText_cleanValue; [apply plainText_formatInt|apply formatInt_not_empty].
Qed.

(** *** Texts that hold a text *)

Lemma Contains_prefix s x : HasPrefix s x = true -> Contains s x = true.
Proof. intros H. unfold Contains. now rewrite Index_unfold, H. Qed.

Lemma Contains_app_r a b x : Contains b x = true -> Contains (a +:+ b) x = true.
Proof.
  unfold Contains. rewrite !Z.leb_le. intros H.
  induction a as [|c a IH]; [now rewrite app_empty_l|].
  rewrite app_cons, Index_unfold.
  destruct (HasPrefix _ x); [lia|]. cbv zeta.
  destruct (Index (a +:+ b) x <? 0) eqn:E; [apply Z.ltb_lt in E; lia|lia].
Qed.

Lemma HasPrefix_app x rest : HasPrefix (x +:+ rest) x = true.
Proof.
  induction x as [|c x IH]; [reflexivity|].
  rewrite app_cons. cbn [HasPrefix]. now rewrite Ascii.eqb_refl, IH.
Qed.

Lemma Contains_here a x rest : Contains (a +:+ x +:+ rest) x = true.
Proof. apply Contains_app_r, Contains_prefix, HasPrefix_app. Qed.

(** *** Calls that differ in the health state only *)

Variable unmarshal : string -> option OllamaResponse.

Lemma generate_config e1 e2 backend prompt :
  Model (config e1) = Model (config e2) ->
  OllamaURL (config e1) = OllamaURL (config e2) ->
  generate unmarshal e1 backend prompt = generate unmarshal e2 backend prompt.
Proof. intros Hm Hu. unfold generate. now rewrite Hm, Hu. Qed.

Lemma nextProblem_counters e1 e2 key problems :
  problemIndex e1 = problemIndex e2 ->
  fst <$> nextProblem e1 key problems = fst <$> nextProblem e2 key problems.
Proof.
  intros H. unfold nextProblem. rewrite H.
  destruct (index problems _); reflexivity.
Qed.

Lemma generateOfflineProblem_counters e1 e2 ctx :
  problemIndex e1 = problemIndex e2 ->
  fst <$> generateOfflineProblem e1 ctx = fst <$> generateOfflineProblem e2 ctx.
Proof.
  intros H. unfold generateOfflineProblem, getMathProblem, getEnglishProblem.
  destruct (_ || _).
  { destruct (mathProblems !! Grade ctx) as [ps|]; [|reflexivity].
    destruct (0 <? len ps); [|reflexivity]. now apply nextProblem_counters. }
  destruct (String.eqb _ "英語"); [now apply nextProblem_counters|].
  repeat match goal with
         | |- context [if ?b then _ else _] => destruct b
         end; reflexivity.
Qed.

(** X23: a number in the range of an [int] that [%d] writes,
    [strconv.Atoi] and so [parseInt] read back, also through the
    parser: a field of a clean record whose value is the number
    written by [%d] is read by [getField] and [parseInt] as that
    number, whatever the default. *)
Theorem number_round_trip z :
  minInt <= z <= maxInt ->
  Atoi (formatInt z) = Some z /\ parseInt (formatInt z) = z
  /\ forall fs1 key fs2 defaultValue,
       cleanRecord (fs1 ++ fs2) = true -> cleanKey key = true ->
       ~ In key (map fst fs2) ->
       parseInt (getField
                   (parseKeyValueResponse
                      (renderRecord (fs1 ++ (key, formatInt z) :: fs2)))
                   key defaultValue) = z.
Proof.
  intros Hz. pose proof (Atoi_formatInt z Hz) as H.
  assert (Hp : parseInt (formatInt z) = z) by (unfold parseInt; now rewrite H).
  split; [exact H|]. split; [exact Hp|].
  intros fs1 key fs2 d Hfs Hkey Hnot.
  rewrite parse_rendered.
  2:{ unfold cleanRecord in *. rewrite forallb_app in Hfs |- *.
      apply andb_true_iff in Hfs as [H1 H2]. cbn [forallb].
      rewrite H1, H2. unfold cleanField. cbn [fst snd].
      now rewrite Hkey, cleanValue_formatInt. }
  unfold getField. rewrite fold_insertField_last by assumption.
  now rewrite (nonEmpty_true _ (formatInt_not_empty z)).
Qed.

(** X24: every phrase that [validateProblem] blocks is named, between
    quotes, in every prompt that [buildPersonalizedPrompt] builds,
    either as it is or without its last character は. *)
Theorem prompt_names_every_blocked_phrase ctx prompt phrase :
  buildPersonalizedPrompt ctx = Some prompt ->
  In phrase forbiddenPhrases ->
  exists named,
    (phrase = named \/ phrase = named +:+ "は")
    /\ Contains prompt (quoted named) = true.
Proof.
  unfold buildPersonalizedPrompt.
  destruct (index gradeText (Grade ctx)) as [g|]; [cbn|discriminate].
  intros [= <-] Hin.
  cbn in Hin.
  destruct Hin as [<-|[<-|[<-|[<-|[<-|[<-|[<-|[<-|[<-|[]]]]]]]]]].
  - exists "次の文中から". split; [now left|].
    do 5 apply Contains_app_r. apply Contains_prefix, HasPrefix_app.
  - exists "下の図". split; [now left|].
    do 6 apply Contains_app_r. apply Contains_prefix, HasPrefix_app.
  - exists "以下の文". split; [now left|].
    do 7 apply Contains_app_r. apply Contains_prefix, HasPrefix_app.
  - exists "次の文字". split; [now right|].
    do 8 apply Contains_app_r. apply Contains_prefix, HasPrefix_app.
  - exists "次の単語". split; [now right|].
    do 9 apply Contains_app_r. apply Contains_prefix, HasPrefix_app.
  - exists "次の数式". split; [now right|].
    do 10 apply Contains_app_r. apply Contains_prefix, HasPrefix_app.
  - exists "次の図". split; [now left|].
    do 11 apply Contains_app_r. apply Contains_prefix, HasPrefix_app.
  - exists "次の表は". split; [now left|].
    do 12 apply Contains_app_r. apply Contains_prefix, HasPrefix_app.
  - exists "次の資料". split; [now left|].
    do 13 apply Contains_app_r. apply Contains_prefix, HasPrefix_app.
Qed.

(** X25: the health state never gates a call, and the token limit of
    the configuration is never read: two engines with the same model,
    the same URL and the same rotation counters, one online and one
    not, whatever their failure counters, return the same result from
    [GeneratePersonalizedProblem] and from [GenerateFeedback]. *)
Theorem health_state_never_gates e1 e2 backend now :
  Model (config e1) = Model (config e2) ->
  OllamaURL (config e1) = OllamaURL (config e2) ->
  problemIndex e1 = problemIndex e2 ->
  (forall ctx,
      fst <$> GeneratePersonalizedProblem unmarshal e1 backend now ctx
      = fst <$> GeneratePersonalizedProblem unmarshal e2 backend now ctx)
  /\ (forall req,
        fst <$> GenerateFeedback unmarshal e1 backend now req
        = fst <$> GenerateFeedback unmarshal e2 backend now req).
Proof.
  intros Hm Hu Hi. split.
  - intros ctx. unfold GeneratePersonalizedProblem. cbn [shouldTryAI negb].
    destruct (buildPersonalizedPrompt ctx) as [prompt|]; [cbn|reflexivity].
    rewrite (generate_config e1 e2 backend prompt Hm Hu).
    destruct (generate unmarshal e2 backend prompt) as [response|err].
    + destruct (parseProblemResponse response); reflexivity.
    + pose proof (generateOfflineProblem_counters
                    (recordFailure e1 now) (recordFailure e2 now) ctx Hi) as H.
      destruct (generateOfflineProblem (recordFailure e1 now) ctx) as [[p1 e1']|],
               (generateOfflineProblem (recordFailure e2 now) ctx) as [[p2 e2']|];
        cbn in H |- *; congruence.
  - intros req. unfold GenerateFeedback. cbn [shouldTryAI negb].
    destruct (buildFeedbackPrompt req) as [prompt|]; [cbn|reflexivity].
    rewrite (generate_config e1 e2 backend prompt Hm Hu).
    destruct (generate unmarshal e2 backend prompt); reflexivity.
Qed.
End NumbersAndPrompts.

Section NumbersAndPromptsExamples.
Import GoStrings Ai Props AiOps MoreProps.

Lemma number_round_trip_witness :
  Atoi (formatInt (-180)) = Some (-180) /\ parseInt (formatInt (-180)) = -180
  /\ forall fs1 key fs2 defaultValue,
       cleanRecord (fs1 ++ fs2) = true -> cleanKey key = true ->
       ~ In key (map fst fs2) ->
       parseInt (getField
                   (parseKeyValueResponse
                      (renderRecord (fs1 ++ (key, formatInt (-180)) :: fs2)))
                   key defaultValue) = -180.
Proof. apply (number_round_trip (-180)). vm_compute. intuition discriminate. Defined.

Lemma prompt_names_every_blocked_phrase_witness :
  exists named,
    ("次の数式は" = named \/ "次の数式は" = named +:+ "は")
    /\ Contains (default "" (buildPersonalizedPrompt (mathContext 3)))
                (quoted named) = true.
Proof.
  apply (prompt_names_every_blocked_phrase (mathContext 3)
           (default "" (buildPersonalizedPrompt (mathContext 3))) "次の数式は").
  - vm_compute. reflexivity.
  - vm_compute. auto 10.
Defined.

Lemma health_state_never_gates_witness :
  (forall ctx,
      fst <$> GeneratePersonalizedProblem Json.Unmarshal freshEngine refusing 9 ctx
      = fst <$> GeneratePersonalizedProblem Json.Unmarshal offlineEngine refusing 9 ctx)
  /\ (forall req,
        fst <$> GenerateFeedback Json.Unmarshal freshEngine refusing 9 req
        = fst <$> GenerateFeedback Json.Unmarshal offlineEngine refusing 9 req).
Proof.
  apply (health_state_never_gates Json.Unmarshal freshEngine offlineEngine refusing 9);
    reflexivity.
Defined.

Lemma returned_problem_passes_validation_witness :
  exists p e',
    GeneratePersonalizedProblem Json.Unmarshal freshEngine refusing 1 (mathContext 2)
    = Some (Ok p, e')
    /\ validateProblem p = Some (p, None).
Proof.
  eexists _, _. split.
  - vm_compute. reflexivity.
  - eapply (returned_problem_passes_validation Json.Unmarshal freshEngine
              refusing 1 (mathContext 2)).
    vm_compute. reflexivity.
Defined.
End NumbersAndPromptsExamples.

(** ** Blanks around the lines of a response *)

Section Blanks.
Import GoStrings Ai Props AiOps MoreProps.

Lemma blankByte_spec c :
  blankByte c = true ->
  asciiSpace c = true /\ byteIs c 10 = false /\ byteIs c 96 = false
  /\ code c < 128.
Proof.
  unfold blankByte, asciiSpace, byteIs. rewrite !orb_true_iff, !Z.eqb_eq.
  intros H. repeat split.
  - intuition.
  - apply Z.eqb_neq. lia.
  - apply Z.eqb_neq. lia.
  - lia.
Qed.

Lemma blank_app a b : blank (a +:+ b) = blank a && blank b.
Proof.
  induction a as [|c a IH]; [reflexivity|].
  rewrite app_cons. cbn [blank]. now rewrite IH, andb_assoc.
Qed.

Lemma blank_reverse ws : blank (reverse ws "") = blank ws.
Proof.
  induction ws as [|c ws IH]; [reflexivity|].
  cbn [reverse]. rewrite reverse_acc, blank_app, IH. cbn [blank].
  now rewrite andb_true_r, andb_comm.
Qed.

Lemma blank_asciiHead ws t : blank ws = true -> asciiHead t -> asciiHead (ws +:+ t).
Proof.
  destruct ws as [|c ws]; [now rewrite app_empty_l|]. cbn [blank].
  rewrite andb_true_iff. intros [Hc _] _. rewrite app_cons.
  now apply blankByte_spec in Hc.
Qed.

Lemma blank_noLF ws : blank ws = true -> noByte 10 ws = true.
Proof.
  induction ws as [|c ws IH]; [reflexivity|]. cbn [blank noByte].
  rewrite andb_true_iff. intros [Hc Hws].
  destruct (blankByte_spec _ Hc) as (_ & -> & _). now rewrite IH.
Qed.

Lemma trimLeft_blank ws x : blank ws = true -> trimLeft (ws +:+ x) = trimLeft x.
Proof.
  induction ws as [|c ws IH]; [now rewrite app_empty_l|]. cbn [blank].
  rewrite andb_true_iff. intros [Hc Hws].
  destruct (blankByte_spec _ Hc) as (Hsp & _).
  rewrite app_cons, trimLeft_cons, Hsp. now apply IH.
Qed.

Lemma trimLeftRev_blank ws x :
  blank ws = true -> trimLeftRev (ws +:+ x) = trimLeftRev x.
Proof.
  induction ws as [|c ws IH]; [now rewrite app_empty_l|]. cbn [blank].
  rewrite andb_true_iff. intros [Hc Hws].
  destruct (blankByte_spec _ Hc) as (Hsp & _).
  rewrite app_cons, trimLeftRev_cons, Hsp. now apply IH.
Qed.

Lemma trimRight_blank x ws : blank ws = true -> trimRight (x +:+ ws) = trimRight x.
Proof.
  intros H. unfold trimRight. rewrite reverse_app.
  now rewrite trimLeftRev_blank by (now rewrite blank_reverse).
Qed.

(** Fences: a blank keeps them apart. *)
Lemma noFence_blank_l ws b :
  blank ws = true -> noFence b = true -> noFence (ws +:+ b) = true.
Proof.
  induction ws as [|c ws IH]; [now rewrite app_empty_l|]. cbn [blank].
  rewrite andb_true_iff. intros [Hc Hws] Hb.
  destruct (blankByte_spec _ Hc) as (_ & _ & H96 & _).
  rewrite app_cons. apply (noFence_app_sep ""); [assumption|reflexivity|].
  now apply IH.
Qed.

Lemma noFence_blank_r a ws :
  noFence a = true -> blank ws = true -> noFence (a +:+ ws) = true.
Proof.
  intros Ha Hws. destruct ws as [|c ws]; [now rewrite app_empty_r|].
  cbn [blank] in Hws. apply andb_true_iff in Hws as [Hc Hws].
  destruct (blankByte_spec _ Hc) as (_ & _ & H96 & _).
  apply noFence_app_sep; [assumption..|].
  rewrite <- (app_empty_r ws). now apply noFence_blank_l.
Qed.

(** A trimmed text after a text that ends with an ASCII byte. *)
Lemma trimRight_after w s :
  (w = "" \/ exists t c, w = t +:+ String c "" /\ code c < 128) ->
  trimRight s = s -> s <> "" -> trimRight (w +:+ s) = w +:+ s.
Proof.
  intros [->|(t & c & -> & Hc)] Hs Hne; [now rewrite app_empty_l|].
  rewrite app_assoc_s, app_cons, app_empty_l. now apply trimRight_stable.
Qed.

Lemma ends_ascii_blank w ws :
  (w = "" \/ exists t c, w = t +:+ String c "" /\ code c < 128) ->
  blank ws = true ->
  w +:+ ws = "" \/ exists t c, w +:+ ws = t +:+ String c "" /\ code c < 128.
Proof.
  intros Hw. revert w Hw. induction ws as [|c ws IH]; intros w Hw Hws.
  - now rewrite app_empty_r.
  - cbn [blank] in Hws. apply andb_true_iff in Hws as [Hc Hws].
    destruct (blankByte_spec _ Hc) as (_ & _ & _ & H128).
    replace (w +:+ String c ws) with ((w +:+ String c "") +:+ ws)
      by (now rewrite app_assoc_s).
    apply IH; [|assumption]. right. eauto.
Qed.

(** What the parser sees of a padded line. *)
Lemma TrimSpace_padded l' l : trimmed l -> padded l' l -> TrimSpace l' = l.
Proof.
  intros (Hne & Hl & Hr) (ws1 & ws2 & H1 & H2 & ->). unfold TrimSpace.
  rewrite trimLeft_blank by assumption.
  rewrite trimLeft_stable;
    [|assumption..|rewrite <- (app_empty_r ws2); now apply blank_asciiHead].
  now rewrite trimRight_blank.
Qed.

Lemma padded_clean l' l :
  trimmed l -> noByte 10 l = true -> noFence l = true -> padded l' l ->
  noByte 10 l' = true /\ noFence l' = true.
Proof.
  intros _ H10 H96 (ws1 & ws2 & H1 & H2 & ->). split.
  - now rewrite !noByte_app, H10, !blank_noLF.
  - apply noFence_blank_l; [assumption|]. now apply noFence_blank_r.
Qed.

Lemma parseLine_TrimSpace st l' l :
  TrimSpace l' = TrimSpace l -> parseLine st l' = parseLine st l.
Proof. intros H. unfold parseLine. now rewrite H. Qed.

Lemma fold_parseLine_padded ls : forall ls0 st,
  Forall trimmed ls0 -> Forall2 padded ls ls0 ->
  fold_left parseLine ls st = fold_left parseLine ls0 st.
Proof.
  induction ls as [|x ls IH]; intros ls0 st Ht H.
  - apply Forall2_nil_inv_l in H as ->. reflexivity.
  - apply Forall2_cons_inv_l in H as (l & ls0' & Hx & Hls & ->).
    apply Forall_cons in Ht as [Hl Ht]. cbn [fold_left].
    rewrite (parseLine_TrimSpace st x l).
    + now apply IH.
    + now rewrite (TrimSpace_padded _ _ Hl Hx), (trimmed_TrimSpace _ Hl).
Qed.

(** The text of padded lines, trimmed, is the text of padded lines. *)
Lemma TrimSpace_Join_padded ls ls0 :
  ls0 <> [] ->
  Forall (fun l => trimmed l /\ noByte 10 l = true /\ noFence l = true) ls0 ->
  Forall2 padded ls ls0 ->
  exists ls', TrimSpace (Join ls LF) = Join ls' LF /\ Forall2 padded ls' ls0.
Proof.
  intros Hne Hclean Hpad.
  destruct (exists_last Hne) as (init0 & last0 & ->).
  apply Forall2_app_inv_r in Hpad as (init & lastl & Hinit & Hlast & ->).
  apply Forall2_cons_inv_r in Hlast as (xn & nil' & Hxn & Hnil & ->).
  apply Forall2_nil_inv_r in Hnil as ->.
  apply Forall_app in Hclean as [Hci Hcl].
  apply Forall_cons in Hcl as [(Htn & _) _].
  destruct Hxn as (wn1 & wn2 & Hwn1 & Hwn2 & ->).
  destruct init as [|x1 mid].
  - apply Forall2_nil_inv_l in Hinit as ->.
    exists [last0]. split.
    + cbn [app Join]. apply TrimSpace_padded; [assumption|].
      now exists wn1, wn2.
    + constructor; [|constructor]. exists "", "".
      now rewrite app_empty_l, app_empty_r.
  - apply Forall2_cons_inv_l in Hinit as (l1 & mid0 & Hx1 & Hmid & ->).
    apply Forall_cons in Hci as [(Ht1 & _) Hcm].
    destruct Hx1 as (w11 & w12 & Hw11 & Hw12 & ->).
    exists (((l1 +:+ w12) :: mid) ++ [wn1 +:+ last0]). split.
    + unfold TrimSpace.
      rewrite !Join_app by discriminate.
      change (Join [wn1 +:+ last0 +:+ wn2] LF) with (wn1 +:+ last0 +:+ wn2).
      change (Join [wn1 +:+ last0] LF) with (wn1 +:+ last0).
      rewrite !Join_contLines, !app_assoc_s.
      rewrite trimLeft_blank by assumption.
      destruct Ht1 as (Hne1 & Hl1 & _).
      rewrite trimLeft_stable; [|assumption..|].
      2:{ apply blank_asciiHead; [assumption|].
          destruct mid; [reflexivity|]. cbn [contLines].
          rewrite app_cons. reflexivity. }
      replace (l1 +:+ w12 +:+ contLines mid +:+ LF +:+ wn1 +:+ last0 +:+ wn2)
        with ((l1 +:+ w12 +:+ contLines mid +:+ LF +:+ wn1 +:+ last0) +:+ wn2)
        by (now rewrite !app_assoc_s).
      rewrite trimRight_blank by assumption.
      replace (l1 +:+ w12 +:+ contLines mid +:+ LF +:+ wn1 +:+ last0)
        with (((l1 +:+ w12 +:+ contLines mid +:+ LF) +:+ wn1) +:+ last0)
        by (now rewrite !app_assoc_s).
      destruct Htn as (Hnen & _ & Hrn).
      rewrite trimRight_after; [now rewrite !app_assoc_s| |assumption..].
      apply ends_ascii_blank; [|assumption]. right.
      exists (l1 +:+ w12 +:+ contLines mid), "010"%char.
      split; [now rewrite !app_assoc_s|reflexivity].
    + apply Forall2_app.
      * constructor; [|assumption]. exists "", w12.
        now rewrite app_empty_l.
      * constructor; [|constructor]. exists wn1, "".
        now rewrite app_empty_r.
Qed.

Lemma padded_lines_clean ls : forall ls0,
  Forall (fun l => trimmed l /\ noByte 10 l = true /\ noFence l = true) ls0 ->
  Forall2 padded ls ls0 ->
  Forall (fun l => noByte 10 l = true /\ noFence l = true) ls.
Proof.
  induction ls as [|x ls IH]; intros ls0 Hc H; [constructor|].
  apply Forall2_cons_inv_l in H as (l & ls0' & Hx & Hls & ->).
  apply Forall_cons in Hc as [(Ht & H10 & H96) Hc].
  constructor; [now apply (padded_clean x l)|]. now apply (IH ls0').
Qed.

(** X26: blanks (spaces, tabs, carriage returns) before and after the
    lines of a clean record change nothing: indented lines, trailing
    spaces and CRLF line ends give the fields of the record. *)
Theorem blanks_around_lines_are_ignored fs ls :
  cleanRecord fs = true -> Forall2 padded ls (recordLines fs) ->
  parseKeyValueResponse (Join ls LF) = parseKeyValueResponse (renderRecord fs).
Proof.
  intros Hfs Hpad. rewrite (parse_rendered _ Hfs).
  pose proof (recordLines_clean _ Hfs) as Hclean.
  destruct fs as [|kv fs].
  { apply Forall2_nil_inv_r in Hpad as ->. reflexivity. }
  assert (Hne : recordLines (kv :: fs) <> [])
    by now apply recordLines_not_nil.
  destruct (TrimSpace_Join_padded _ _ Hne Hclean Hpad) as (ls' & Htrim & Hpad').
  pose proof (padded_lines_clean _ _ Hclean Hpad) as Hls.
  pose proof (padded_lines_clean _ _ Hclean Hpad') as Hls'.
  unfold parseKeyValueResponse.
  rewrite RemoveFences_noFence.
  2:{ apply noFence_Join. eapply Forall_impl; [exact Hls|]. now intros l [_ ?]. }
  rewrite Htrim, SplitNewline_Join.
  2:{ intros ->. apply Forall2_nil_inv_l in Hpad'. contradiction. }
  2:{ eapply Forall_impl; [exact Hls'|]. now intros l [? _]. }
  rewrite (fold_parseLine_padded ls' (recordLines (kv :: fs))).
  - now rewrite fold_recordLines.
  - eapply Forall_impl; [exact Hclean|]. now intros l (? & _).
  - assumption.
Qed.

Lemma blanks_around_lines_are_ignored_witness :
  parseKeyValueResponse (Join indentedLines LF)
  = parseKeyValueResponse (renderRecord threeLineRecord).
Proof.
  apply (blanks_around_lines_are_ignored threeLineRecord indentedLines).
  - vm_compute. reflexivity.
  - replace (recordLines threeLineRecord)
      with ["TITLE: 二等辺三角形の角度 `ABC`";
            "EXPLANATION: 三角形の内角の和は180度です。";
            "45度 + 角B + 45度 = 180度";
            "よって角B = 90度です。";
            "DIFFICULTY: 3"]
      by (vm_compute; reflexivity).
    unfold indentedLines.
    constructor; [exists "", CR; repeat split|].
    constructor; [exists "  ", CR; repeat split|].
    constructor; [exists "    ", (" " +:+ CR); repeat split|].
    constructor; [exists "    ", CR; repeat split|].
    constructor; [exists "  ", CR; repeat split|].
    constructor.
Defined.
End Blanks.

(** ** Further examples *)

Section FurtherExamples.
Import GoStrings Ai Props AiOps MoreProps.

Lemma parsed_problem_has_four_options_witness :
  parseProblemResponse (renderRecord (bareRecord "日本の地理" "日本の首都はどこですか？"))
  = Some (Ok (bareProblem "日本の地理" "日本の首都はどこですか？"))
  /\ length (Options (bareProblem "日本の地理" "日本の首都はどこですか？")) = 4%nat.
Proof.
  assert (H : parseProblemResponse
                (renderRecord (bareRecord "日本の地理" "日本の首都はどこですか？"))
              = Some (Ok (bareProblem "日本の地理" "日本の首都はどこですか？")))
    by (vm_compute; reflexivity).
  split; [exact H|].
  exact (proj1 (parsed_problem_has_four_options _) _ H).
Defined.

Lemma generated_text_is_trimmed_witness :
  GenerateStudyTip Json.Unmarshal freshEngine
    (answering [fragmentLine "  毎日10分、図を書いて考えましょう。 " true]) "数学" "図形"
  = Ok "毎日10分、図を書いて考えましょう。"
  /\ TrimSpace "毎日10分、図を書いて考えましょう。" = "毎日10分、図を書いて考えましょう。".
Proof.
  assert (H : GenerateStudyTip Json.Unmarshal freshEngine
                (answering [fragmentLine "  毎日10分、図を書いて考えましょう。 " true])
                "数学" "図形"
              = Ok "毎日10分、図を書いて考えましょう。")
    by (vm_compute; reflexivity).
  split; [exact H|].
  exact (proj2 (generated_text_is_trimmed Json.Unmarshal freshEngine _) _ _ _ H).
Defined.

Lemma feedback_call_panics_exactly_when_witness :
  GeneratePersonalizedProblem Json.Unmarshal freshEngine refusing 1 (mathContext 0)
  = Some (Ok defaultMathProblem, recordFailure freshEngine 1)
  /\ exists r e2,
       GenerateFeedback Json.Unmarshal (recordFailure freshEngine 1) refusing 2
         (feedbackRequestFor defaultMathProblem) = Some (r, e2).
Proof.
  assert (H : GeneratePersonalizedProblem Json.Unmarshal freshEngine refusing 1
                (mathContext 0)
              = Some (Ok defaultMathProblem, recordFailure freshEngine 1))
    by (vm_compute; reflexivity).
  split; [exact H|].
  exact (proj2 (feedback_call_panics_exactly_when Json.Unmarshal)
           freshEngine refusing 1 (mathContext 0) defaultMathProblem
           (recordFailure freshEngine 1) refusing 2
           (feedbackRequestFor defaultMathProblem) H eq_refl).
Defined.

Lemma rotation_counters_stay_bounded_witness :
  exists r e',
    GeneratePersonalizedProblem Json.Unmarshal freshEngine refusing 1 (mathContext 3)
    = Some (r, e')
    /\ countersBounded e'.
Proof.
  destruct (GeneratePersonalizedProblem Json.Unmarshal freshEngine refusing 1
              (mathContext 3)) as [[r e']|] eqn:H; [|vm_compute in H; discriminate].
  exists r, e'. split; [reflexivity|].
  destruct (rotation_counters_stay_bounded Json.Unmarshal) as (Hnew & Hcall & _).
  exact (Hcall freshEngine refusing 1 (mathContext 3) r e'
           (Hnew exampleConfig 0) H).
Defined.

Lemma rotations_are_independent_witness :
  exists p e1,
    getMathProblem freshEngine 2 = Some (p, e1)
    /\ fst <$> getMathProblem e1 3 = fst <$> getMathProblem freshEngine 3.
Proof.
  destruct (getMathProblem freshEngine 2) as [[p e1]|] eqn:H;
    [|vm_compute in H; discriminate].
  exists p, e1. split; [reflexivity|].
  apply (proj1 (rotations_are_independent freshEngine 3 2 p e1));
    [discriminate|exact H].
Defined.
End FurtherExamples.

(** ** The time of a parsed problem *)

Section ParsedTime.
Import GoStrings Ai Props AiOps MoreProps.

Variable unmarshal : string -> option OllamaResponse.

(** [parseProblemResponse] validates the problem of the fields. *)
Lemma parseProblemResponse_fields response :
  parseProblemResponse response =
    let fields := parseKeyValueResponse response in
    if Nat.eqb (size fields) 0 then Some (Err (ResponseParseError response))
    else
      '(problem, verr) ← validateProblem (fieldsProblem fields);
      match verr with
      | Some err => Some (Err (ProblemValidationError err))
      | None => Some (Ok problem)
      end.
Proof. reflexivity. Qed.

Lemma validateProblem_plain q :
  structurallyValid q -> plainSubject (Description q) ->
  validateProblem q = Some (withDefaultTime q, None).
Proof.
  intros Hs Hp. rewrite (validateProblem_structural _ Hs). cbv zeta.
  destruct Hp as [-> | [-> ->]]; [reflexivity|].
  destruct (validateIsMathProblem _); reflexivity.
Qed.

Lemma withDefaultTime_fields fields :
  withDefaultTime (fieldsProblem fields) =
    setEstimatedTime (fieldsProblem fields)
      (if parseInt (getField fields "TIME" "300") <=? 0 then 300
       else parseInt (getField fields "TIME" "300")).
Proof.
  unfold withDefaultTime.
  change (EstimatedTime (fieldsProblem fields))
    with (parseInt (getField fields "TIME" "300")).
  destruct (parseInt (getField fields "TIME" "300") <=? 0); reflexivity.
Qed.

Lemma parseProblemResponse_time response p :
  parseProblemResponse response = Some (Ok p) ->
  validateProblem (fieldsProblem (parseKeyValueResponse response)) = Some (p, None)
  /\ EstimatedTime p
     = if parsedTime response <=? 0 then 300 else parsedTime response.
Proof.
  rewrite parseProblemResponse_fields. cbv zeta.
  destruct (Nat.eqb _ 0); [discriminate|].
  destruct (validateProblem (fieldsProblem _)) as [[p' [err|]]|] eqn:Hv;
    cbn; try discriminate.
  intros [= <-]. split; [reflexivity|].
  apply validateProblem_accepts in Hv as [_ ->].
  rewrite withDefaultTime_fields. reflexivity.
Qed.

Lemma parseProblemResponse_plain response fields :
  parseKeyValueResponse response = fields -> fields <> ∅ ->
  structurallyValid (fieldsProblem fields) ->
  plainSubject (Description (fieldsProblem fields)) ->
  parseProblemResponse response =
    Some (Ok (setEstimatedTime (fieldsProblem fields)
                (if parsedTime response <=? 0 then 300 else parsedTime response))).
Proof.
  intros Hf Hne Hs Hp. rewrite parseProblemResponse_fields. cbv zeta.
  unfold parsedTime. rewrite Hf.
  destruct (Nat.eqb_spec (size fields) 0) as [E|_].
  { now apply map_size_empty_iff in E. }
  rewrite (validateProblem_plain _ Hs Hp). cbn.
  now rewrite withDefaultTime_fields.
Qed.

(** C2: every problem that [GeneratePersonalizedProblem] returns without
    error, parsed or from the bank, has its correct index within the
    options, at least two options, a difficulty from 1 to 5 and a
    positive estimated time; and the time is never a reason to reject.
    The error of [validateProblem] does not depend on the time, and an
    accepted problem whose time is not positive comes back with 300.
    The time of a problem that [parseProblemResponse] returns is the
    number read from the TIME field when that is positive and 300 when
    it is not.  And a response whose fields pass the structural checks
    and whose description passes the subject checks is returned by
    [GeneratePersonalizedProblem] as the problem of its fields, with
    that time, whatever number the TIME field holds. *)
Theorem returned_problem_valid :
  (forall e backend now ctx p e',
      GeneratePersonalizedProblem unmarshal e backend now ctx = Some (Ok p, e') ->
      validProblem p)
  /\ (forall q t,
        snd <$> validateProblem (setEstimatedTime q t) = snd <$> validateProblem q)
  /\ (forall q q',
        validateProblem q = Some (q', None) -> EstimatedTime q <= 0 ->
        q' = setEstimatedTime q 300)
  /\ (forall response p,
        parseProblemResponse response = Some (Ok p) ->
        validateProblem (fieldsProblem (parseKeyValueResponse response))
        = Some (p, None)
        /\ EstimatedTime p
           = if parsedTime response <=? 0 then 300 else parsedTime response)
  /\ (forall e backend now ctx prompt response fields,
        buildPersonalizedPrompt ctx = Some prompt ->
        generate unmarshal e backend prompt = Ok response ->
        parseKeyValueResponse response = fields -> fields <> ∅ ->
        structurallyValid (fieldsProblem fields) ->
        plainSubject (Description (fieldsProblem fields)) ->
        GeneratePersonalizedProblem unmarshal e backend now ctx =
          Some (Ok (setEstimatedTime (fieldsProblem fields)
                      (if parsedTime response <=? 0 then 300
                       else parsedTime response)),
                recordSuccess e now)).
Proof.
  split; [|split; [|split; [|split]]].
  - intros e backend now ctx p e'. unfold GeneratePersonalizedProblem.
    cbn [shouldTryAI negb].
    destruct (buildPersonalizedPrompt ctx) as [prompt|]; [cbn|discriminate].
    destruct (generate unmarshal e backend prompt) as [response|err].
    + destruct (parseProblemResponse response) as [[q|perr]|] eqn:Hparse;
        cbn; try discriminate.
      intros [= <- _]. eapply (parseProblemResponse_valid unmarshal), Hparse.
    + destruct (generateOfflineProblem _ ctx) as [[q e1]|] eqn:Hoff;
        cbn; [|discriminate].
      intros [= <- _]. eapply generateOfflineProblem_valid, Hoff.
  - apply validateProblem_time_irrelevant.
  - intros q q' Hv Ht. apply validateProblem_accepts in Hv as [_ ->].
    unfold withDefaultTime. now rewrite (proj2 (Z.leb_le _ _) Ht).
  - apply parseProblemResponse_time.
  - intros e backend now ctx prompt response fields Hp Hg Hf Hne Hs Hsub.
    rewrite (GeneratePersonalizedProblem_backend_ok _ _ _ _ _ _ _ Hp Hg).
    now rewrite (parseProblemResponse_plain _ _ Hf Hne Hs Hsub).
Qed.
End ParsedTime.

Section ParsedTimeExamples.
Import GoStrings Ai Props AiOps MoreProps.

Lemma returned_problem_valid_witness :
  GeneratePersonalizedProblem Json.Unmarshal freshEngine
    (answering timeZeroStream) 1 socialContext
  = Some (Ok timeZeroProblem, recordSuccess freshEngine 1)
  /\ parsedTime timeZeroText = 0
  /\ EstimatedTime timeZeroProblem = 300
  /\ validProblem timeZeroProblem
  /\ parseProblemResponse timeKeptText = Some (Ok isosceles90)
  /\ parsedTime timeKeptText = 250
  /\ EstimatedTime isosceles90 = 250
  /\ exists p e',
      GeneratePersonalizedProblem Json.Unmarshal freshEngine
        refusing 1 (mathContext 3) = Some (Ok p, e')
      /\ validProblem p.
Proof.
  destruct (returned_problem_valid Json.Unmarshal)
    as (Hvalid & _ & _ & Htime & Hcall).
  assert (Hzero :
    GeneratePersonalizedProblem Json.Unmarshal freshEngine
      (answering timeZeroStream) 1 socialContext
    = Some (Ok timeZeroProblem, recordSuccess freshEngine 1)).
  { rewrite (Hcall freshEngine (answering timeZeroStream) 1 socialContext
               (default "" (buildPersonalizedPrompt socialContext))
               timeZeroText (parseKeyValueResponse timeZeroText)).
    - vm_compute. reflexivity.
    - vm_compute. reflexivity.
    - vm_compute. reflexivity.
    - reflexivity.
    - intros H. apply (f_equal (fun m => m !! "TITLE")) in H.
      vm_compute in H. discriminate.
    - vm_compute. intuition congruence.
    - left. vm_compute. reflexivity. }
  assert (Hkept : parseProblemResponse timeKeptText = Some (Ok isosceles90))
    by (vm_compute; reflexivity).
  split; [exact Hzero|].
  split; [vm_compute; reflexivity|].
  split; [reflexivity|].
  split; [exact (Hvalid _ _ _ _ _ _ Hzero)|].
  split; [exact Hkept|].
  split; [vm_compute; reflexivity|].
  split; [exact (proj2 (Htime _ _ Hkept))|].
  eexists _, _. split; [vm_compute; reflexivity|].
  eapply (Hvalid freshEngine refusing 1 (mathContext 3)).
  vm_compute. reflexivity.
Defined.
End ParsedTimeExamples.

(** ** Records with empty values *)

Section EmptyValues.
Import GoStrings Ai Props AiOps MoreProps.

(** The line of an empty value, as [TrimSpace] leaves it. *)
Lemma trimmed_colonLine k : trimmed k -> trimmed (k +:+ ":").
Proof.
  intros (Hk & Hkl & _). repeat split.
  - intros H. apply app_eq_empty in H as [? _]. contradiction.
  - apply trimLeft_stable; [assumption..|]. reflexivity.
  - apply trimRight_fixed_iff. rewrite reverse_app.
    change (reverse ":" "") with (String ":" "").
    rewrite app_cons, app_empty_l, trimLeftRev_cons.
    change (asciiSpace ":") with false. cbv iota.
    destruct (reverse k "") as [|b [|c s3]]; [reflexivity| |].
    + now rewrite space2_low_r.
    + now rewrite space2_low_r, space3_low_3.
Qed.

Lemma parseLine_colonLine st k :
  cleanKey k = true ->
  parseLine st (k +:+ ":")
  = {| fields := flushKey st; currentKey := k; currentValue := "" |}.
Proof.
  intros Hk. destruct (cleanKey_spec _ Hk) as (Hkt & _ & _ & Hcolon).
  pose proof (trimmed_colonLine _ Hkt) as Hline.
  unfold parseLine. rewrite (trimmed_TrimSpace _ Hline).
  destruct Hline as (Hne & _). rewrite (proj2 (String.eqb_neq _ _) Hne).
  change (k +:+ ":") with (k +:+ String ":" "").
  rewrite (Index_colon_first _ _ Hcolon), nonneg_not_minus_one.
  rewrite Nat2Z.id.
  replace (Z.to_nat (Z.of_nat (String.length k) + 1)) with (S (String.length k)) by lia.
  rewrite sliceTo_app, (trimmed_TrimSpace _ Hkt).
  replace (sliceFrom (k +:+ String ":" "") (S (String.length k))) with "".
  - reflexivity.
  - pose proof (sliceFrom_app (k +:+ String ":" "") "") as H.
    rewrite app_empty_r, length_app_s in H. cbn [String.length] in H.
    replace (String.length k + 1)%nat with (S (String.length k)) in H by lia.
    now rewrite H.
Qed.

Lemma padded_refl l : padded l l.
Proof. exists "", "". repeat split. now rewrite app_empty_l, app_empty_r. Qed.

(** The rendered lines are the trimmed ones, with a space after the
    colon of an empty value. *)
Lemma fieldLines_padded kv : Forall2 padded (fieldLines kv) (trimmedFieldLines kv).
Proof.
  unfold trimmedFieldLines. destruct (String.eqb kv.2 "") eqn:E.
  - apply String.eqb_eq in E. unfold fieldLines. rewrite E.
    change (SplitNewline "") with [""].
    constructor; [|constructor]. exists "", " ". repeat split.
    rewrite app_empty_l, app_assoc_s. reflexivity.
  - induction (fieldLines kv); constructor; [apply padded_refl|assumption].
Qed.

Lemma recordLines_padded fs :
  Forall2 padded (recordLines fs) (trimmedRecordLines fs).
Proof.
  induction fs as [|kv fs IH]; [constructor|].
  unfold recordLines, trimmedRecordLines. cbn [flat_map].
  apply Forall2_app; [apply fieldLines_padded|exact IH].
Qed.

Lemma roundTripField_cases kv :
  roundTripField kv = true ->
  cleanKey kv.1 = true
  /\ ((String.eqb kv.2 "" = true /\ kv.2 = "")
      \/ (String.eqb kv.2 "" = false /\ cleanField kv = true)).
Proof.
  unfold roundTripField, roundTripValue, cleanField.
  rewrite andb_true_iff. intros [Hk Hv]. split; [assumption|].
  destruct (String.eqb kv.2 "") eqn:E.
  - left. split; [reflexivity|]. now apply String.eqb_eq.
  - right. cbn [orb] in Hv. now rewrite Hk, Hv.
Qed.

Lemma trimmedFieldLines_clean kv :
  roundTripField kv = true ->
  Forall (fun l => trimmed l /\ noByte 10 l = true /\ noFence l = true)
         (trimmedFieldLines kv).
Proof.
  intros H. destruct (roundTripField_cases _ H) as [Hk [[E _]|[E Hkv]]];
    unfold trimmedFieldLines; rewrite E.
  - destruct (cleanKey_spec _ Hk) as (Hkt & Hk10 & Hk96 & _).
    constructor; [|constructor]. split; [now apply trimmed_colonLine|]. split.
    + now rewrite noByte_app, Hk10.
    + change (kv.1 +:+ ":") with (kv.1 +:+ String ":" "").
      now apply noFence_app_sep.
  - pose proof (recordLines_clean [kv]) as Hc.
    unfold recordLines in Hc. cbn [flat_map] in Hc.
    rewrite List.app_nil_r in Hc. apply Hc.
    cbn [cleanRecord forallb]. unfold cleanRecord. cbn [forallb].
    now rewrite Hkv.
Qed.

Lemma trimmedRecordLines_clean fs :
  roundTripRecord fs = true ->
  Forall (fun l => trimmed l /\ noByte 10 l = true /\ noFence l = true)
         (trimmedRecordLines fs).
Proof.
  induction fs as [|kv fs IH]; intros Hfs; [constructor|].
  cbn in Hfs. apply andb_true_iff in Hfs as [Hkv Hfs].
  unfold trimmedRecordLines. cbn [flat_map]. apply Forall_app.
  split; [now apply trimmedFieldLines_clean|now apply IH].
Qed.

Lemma trimmedFieldLines_not_nil kv : trimmedFieldLines kv <> [].
Proof.
  unfold trimmedFieldLines. destruct (String.eqb kv.2 ""); [discriminate|].
  apply fieldLines_not_nil.
Qed.

(** The lines of one field put its value, empty or not, under its
    key. *)
Lemma fold_trimmedFieldLines st kv :
  roundTripField kv = true ->
  flushKey (fold_left parseLine (trimmedFieldLines kv) st)
  = insertField (flushKey st) kv.
Proof.
  intros H. destruct (roundTripField_cases _ H) as [Hk [[E Hv]|[E Hkv]]];
    unfold trimmedFieldLines; rewrite E.
  - cbn [fold_left]. rewrite (parseLine_colonLine _ _ Hk).
    destruct (cleanKey_spec _ Hk) as ((Hkne & _) & _).
    unfold flushKey at 1, insertField. cbn [fields currentKey currentValue].
    rewrite (nonEmpty_true _ Hkne), Hv. reflexivity.
  - now rewrite (fold_fieldLines _ _ Hkv), (flushKey_field _ _ Hkv).
Qed.

Lemma fold_trimmedRecordLines fs : forall st,
  roundTripRecord fs = true ->
  flushKey (fold_left parseLine (trimmedRecordLines fs) st)
  = fold_left insertField fs (flushKey st).
Proof.
  induction fs as [|kv fs IH]; intros st Hfs; [reflexivity|].
  cbn in Hfs. apply andb_true_iff in Hfs as [Hkv Hfs].
  unfold trimmedRecordLines. cbn [flat_map fold_left]. rewrite fold_left_app.
  fold (trimmedRecordLines fs). rewrite IH by assumption.
  now rewrite (fold_trimmedFieldLines _ _ Hkv).
Qed.

Lemma parse_rendered_fields fs :
  roundTripRecord fs = true ->
  parseKeyValueResponse (renderRecord fs) = fold_left insertField fs ∅.
Proof.
  intros Hfs. destruct fs as [|kv fs]; [reflexivity|].
  pose proof (trimmedRecordLines_clean _ Hfs) as Hclean.
  pose proof (recordLines_padded (kv :: fs)) as Hpad.
  assert (Hne : trimmedRecordLines (kv :: fs) <> []).
  { unfold trimmedRecordLines. cbn [flat_map]. intros H.
    apply app_eq_nil in H as [H _]. now apply trimmedFieldLines_not_nil in H. }
  destruct (TrimSpace_Join_padded _ _ Hne Hclean Hpad) as (ls' & Htrim & Hpad').
  pose proof (padded_lines_clean _ _ Hclean Hpad) as Hls.
  pose proof (padded_lines_clean _ _ Hclean Hpad') as Hls'.
  rewrite renderRecord_lines. unfold parseKeyValueResponse.
  rewrite RemoveFences_noFence.
  2:{ apply noFence_Join. eapply Forall_impl; [exact Hls|]. now intros l [_ ?]. }
  rewrite Htrim, SplitNewline_Join.
  2:{ intros ->. apply Forall2_nil_inv_l in Hpad'. contradiction. }
  2:{ eapply Forall_impl; [exact Hls'|]. now intros l [? _]. }
  rewrite (fold_parseLine_padded ls' (trimmedRecordLines (kv :: fs))).
  - now rewrite fold_trimmedRecordLines.
  - eapply Forall_impl; [exact Hclean|]. now intros l (? & _).
  - assumption.
Qed.

(** C7, as amended: for a record whose keys are distinct and clean (not
    empty, no white space at either end, no colon, line feed or code
    fence) and whose values are empty or made of clean lines (not
    empty, no white space at either end, no code fence, no colon after
    the first line), parsing the rendered text gives back exactly the
    fields of the record, the empty values and the line feeds inside
    the values included. *)
Theorem key_value_round_trip fs :
  roundTripRecord fs = true -> NoDup (map fst fs) ->
  parseKeyValueResponse (renderRecord fs) = list_to_map fs
  /\ forall k v, In (k, v) fs ->
       parseKeyValueResponse (renderRecord fs) !! k = Some v.
Proof.
  intros Hfs Hnd.
  assert (H : parseKeyValueResponse (renderRecord fs) = list_to_map fs).
  { rewrite (parse_rendered_fields _ Hfs), (fold_insertField _ _ Hnd).
    apply (right_id_L ∅ (∪)). }
  split; [exact H|]. intros k v Hin. rewrite H.
  apply elem_of_list_to_map_1; [assumption|]. now apply list_elem_of_In.
Qed.

Lemma key_value_round_trip_witness :
  (parseKeyValueResponse (renderRecord emptyValueRecord)
   = list_to_map emptyValueRecord
   /\ forall k v, In (k, v) emptyValueRecord ->
        parseKeyValueResponse (renderRecord emptyValueRecord) !! k = Some v)
  /\ parseKeyValueResponse (renderRecord loneEmptyRecord) !! "A" = Some "".
Proof.
  split.
  - apply (key_value_round_trip emptyValueRecord).
    + vm_compute. reflexivity.
    + refine (bool_decide_unpack _ _). vm_compute. exact I.
  - apply (key_value_round_trip loneEmptyRecord).
    + vm_compute. reflexivity.
    + refine (bool_decide_unpack _ _). vm_compute. exact I.
    + left. reflexivity.
Defined.
End EmptyValues.
